(** * analisi_comp: the order-comparison pipeline, embedded and verified

    The pipeline is  A_import -> B_cleaning -> C_shaping -> D_output.  Every
    stage works on a pandas DataFrame with a known schema, so a frame is
    modelled as its column labels together with its rows, the rows being
    records whose fields carry the dtype the stage relies on.  Python
    exceptions are values of [Exception]; a function that can raise returns
    a [result]. *)

From Stdlib Require Import List String Ascii NArith ZArith QArith Qround Qminmax.
From Stdlib Require Import Bool Lia Permutation.
Import ListNotations.

Local Open Scope string_scope.
Local Open Scope list_scope.
Local Open Scope Z_scope.

(** ** Exceptions and results *)

Inductive Exception : Type :=
| ValueError (msg : string)
| KeyError (label : string)
| AssertionError (msg : string)
| IndexError (msg : string)
| UnboundLocalError (name : string)
| OverflowError (msg : string).

Inductive result (A : Type) : Type :=
| Ok (a : A)
| Raise (e : Exception).

Arguments Ok {A} a.
Arguments Raise {A} e.

Definition bind {A B : Type} (m : result A) (k : A -> result B) : result B :=
  match m with
  | Ok a => k a
  | Raise e => Raise e
  end.

Notation "x <- m ;; k" := (bind m (fun x => k))
  (at level 61, m at next level, right associativity).
Notation "m ;;; k" := (bind m (fun _ => k))
  (at level 61, right associativity).

Fixpoint mapM {A B : Type} (f : A -> result B) (l : list A) : result (list B) :=
  match l with
  | [] => Ok []
  | a :: l' => b <- f a ;; bs <- mapM f l' ;; Ok (b :: bs)
  end.

(** ** Frames *)

Record DataFrame (R : Type) : Type := mkDataFrame {
  columns : list string;
  rows : list R
}.

Arguments mkDataFrame {R} columns rows.
Arguments columns {R} d.
Arguments rows {R} d.

(** [label in df.columns] *)
Definition has_column {R : Type} (label : string) (df : DataFrame R) : bool :=
  existsb (String.eqb label) (columns df).

(** The labels after [df[label] = ...]: a new label goes last, an existing
    one keeps its place. *)
Definition with_label (label : string) (labels : list string) : list string :=
  if existsb (String.eqb label) labels then labels else labels ++ [label].

(** The labels after [df.drop(label, axis=1)]. *)
Definition without_label (label : string) (labels : list string) : list string :=
  filter (fun l => negb (String.eqb l label)) labels.

(** Reading [df[label]] raises [KeyError] when the label is absent. *)
Definition getitem {R : Type} (df : DataFrame R) (label : string) : result unit :=
  if has_column label df then Ok tt else Raise (KeyError label).

Fixpoint getitems {R : Type} (df : DataFrame R) (labels : list string) : result unit :=
  match labels with
  | [] => Ok tt
  | l :: ls => getitem df l ;;; getitems df ls
  end.

(** [Series.unique()]: the distinct values in order of first appearance. *)
Fixpoint unique (l : list string) : list string :=
  match l with
  | [] => []
  | x :: l' => x :: filter (fun y => negb (String.eqb y x)) (unique l')
  end.

(** [Series.nunique()] on a column without missing values. *)
Definition nunique (l : list string) : nat := List.length (unique l).

Definition str_in (x : string) (l : list string) : bool :=
  existsb (String.eqb x) l.

(** ** The order table of the shaper

    After [grouping] a row carries the nine dimensions and [qty]; the merge
    with the area table adds [launch_type]; the shaper adds the remaining
    columns.  A field whose label is not among [columns] holds no
    information: every function below tests the label before it reads the
    field, as the source tests [label in df.columns] or raises [KeyError]. *)

Record Row : Type := mkRow {
  release : string;
  brand : string;
  planned_delivery_yearweek : Z;
  creation_yearweek : Z;
  customer : string;
  customer_sold_to : string;
  division : string;
  dedalo_area : string;
  acquisition_mode_group : string;
  qty : Z;
  launch_type : option string;
  first_order : bool;
  new_acquisition_mode : string;
  common_creation_yearweek : Z;
  common_planned_delivery_yearweek : Z;
  till_today : string;
  comp : string;
  comp_today : string;
  outlier : bool;
  comp_no_out : string;
  comp_today_no_out : string
}.

Definition Frame : Type := DataFrame Row.

Definition set_first_order (v : bool) (r : Row) : Row :=
  mkRow (release r) (brand r) (planned_delivery_yearweek r) (creation_yearweek r)
        (customer r) (customer_sold_to r) (division r) (dedalo_area r)
        (acquisition_mode_group r) (qty r) (launch_type r)
        v (new_acquisition_mode r)
        (common_creation_yearweek r) (common_planned_delivery_yearweek r)
        (till_today r) (comp r) (comp_today r) (outlier r)
        (comp_no_out r) (comp_today_no_out r).

Definition set_new_acquisition_mode (v : string) (r : Row) : Row :=
  mkRow (release r) (brand r) (planned_delivery_yearweek r) (creation_yearweek r)
        (customer r) (customer_sold_to r) (division r) (dedalo_area r)
        (acquisition_mode_group r) (qty r) (launch_type r)
        (first_order r) v
        (common_creation_yearweek r) (common_planned_delivery_yearweek r)
        (till_today r) (comp r) (comp_today r) (outlier r)
        (comp_no_out r) (comp_today_no_out r).

Definition set_common_yearweeks (c p : Z) (r : Row) : Row :=
  mkRow (release r) (brand r) (planned_delivery_yearweek r) (creation_yearweek r)
        (customer r) (customer_sold_to r) (division r) (dedalo_area r)
        (acquisition_mode_group r) (qty r) (launch_type r)
        (first_order r) (new_acquisition_mode r)
        c p
        (till_today r) (comp r) (comp_today r) (outlier r)
        (comp_no_out r) (comp_today_no_out r).

Definition set_till_today (v : string) (r : Row) : Row :=
  mkRow (release r) (brand r) (planned_delivery_yearweek r) (creation_yearweek r)
        (customer r) (customer_sold_to r) (division r) (dedalo_area r)
        (acquisition_mode_group r) (qty r) (launch_type r)
        (first_order r) (new_acquisition_mode r)
        (common_creation_yearweek r) (common_planned_delivery_yearweek r)
        v (comp r) (comp_today r) (outlier r)
        (comp_no_out r) (comp_today_no_out r).

Definition set_comp (v : string) (r : Row) : Row :=
  mkRow (release r) (brand r) (planned_delivery_yearweek r) (creation_yearweek r)
        (customer r) (customer_sold_to r) (division r) (dedalo_area r)
        (acquisition_mode_group r) (qty r) (launch_type r)
        (first_order r) (new_acquisition_mode r)
        (common_creation_yearweek r) (common_planned_delivery_yearweek r)
        (till_today r) v (comp_today r) (outlier r)
        (comp_no_out r) (comp_today_no_out r).

Definition set_comp_today (v : string) (r : Row) : Row :=
  mkRow (release r) (brand r) (planned_delivery_yearweek r) (creation_yearweek r)
        (customer r) (customer_sold_to r) (division r) (dedalo_area r)
        (acquisition_mode_group r) (qty r) (launch_type r)
        (first_order r) (new_acquisition_mode r)
        (common_creation_yearweek r) (common_planned_delivery_yearweek r)
        (till_today r) (comp r) v (outlier r)
        (comp_no_out r) (comp_today_no_out r).

Definition set_outlier (v : bool) (r : Row) : Row :=
  mkRow (release r) (brand r) (planned_delivery_yearweek r) (creation_yearweek r)
        (customer r) (customer_sold_to r) (division r) (dedalo_area r)
        (acquisition_mode_group r) (qty r) (launch_type r)
        (first_order r) (new_acquisition_mode r)
        (common_creation_yearweek r) (common_planned_delivery_yearweek r)
        (till_today r) (comp r) (comp_today r) v
        (comp_no_out r) (comp_today_no_out r).

Definition set_comp_no_out (v : string) (r : Row) : Row :=
  mkRow (release r) (brand r) (planned_delivery_yearweek r) (creation_yearweek r)
        (customer r) (customer_sold_to r) (division r) (dedalo_area r)
        (acquisition_mode_group r) (qty r) (launch_type r)
        (first_order r) (new_acquisition_mode r)
        (common_creation_yearweek r) (common_planned_delivery_yearweek r)
        (till_today r) (comp r) (comp_today r) (outlier r)
        v (comp_today_no_out r).

Definition set_comp_today_no_out (v : string) (r : Row) : Row :=
  mkRow (release r) (brand r) (planned_delivery_yearweek r) (creation_yearweek r)
        (customer r) (customer_sold_to r) (division r) (dedalo_area r)
        (acquisition_mode_group r) (qty r) (launch_type r)
        (first_order r) (new_acquisition_mode r)
        (common_creation_yearweek r) (common_planned_delivery_yearweek r)
        (till_today r) (comp r) (comp_today r) (outlier r)
        (comp_no_out r) v.

(** [df[label] = values]: one value per row, computed from the row. *)
Definition assign (label : string) (f : Row -> Row) (df : Frame) : Frame :=
  mkDataFrame (with_label label (columns df)) (map f (rows df)).

Definition drop (label : string) (df : Frame) : Frame :=
  mkDataFrame (without_label label (columns df)) (rows df).

(** ** Numbers and text *)

Definition Qltb (x y : Q) : bool := (Qnum x * QDen y <? Qnum y * QDen x)%Z.

(** Python's [max] over a sequence of strings: the first greatest element
    in code-point order; an empty sequence raises [ValueError]. *)
Definition py_max_str (l : list string) : result string :=
  match l with
  | [] => Raise (ValueError "max() arg is an empty sequence")
  | x :: l' => Ok (fold_left (fun m y => if String.ltb m y then y else m) l' x)
  end.

Definition is_digit (c : ascii) : bool :=
  (48 <=? nat_of_ascii c)%nat && (nat_of_ascii c <=? 57)%nat.

Definition digit_value (c : ascii) : Z := Z.of_nat (nat_of_ascii c) - 48.

(** [Py_ISSPACE]: the white space of the C locale. *)
Definition is_space (c : ascii) : bool :=
  let n := nat_of_ascii c in
  ((9 <=? n)%nat && (n <=? 13)%nat) || (n =? 32)%nat.

(** A [str] is held as its UTF-8 bytes, so that the order of two texts is
    the order of their code points.  The bytes of a text are read as code
    points; bytes that are no UTF-8 give [None]. *)
Fixpoint decode_utf8 (cs : list ascii) (pending : nat) (cur : Z) : option (list Z) :=
  match cs with
  | [] => match pending with O => Some [] | S _ => None end
  | c :: cs' =>
      let n := Z.of_nat (nat_of_ascii c) in
      match pending with
      | O =>
          if n <? 128 then option_map (cons n) (decode_utf8 cs' 0 0)
          else if n <? 192 then None
          else if n <? 224 then decode_utf8 cs' 1 (n - 192)
          else if n <? 240 then decode_utf8 cs' 2 (n - 224)
          else if n <? 248 then decode_utf8 cs' 3 (n - 240)
          else None
      | S p =>
          if (128 <=? n) && (n <? 192) then
            let v := cur * 64 + (n - 128) in
            match p with
            | O => option_map (cons v) (decode_utf8 cs' 0 0)
            | S _ => decode_utf8 cs' p v
            end
          else None
      end
  end.

(** The number of bytes of the character that begins with the byte [c]. *)
Definition char_width (c : ascii) : nat :=
  let n := nat_of_ascii c in
  if (n <? 192)%nat then 1 else if (n <? 224)%nat then 2 else if (n <? 240)%nat then 3 else 4.

(** [s[:n]]: the first [n] characters. *)
Fixpoint take_chars (n : nat) (cs : list ascii) : list ascii :=
  match n, cs with
  | S n', c :: cs' =>
      c :: firstn (char_width c - 1) cs'
        ++ take_chars n' (skipn (char_width c - 1) cs')
  | _, _ => []
  end.

Definition str_prefix (n : nat) (s : string) : string :=
  string_of_list_ascii (take_chars n (list_ascii_of_string s)).

(** [Py_UNICODE_ISSPACE] beyond ASCII. *)
Definition is_unicode_space (n : Z) : bool :=
  (n =? 133) || (n =? 160) || (n =? 5760) || ((8192 <=? n) && (n <=? 8202))
  || (n =? 8232) || (n =? 8233) || (n =? 8239) || (n =? 8287) || (n =? 12288).

(** The code point of the digit zero of every script with decimal digits
    (Unicode 14, the database of Python 3.11); the other nine digits of the
    script follow it. *)
Definition decimal_zeros : list Z :=
  [48; 1632; 1776; 1984; 2406; 2534; 2662; 2790; 2918; 3046; 3174; 3302; 3430; 3558;
   3664; 3792; 3872; 4160; 4240; 6112; 6160; 6470; 6608; 6784; 6800; 6992; 7088; 7232;
   7248; 42528; 43216; 43264; 43472; 43504; 43600; 44016; 65296; 66720; 68912; 69734;
   69872; 69942; 70096; 70384; 70736; 70864; 71248; 71360; 71472; 71904; 72016; 72784;
   73040; 73120; 92768; 92864; 93008; 120782; 120792; 120802; 120812; 120822; 123200;
   123632; 125264; 130032].

(** [Py_UNICODE_TODECIMAL] *)
Definition unicode_decimal (n : Z) : option Z :=
  option_map (fun zero => n - zero)
    (find (fun zero => (zero <=? n) && (n <=? zero + 9)) decimal_zeros).

(** [_PyUnicode_TransformDecimalAndSpaceToASCII] on a text that is not
    ASCII: a code point below 127 stays, white space becomes a blank, a
    decimal digit its ASCII digit, anything else ['?']. *)
Definition transform_decimal_and_space (n : Z) : ascii :=
  if n <? 127 then ascii_of_nat (Z.to_nat n)
  else if is_unicode_space n then " "%char
  else match unicode_decimal n with
       | Some d => ascii_of_nat (Z.to_nat (48 + d))
       | None => "?"%char
       end.

Definition is_ascii (c : ascii) : bool := (nat_of_ascii c <? 128)%nat.

(** The digits of a decimal literal; a single underscore may stand between
    two digits. *)
Fixpoint digits_value (acc : Z) (cs : list ascii) : option Z :=
  match cs with
  | [] => Some acc
  | c :: cs' =>
      if is_digit c then digits_value (10 * acc + digit_value c) cs'
      else if Ascii.eqb c "_" then
        match cs' with
        | d :: _ => if is_digit d then digits_value acc cs' else None
        | [] => None
        end
      else None
  end.

Fixpoint lstrip (cs : list ascii) : list ascii :=
  match cs with
  | c :: cs' => if is_space c then lstrip cs' else cs
  | [] => []
  end.

Definition strip (cs : list ascii) : list ascii :=
  rev (lstrip (rev (lstrip cs))).

Definition unsigned_int (cs : list ascii) : option Z :=
  match cs with
  | c :: _ => if is_digit c then digits_value 0 cs else None
  | [] => None
  end.

(** [int(s)] for a string [s], as [astype(int)] applies it to each value:
    an ASCII text is parsed as it is, any other text after its digits and
    white space have been made ASCII. *)
Definition py_int (s : string) : result Z :=
  let bytes := list_ascii_of_string s in
  let text :=
    if forallb is_ascii bytes then Some bytes
    else option_map (map transform_decimal_and_space) (decode_utf8 bytes 0 0) in
  let parsed :=
    match option_map strip text with
    | Some (c :: cs) =>
        if Ascii.eqb c "-" then option_map Z.opp (unsigned_int cs)
        else if Ascii.eqb c "+" then unsigned_int cs
        else unsigned_int (c :: cs)
    | _ => None
    end in
  match parsed with
  | Some z => Ok z
  | None => Raise (ValueError "invalid literal for int() with base 10")
  end.

(** Insertion sort; the order of equal elements is kept. *)
Fixpoint insert_sorted {A : Type} (leb : A -> A -> bool) (x : A) (l : list A) : list A :=
  match l with
  | [] => [x]
  | y :: l' => if leb x y then x :: l else y :: insert_sorted leb x l'
  end.

Definition sorted {A : Type} (leb : A -> A -> bool) (l : list A) : list A :=
  fold_right (insert_sorted leb) [] l.

(** [str(b)] for a bool. *)
Definition py_str_bool (b : bool) : string := if b then "True" else "False".

(** ** Calendar: [pd.to_datetime(str(yearweek) + '0', format='%Y%W%w')]

    Dates are proleptic Gregorian ordinals, as [datetime.date.toordinal]. *)

Definition days_before_year (y : Z) : Z :=
  let y1 := y - 1 in y1 * 365 + y1 / 4 - y1 / 100 + y1 / 400.

(** [date(y, 1, 1).weekday()], Monday being 0. *)
Definition jan1_weekday (y : Z) : Z := (days_before_year y + 1 + 6) mod 7.

(** [_calc_julian_from_U_or_W] with [week_starts_Mon = True]; [day_of_week]
    counts from Monday. *)
Definition calc_julian_from_W (year week_of_year day_of_week : Z) : Z :=
  let first_weekday := jan1_weekday year in
  let week_0_length := (7 - first_weekday) mod 7 in
  if week_of_year =? 0 then 1 + day_of_week - first_weekday
  else 1 + (week_0_length + 7 * (week_of_year - 1)) + day_of_week.

(** The text is the decimal yearweek followed by ['0'].  [%Y] takes four
    digits, [%W] one or two digits giving a week up to 53, [%w] one digit,
    and nothing may remain: a six-digit yearweek reads as YYYYWW, a
    five-digit one as YYYYW, anything else does not parse.  The weekday
    digit is always 0, Sunday, which is day 6 counted from Monday. *)
Definition parse_yearweek (yw : Z) : option (Z * Z) :=
  if (100000 <=? yw) && (yw <=? 999999) then
    if yw mod 100 <=? 53 then Some (yw / 100, yw mod 100) else None
  else if (10000 <=? yw) && (yw <=? 99999) then Some (yw / 10, yw mod 10)
  else None.

(** The nanosecond timestamps of pandas run from 1677-09-22 to 2262-04-11. *)
Definition timestamp_min : Z := days_before_year 1677 + 265.
Definition timestamp_max : Z := days_before_year 2262 + 101.

Definition to_datetime_yearweek (yw : Z) : result Z :=
  match parse_yearweek yw with
  | None => Raise (ValueError "time data doesn't match format %Y%W%w")
  | Some (year, week) =>
      let julian := calc_julian_from_W year week 6 in
      let ordinal := (julian - 1) + (days_before_year year + 1) in
      if (timestamp_min <=? ordinal) && (ordinal <=? timestamp_max) then Ok ordinal
      else Raise (ValueError "Out of bounds nanosecond timestamp")
  end.

(** The bounds of a 64-bit integer, the dtype of a [timedelta64[ns]] and of
    the integer columns. *)
Definition int64_min : Z := - 2 ^ 63.
Definition int64_max : Z := 2 ^ 63 - 1.

(** Arithmetic on [int64] columns wraps around without an error. *)
Definition wrap_int64 (z : Z) : Z := (z + 2 ^ 63) mod 2 ^ 64 - 2 ^ 63.

Definition nanoseconds_per_day : Z := 86400 * 1000000000.

(** The difference of two values of [datetime64[ns]] columns, in days.  The
    nanoseconds are subtracted with an overflow check: a span that a
    [timedelta64[ns]] cannot hold raises [OverflowError]. *)
Definition sub_datetime (a b : Z) : result Z :=
  let ns := (a - b) * nanoseconds_per_day in
  if (int64_min <=? ns) && (ns <=? int64_max) then Ok (a - b)
  else Raise (OverflowError "Overflow in int64 addition").

(** ** Binary floating point

    A [float64] is a number [mantissa * 2 ^ exponent] whose mantissa has at
    most 53 bits; every result is rounded to the nearest such number, ties
    to the even mantissa.  The range of the exponent is left out: the
    numbers computed below come from 64-bit integers and the constants
    0.25, 0.75 and 1.5 by a few sums and products, which neither overflow
    nor underflow. *)

Record float64 : Type := Float { mantissa : Z; exponent : Z }.

(** [m / 2 ^ s] rounded to the nearest integer, ties to even. *)
Definition round_half_even (m s : Z) : Z :=
  let q := m / 2 ^ s in
  let r := m mod 2 ^ s in
  let half := 2 ^ (s - 1) in
  if r <? half then q
  else if half <? r then q + 1
  else if Z.even q then q else q + 1.

(** The [float64] nearest to [m * 2 ^ e]. *)
Definition round_float (m e : Z) : float64 :=
  let bits := Z.log2 (Z.abs m) + 1 in
  if bits <=? 53 then Float m e
  else Float (round_half_even m (bits - 53)) (e + (bits - 53)).

(** The mantissa of [x] when its exponent is lowered to [e]. *)
Definition align (x : float64) (e : Z) : Z := mantissa x * 2 ^ (exponent x - e).

Definition fadd (x y : float64) : float64 :=
  let e := Z.min (exponent x) (exponent y) in
  round_float (align x e + align y e) e.

Definition fsub (x y : float64) : float64 :=
  let e := Z.min (exponent x) (exponent y) in
  round_float (align x e - align y e) e.

Definition fmul (x y : float64) : float64 :=
  round_float (mantissa x * mantissa y) (exponent x + exponent y).

Definition fleb (x y : float64) : bool :=
  let e := Z.min (exponent x) (exponent y) in
  align x e <=? align y e.

Definition fltb (x y : float64) : bool :=
  let e := Z.min (exponent x) (exponent y) in
  align x e <? align y e.

(** The conversion of an integer to [float64]. *)
Definition float_of_int (z : Z) : float64 := round_float z 0.

(** [np.floor] followed by the conversion to an index. *)
Definition ffloor (x : float64) : Z :=
  if 0 <=? exponent x then mantissa x * 2 ^ exponent x
  else mantissa x / 2 ^ (- exponent x).

(** Floats whose mantissa has come out of a rounding. *)
Definition rounded (x : float64) : Prop := Z.abs (mantissa x) <= 2 ^ 53.

(** ** C_shaping *)

Module C_shaping.

(** *** label_first_order *)

Definition first_order_key (r : Row) : string * string * string * string :=
  (release r, brand r, customer r, dedalo_area r).

Definition key4_eqb (a b : string * string * string * string) : bool :=
  let '(a1, a2, a3, a4) := a in
  let '(b1, b2, b3, b4) := b in
  String.eqb a1 b1 && String.eqb a2 b2 && String.eqb a3 b3 && String.eqb a4 b4.

Definition minimum (d : Z) (l : list Z) : Z := fold_left Z.min l d.

(** [groupby(columns_to_group)[column].transform('min')] for the row whose
    key is [k] and whose own value is [d]. *)
Definition transform_min (dated : list (Row * Z)) (k : string * string * string * string)
  (d : Z) : Z :=
  minimum d (map snd (filter (fun p => key4_eqb (first_order_key (fst p)) k) dated)).

(** [week_diff < week_inside_first]; a comparison with [None] is false on
    every row. *)
Definition lt_weeks (week_diff : Q) (week_inside_first : option Z) : bool :=
  match week_inside_first with
  | Some w => Qltb week_diff (inject_Z w)
  | None => false
  end.

(** [np.select(conditions, outcomes, default)]: the first condition that
    holds decides. *)
Definition select_acquisition_mode (r : Row) : string :=
  if first_order r && String.eqb (acquisition_mode_group r) "REP" then "REP FIRST ORDER"
  else if String.eqb (acquisition_mode_group r) "RED CARPET" then "EVENT"
  else if negb (first_order r) && String.eqb (acquisition_mode_group r) "REP"
       then "REP REPLENISHMENT"
  else "REPLENISHMENT".

(** The value of [week_inside_first] when the caller gives none. *)
Definition default_week_inside_first : Z := 2.

Definition label_first_order (df : Frame) (week_inside_first : option Z) : result Frame :=
  getitem df "creation_yearweek" ;;;
  creation_yearweek_dt <-
    mapM (fun r => to_datetime_yearweek (creation_yearweek r)) (rows df) ;;
  let labels1 := with_label "creation_yearweek_dt" (columns df) in
  let df1 := mkDataFrame labels1 (rows df) in
  getitems df1 ["release"; "brand"; "customer"; "dedalo_area"] ;;;
  let dated := combine (rows df1) creation_yearweek_dt in
  days <-
    mapM (fun p =>
            let first_creation_yearweek_dt :=
              transform_min dated (first_order_key (fst p)) (snd p) in
            sub_datetime (snd p) first_creation_yearweek_dt)
         dated ;;
  let labelled :=
    map (fun p =>
           let week_diff := snd p # 7 in
           set_first_order (lt_weeks week_diff week_inside_first) (fst p))
        (combine (rows df1) days) in
  let labels2 :=
    with_label "first_order"
      (with_label "week_diff" (with_label "first_creation_yearweek_dt" labels1)) in
  let labels3 :=
    without_label "week_diff"
      (without_label "first_creation_yearweek_dt"
         (without_label "creation_yearweek_dt" labels2)) in
  let df2 := mkDataFrame labels3 labelled in
  getitem df2 "acquisition_mode_group" ;;;
  Ok (assign "new_acquisition_mode"
        (fun r => set_new_acquisition_mode (select_acquisition_mode r) r) df2).

(** *** create_common_creation_yearweek

    [creation_yearweek] and [planned_delivery_yearweek] are [int64] columns.
    A year text has at most four characters, so [diff] and [diff * 100]
    stay far from the bounds of [int64]; the sums with the yearweeks wrap. *)

Definition year_release (r : Row) : string := str_prefix 4 (release r).

Definition create_common_creation_yearweek (df : Frame) : result Frame :=
  if negb (has_column "common_creation_yearweek" df) then
    getitem df "release" ;;;
    max_year <- py_max_str (unique (map year_release (rows df))) ;;
    let labels1 := with_label "max_year" (with_label "year_release" (columns df)) in
    diffs <-
      mapM (fun r =>
              m <- py_int max_year ;;
              y <- py_int (year_release r) ;;
              Ok (m - y))
           (rows df) ;;
    let labels2 := with_label "diff" labels1 in
    getitem (mkDataFrame labels2 (rows df)) "creation_yearweek" ;;;
    let labels3 := with_label "common_creation_yearweek" labels2 in
    getitem (mkDataFrame labels3 (rows df)) "planned_delivery_yearweek" ;;;
    let labels4 := with_label "common_planned_delivery_yearweek" labels3 in
    let shifted :=
      map (fun p =>
             set_common_yearweeks
               (wrap_int64 (creation_yearweek (fst p) + snd p * 100))
               (wrap_int64 (planned_delivery_yearweek (fst p) + snd p * 100))
               (fst p))
          (combine (rows df) diffs) in
    Ok (mkDataFrame
          (without_label "diff"
             (without_label "max_year" (without_label "year_release" labels4)))
          shifted)
  else Ok df.

(** *** create_comp *)

(** [df.groupby(key)['release'].nunique()]: one entry per group key. *)
Definition groupby_release_nunique (key : Row -> string) (rs : list Row)
  : list (string * nat) :=
  map (fun k =>
         (k, nunique (map release (filter (fun r => String.eqb (key r) k) rs))))
      (unique (map key rs)).

(** [s[s == 2].index] *)
Definition index_where_two (s : list (string * nat)) : list string :=
  map fst (filter (fun kv => Nat.eqb (snd kv) 2) s).

Definition yes_no (b : bool) : string := if b then "Y" else "N".

Definition comp_group_id (r : Row) : string :=
  (brand r ++ "-" ++ customer r ++ "-" ++ dedalo_area r ++ "-"
     ++ new_acquisition_mode r)%string.

Definition create_comp (df : Frame) : result Frame :=
  getitems df ["brand"; "customer"; "dedalo_area"; "new_acquisition_mode"] ;;;
  let df1 := mkDataFrame (with_label "group_id" (columns df)) (rows df) in
  getitem df1 "release" ;;;
  let groups_in_both_releases :=
    index_where_two (groupby_release_nunique comp_group_id (rows df1)) in
  let df2 :=
    assign "comp"
      (fun r => set_comp (yes_no (str_in (comp_group_id r) groups_in_both_releases)) r)
      df1 in
  Ok (drop "group_id" df2).

(** *** Outlier detection *)

Definition peer_key (r : Row) : string * string * string :=
  (brand r, dedalo_area r, new_acquisition_mode r).

Definition key3_eqb (a b : string * string * string) : bool :=
  let '(a1, a2, a3) := a in
  let '(b1, b2, b3) := b in
  String.eqb a1 b1 && String.eqb a2 b2 && String.eqb a3 b3.

(** Tuples of strings compare component by component. *)
Definition key3_leb (a b : string * string * string) : bool :=
  let '(a1, a2, a3) := a in
  let '(b1, b2, b3) := b in
  match String.compare a1 b1 with
  | Lt => true
  | Gt => false
  | Eq => match String.compare a2 b2 with
          | Lt => true
          | Gt => false
          | Eq => String.leb a3 b3
          end
  end.

Fixpoint unique_keys (l : list (string * string * string)) : list (string * string * string) :=
  match l with
  | [] => []
  | x :: l' => x :: filter (fun y => negb (key3_eqb y x)) (unique_keys l')
  end.

(** The group keys of [groupby(['brand', 'dedalo_area', 'new_acquisition_mode'])],
    in the sorted order in which the groups are visited. *)
Definition peer_groups (rs : list Row) : list (string * string * string) :=
  sorted key3_leb (unique_keys (map peer_key rs)).

(** [arr[i]]: a negative index counts from the end. *)
Definition at_index (arr : list Z) (i : Z) : Z :=
  nth (Z.to_nat (if i <? 0 then Z.of_nat (List.length arr) + i else i)) arr 0.

(** [Series.quantile(q)] on an [int64] column, which is [np.percentile] with
    linear interpolation: the virtual index [(n - 1) * q] is computed in
    floating point, the two neighbours are taken from the sorted integers,
    their difference is an [int64], and the interpolation
    [a + (b - a) * gamma], or [b - (b - a) * (1 - gamma)] from [gamma = 0.5]
    on, is computed in floating point. *)
Definition quantile (q : float64) (values : list Z) : float64 :=
  let arr := sorted Z.leb values in
  let n := Z.of_nat (List.length arr) in
  let virtual_index := fmul (float_of_int (n - 1)) q in
  let above_bounds := fleb (float_of_int (n - 1)) virtual_index in
  let previous_index := if above_bounds then -1 else ffloor virtual_index in
  let next_index := if above_bounds then -1 else previous_index + 1 in
  let gamma := fsub virtual_index (float_of_int previous_index) in
  let a := at_index arr previous_index in
  let b := at_index arr next_index in
  let diff_b_a := wrap_int64 (b - a) in
  if fleb (Float 1 (-1)) gamma
  then fsub (float_of_int b)
            (fmul (float_of_int diff_b_a) (fsub (float_of_int 1) gamma))
  else fadd (float_of_int a) (fmul (float_of_int diff_b_a) gamma).

(** A bound of [between]: the integer that [max] has kept, or a float. *)
Inductive Bound : Type :=
| IntBound (z : Z)
| FloatBound (x : float64).

(** Python's [max(a, b)] for an integer [a] and a float [b]: [a] unless
    [b > a]. *)
Definition py_max (a : Z) (b : float64) : Bound :=
  if fltb (float_of_int a) b then FloatBound b else IntBound a.

(** [Series.between(lower, upper)] on an [int64] column, both ends
    included: the column is compared with an integer as it is and with a
    float after conversion. *)
Definition between (lower : Bound) (upper : float64) (x : Z) : bool :=
  match lower with
  | IntBound z => z <=? x
  | FloatBound l => fleb l (float_of_int x)
  end
  && fleb (float_of_int x) upper.

(** [detect_outliers_iqr]: the flag of a row of quantity [x] in a group
    whose quantities are [group_qty]. *)
Definition detect_outliers_iqr (group_qty : list Z) (x : Z) : bool :=
  let Q1 := quantile (Float 1 (-2)) group_qty in
  let Q3 := quantile (Float 3 (-2)) group_qty in
  let IQR := fsub Q3 Q1 in
  let lower_bound := py_max 2 (fsub Q1 (fmul (Float 3 (-1)) IQR)) in
  let upper_bound := fadd Q3 (fmul (Float 3 (-1)) IQR) in
  negb (between lower_bound upper_bound x).

Section Shaper.

(** [int((date.today() - timedelta(days=7)).strftime('%Y%W'))]: the clock is
    read from outside. *)
Variable year_week : Z.

(** The three detectors that rest on floating-point statistics or on
    scikit-learn.  Each is fitted on the quantities of a group and then
    answers for one quantity of that group. *)
Variable detect_outliers_mad : list Z -> Z -> bool.
Variable detect_outliers_iso : list Z -> Z -> bool.
Variable detect_outliers_svm : list Z -> Z -> bool.

(** *** create_till_today *)

Definition create_till_today (df : Frame) : result Frame :=
  df1 <- create_common_creation_yearweek df ;;
  getitem df1 "common_creation_yearweek" ;;;
  Ok (assign "till_today"
        (fun r => set_till_today (yes_no (common_creation_yearweek r <=? year_week)) r)
        df1).

(** *** create_comp_today *)

Definition comp_today_group_id (r : Row) : string :=
  (brand r ++ "-" ++ customer r ++ "-" ++ dedalo_area r ++ "-"
     ++ new_acquisition_mode r ++ till_today r ++ comp r)%string.

Definition is_some {A : Type} (o : option A) : bool :=
  match o with Some _ => true | None => false end.

Definition create_comp_today (df : Frame) (week_inside_first : option Z) : result Frame :=
  df1 <- (if negb (has_column "new_acquisition_mode" df) || is_some week_inside_first
          then label_first_order df week_inside_first else Ok df) ;;
  df2 <- (if negb (has_column "comp" df1) then create_comp df1 else Ok df1) ;;
  df3 <- (if negb (has_column "till_today" df2) then create_till_today df2 else Ok df2) ;;
  getitems df3 ["brand"; "customer"; "dedalo_area"; "new_acquisition_mode";
                "till_today"; "comp"] ;;;
  let df4 := mkDataFrame (with_label "group_id" (columns df3)) (rows df3) in
  getitem df4 "release" ;;;
  let groups_in_both_releases :=
    index_where_two (groupby_release_nunique comp_today_group_id (rows df4)) in
  let comp_today_pre (r : Row) :=
    yes_no (str_in (comp_today_group_id r) groups_in_both_releases) in
  let labels := with_label "comp_today" (with_label "comp_today_pre" (columns df4)) in
  let flagged :=
    map (fun r =>
           if String.eqb (till_today r) "Y" && String.eqb (comp r) "Y"
              && String.eqb (comp_today_pre r) "Y"
           then set_comp_today "Y" r else set_comp_today "N" r)
        (rows df4) in
  Ok (mkDataFrame (without_label "comp_today_pre" (without_label "group_id" labels))
                  flagged).

(** *** detect_outlier

    [groupby(...).apply(detector).reset_index(drop=True)] returns the groups
    one after the other, in the sorted order of their keys, the rows of a
    group in table order.  A table without rows has no group: it comes back
    as it is, without an [outlier] column.  An unknown method leaves
    [df_outliers] unbound. *)

Definition detect_outlier (df : Frame) (method : string) : result Frame :=
  detector <-
    (if String.eqb method "iqr" then Ok detect_outliers_iqr
     else if String.eqb method "mad" then Ok detect_outliers_mad
     else if String.eqb method "iso" then Ok detect_outliers_iso
     else if String.eqb method "svm" then Ok detect_outliers_svm
     else Raise (UnboundLocalError "df_outliers")) ;;
  getitems df ["brand"; "dedalo_area"; "new_acquisition_mode"] ;;;
  match rows df with
  | [] => Ok df
  | _ :: _ =>
      getitem df "qty" ;;;
      let apply (k : string * string * string) :=
        let group := filter (fun r => key3_eqb (peer_key r) k) (rows df) in
        map (fun r => set_outlier (detector (map qty group) (qty r)) r) group in
      Ok (mkDataFrame (with_label "outlier" (columns df))
                      (flat_map apply (peer_groups (rows df))))
  end.

(** *** create_comp_no_outliers *)

Definition create_comp_no_outliers (df : Frame) (method : string) : result Frame :=
  df1 <- (if negb (has_column "comp" df) then create_comp df else Ok df) ;;
  df2 <- (if negb (has_column "outlier" df1) then detect_outlier df1 method else Ok df1) ;;
  let df3 := mkDataFrame (with_label "comp_no_out" (columns df2)) (rows df2) in
  getitems df3 ["outlier"; "comp"] ;;;
  Ok (mkDataFrame (columns df3)
        (map (fun r =>
                if Bool.eqb (outlier r) false && String.eqb (comp r) "Y"
                then set_comp_no_out "Y" r else set_comp_no_out "N" r)
             (rows df3))).

(** *** create_comp_today_no_outliers *)

Definition comp_today_no_out_group_id (r : Row) : string :=
  (brand r ++ "-" ++ customer r ++ "-" ++ dedalo_area r ++ "-"
     ++ new_acquisition_mode r ++ py_str_bool (outlier r) ++ comp_today r)%string.

Definition create_comp_today_no_outliers (df : Frame) (method : string) : result Frame :=
  df1 <- (if negb (has_column "comp_today" df) then create_comp_today df None else Ok df) ;;
  df2 <- (if negb (has_column "outlier" df1) then detect_outlier df1 method else Ok df1) ;;
  df3 <- (if negb (has_column "comp_no_out" df2)
          then create_comp_no_outliers df2 "iqr" else Ok df2) ;;
  getitems df3 ["brand"; "customer"; "dedalo_area"; "new_acquisition_mode";
                "outlier"; "comp_today"] ;;;
  let df4 := mkDataFrame (with_label "group_id" (columns df3)) (rows df3) in
  getitem df4 "release" ;;;
  let groups_in_both_releases :=
    index_where_two (groupby_release_nunique comp_today_no_out_group_id (rows df4)) in
  let comp_today_no_out_pre (r : Row) :=
    yes_no (str_in (comp_today_no_out_group_id r) groups_in_both_releases) in
  let labels :=
    with_label "comp_today_no_out" (with_label "comp_today_no_out_pre" (columns df4)) in
  let flagged :=
    map (fun r =>
           if Bool.eqb (outlier r) false && String.eqb (comp_today r) "Y"
              && String.eqb (comp_today_no_out_pre r) "Y"
           then set_comp_today_no_out "Y" r else set_comp_today_no_out "N" r)
        (rows df4) in
  Ok (mkDataFrame
        (without_label "comp_today_no_out_pre" (without_label "group_id" labels))
        flagged).

End Shaper.

End C_shaping.

(** ** B_cleaning *)

(** The imported table, as far as the cleaner reads it.  Text columns may
    hold missing values ([None] is NaN); the yearweeks and [qty] are
    integer columns. *)
Module Raw.

Record Row : Type := mkRow {
  release : option string;
  brand : option string;
  planned_delivery_yearweek : Z;
  creation_yearweek : Z;
  customer : option string;
  customer_sold_to : option string;
  division : option string;
  dedalo_area : option string;
  acquisition_mode_group : option string;
  customer_type : option string;
  qty : Z
}.

Definition set_customer_type (v : option string) (r : Row) : Row :=
  mkRow (release r) (brand r) (planned_delivery_yearweek r) (creation_yearweek r)
        (customer r) (customer_sold_to r) (division r) (dedalo_area r)
        (acquisition_mode_group r) v (qty r).

End Raw.

(** The area table read by [import_area_group]. *)
Module Area.

Record Row : Type := mkRow {
  dedalo_area : option string;
  launch_type : option string
}.

End Area.

Module B_cleaning.

(** [config.DICT_CUSTOMER_TYPE] *)
Definition DICT_CUSTOMER_TYPE : list (string * string) :=
  [("BPF", "BP"); ("PF", "P")].

Fixpoint dict_get (d : list (string * string)) (k : string) : option string :=
  match d with
  | [] => None
  | (k', v) :: d' => if String.eqb k k' then Some v else dict_get d' k
  end.

(** [Series.replace(dict)]: a value that is a key becomes the value stored
    under it, every other value and every missing one stays. *)
Definition replace (d : list (string * string)) (v : option string) : option string :=
  match v with
  | Some s => match dict_get d s with Some s' => Some s' | None => Some s end
  | None => None
  end.

Fixpoint dropna (l : list (option string)) : list string :=
  match l with
  | [] => []
  | Some s :: l' => s :: dropna l'
  | None :: l' => dropna l'
  end.

Definition occurrences (x : string) (l : list string) : nat :=
  List.length (filter (String.eqb x) l).

(** [Series.mode()]: the most frequent values among those present, sorted. *)
Definition mode (l : list (option string)) : list string :=
  let present := dropna l in
  let top := fold_right Nat.max 0%nat (map (fun x => occurrences x present) present) in
  sorted String.leb
    (filter (fun x => Nat.eqb (occurrences x present) top) (unique present)).

(** [.iloc[0]] *)
Definition iloc0 (l : list string) : result string :=
  match l with
  | x :: _ => Ok x
  | [] => Raise (IndexError "single positional indexer is out-of-bounds")
  end.

(** [Series.fillna(value)] *)
Definition fillna (value : string) (v : option string) : option string :=
  match v with
  | Some s => Some s
  | None => Some value
  end.

Definition replacing_values (df : DataFrame Raw.Row) : result (DataFrame Raw.Row) :=
  getitem df "customer_type" ;;;
  let replaced :=
    map (fun r => Raw.set_customer_type (replace DICT_CUSTOMER_TYPE (Raw.customer_type r)) r)
        (rows df) in
  fill <- iloc0 (mode (map Raw.customer_type replaced)) ;;
  Ok (mkDataFrame (columns df)
        (map (fun r => Raw.set_customer_type (fillna fill (Raw.customer_type r)) r)
             replaced)).

Definition columns_to_group : list string :=
  ["release"; "brand"; "planned_delivery_yearweek"; "creation_yearweek"; "customer";
   "customer_sold_to"; "division"; "dedalo_area"; "acquisition_mode_group"].

Definition column_to_operate : list string := ["qty"].

(** A row of the aggregated table; the columns the shaper adds later are
    absent and their fields are blank. *)
Definition order_row (release brand : string) (planned_delivery_yearweek creation_yearweek : Z)
  (customer customer_sold_to division dedalo_area acquisition_mode_group : string)
  (qty : Z) : Row :=
  mkRow release brand planned_delivery_yearweek creation_yearweek customer
        customer_sold_to division dedalo_area acquisition_mode_group qty
        None false "" 0 0 "" "" "" false "" "".

(** [groupby] leaves out a row that misses one of the keys. *)
Definition keyed (r : Raw.Row) : option Row :=
  match Raw.release r, Raw.brand r, Raw.customer r, Raw.customer_sold_to r,
        Raw.division r, Raw.dedalo_area r, Raw.acquisition_mode_group r with
  | Some rel, Some br, Some cu, Some so, Some di, Some ar, Some am =>
      Some (order_row rel br (Raw.planned_delivery_yearweek r) (Raw.creation_yearweek r)
                      cu so di ar am (Raw.qty r))
  | _, _, _, _, _, _, _ => None
  end.

Fixpoint keyed_rows (l : list Raw.Row) : list Row :=
  match l with
  | [] => []
  | r :: l' => match keyed r with
               | Some k => k :: keyed_rows l'
               | None => keyed_rows l'
               end
  end.

Definition same_key (a b : Row) : bool :=
  String.eqb (release a) (release b) && String.eqb (brand a) (brand b)
  && (planned_delivery_yearweek a =? planned_delivery_yearweek b)
  && (creation_yearweek a =? creation_yearweek b)
  && String.eqb (customer a) (customer b)
  && String.eqb (customer_sold_to a) (customer_sold_to b)
  && String.eqb (division a) (division b)
  && String.eqb (dedalo_area a) (dedalo_area b)
  && String.eqb (acquisition_mode_group a) (acquisition_mode_group b).

Definition then_by (c rest : comparison) : comparison :=
  match c with
  | Eq => rest
  | _ => c
  end.

Definition key_compare (a b : Row) : comparison :=
  then_by (String.compare (release a) (release b))
  (then_by (String.compare (brand a) (brand b))
  (then_by (planned_delivery_yearweek a ?= planned_delivery_yearweek b)
  (then_by (creation_yearweek a ?= creation_yearweek b)
  (then_by (String.compare (customer a) (customer b))
  (then_by (String.compare (customer_sold_to a) (customer_sold_to b))
  (then_by (String.compare (division a) (division b))
  (then_by (String.compare (dedalo_area a) (dedalo_area b))
           (String.compare (acquisition_mode_group a) (acquisition_mode_group b))))))))).

Definition key_leb (a b : Row) : bool :=
  match key_compare a b with
  | Gt => false
  | _ => true
  end.

(** One representative per group key, in order of first appearance. *)
Fixpoint group_heads (l : list Row) : list Row :=
  match l with
  | [] => []
  | r :: l' => r :: filter (fun x => negb (same_key x r)) (group_heads l')
  end.

(** The sum of a group: [qty] is summed as [int64], which wraps. *)
Definition group_sum (l : list Row) : Z :=
  wrap_int64 (fold_right Z.add 0 (map qty l)).

(** Selecting [column_to_operate] on the grouped table raises [KeyError]
    with the list of the missing labels. *)
Definition select_column_to_operate (df : DataFrame Raw.Row) : result unit :=
  if has_column "qty" df then Ok tt else Raise (KeyError "Columns not found: 'qty'").

Definition with_qty (q : Z) (r : Row) : Row :=
  order_row (release r) (brand r) (planned_delivery_yearweek r) (creation_yearweek r)
            (customer r) (customer_sold_to r) (division r) (dedalo_area r)
            (acquisition_mode_group r) q.

(** [df.groupby(by=columns_to_group, as_index=False)[column_to_operate].sum()]:
    one row per key, keys sorted, only the keys and [qty] as columns. *)
Definition grouping (df : DataFrame Raw.Row) : result Frame :=
  getitems df columns_to_group ;;;
  select_column_to_operate df ;;;
  let complete := keyed_rows (rows df) in
  Ok (mkDataFrame (columns_to_group ++ column_to_operate)
        (map (fun k => with_qty (group_sum (filter (fun r => same_key r k) complete)) k)
             (sorted key_leb (group_heads complete)))).

Definition set_launch_type (v : option string) (r : Row) : Row :=
  mkRow (release r) (brand r) (planned_delivery_yearweek r) (creation_yearweek r)
        (customer r) (customer_sold_to r) (division r) (dedalo_area r)
        (acquisition_mode_group r) (qty r) v
        (first_order r) (new_acquisition_mode r)
        (common_creation_yearweek r) (common_planned_delivery_yearweek r)
        (till_today r) (comp r) (comp_today r) (outlier r)
        (comp_no_out r) (comp_today_no_out r).

Definition area_matches (r : Row) (a : Area.Row) : bool :=
  match Area.dedalo_area a with
  | Some s => String.eqb (dedalo_area r) s
  | None => false
  end.

(** [df.merge(df_area, on=['dedalo_area'])]: [how] is left at its default,
    the inner join.  A left row yields one row per area row with its key;
    the rows come in the order of the left keys, the order pandas documents
    for an inner join. *)
Definition merge (df : Frame) (df_area : DataFrame Area.Row) : result Frame :=
  getitem df "dedalo_area" ;;;
  getitem df_area "dedalo_area" ;;;
  Ok (mkDataFrame
        (columns df ++ without_label "dedalo_area" (columns df_area))
        (flat_map (fun r =>
                     map (fun a => set_launch_type (Area.launch_type a) r)
                         (filter (area_matches r) (rows df_area)))
                  (rows df))).

Section Cleaning.

(** What [import_area_group()] returns when it is called: the content of
    the external workbook. *)
Variable import_area_group : result (DataFrame Area.Row).

Definition cleaning (df : DataFrame Raw.Row) (adding_area : bool) : result Frame :=
  df1 <- replacing_values df ;;
  df2 <- grouping df1 ;;
  if adding_area then
    df_area <- import_area_group ;;
    let lenght_df := List.length (rows df2) in
    df3 <- merge df2 df_area ;;
    if Nat.eqb (List.length (rows df3)) lenght_df then Ok df3
    else Raise (AssertionError "Number of rows is not correct, check the merge")
  else Ok df2.

End Cleaning.

End B_cleaning.

(** ** Paths *)

Record Path : Type := mkPath {
  parent : string;
  name : string
}.

(** [path / name] *)
Definition joinpath (dir : Path) (file : string) : Path :=
  mkPath (parent dir ++ "/" ++ name dir)%string file.

(** The text from the last ['.'] on, if there is a dot. *)
Fixpoint from_last_dot (cs : list ascii) : option (list ascii) :=
  match cs with
  | [] => None
  | c :: cs' =>
      match from_last_dot cs' with
      | Some s => Some s
      | None => if Ascii.eqb c "." then Some (c :: cs') else None
      end
  end.

(** [PurePath.suffix]: with [i = name.rfind('.')], the text [name[i:]] when
    [0 < i < len(name) - 1], the empty string otherwise. *)
Definition suffix (p : Path) : string :=
  let cs := list_ascii_of_string (name p) in
  match from_last_dot cs with
  | Some s =>
      if Nat.eqb (List.length s) (List.length cs) || Nat.eqb (List.length s) 1
      then "" else string_of_list_ascii s
  | None => ""
  end.

(** [name.split(".")[-1]] *)
Definition last_dot_field (file : string) : string :=
  match from_last_dot (list_ascii_of_string file) with
  | Some (_ :: s) => string_of_list_ascii s
  | _ => file
  end.

(** ** A_import *)

Module A_import.

Definition new_col_name : list (string * string) :=
  [("SAP - Order Type", "order_type");
   ("NPI_Release", "release");
   ("Brand - code", "brand");
   ("Calendar - Planned Delivery Date - Date", "planned_delivery_date");
   ("Planned Delivery Date: Month", "planned_delivery_month");
   ("Calendar - Order Date - Year Week", "creation_yearweek");
   ("Calendar - Planned Delivery Date - Year Week", "planned_delivery_yearweek");
   ("Customer Sold To Description act", "customer_sold_to");
   ("Customer: Code", "customer");
   ("SAP Optical/Sun/Clip On Desc", "division");
   ("Orders - KeyAccountCode", "key_account_code");
   ("Subsidiary Name", "datest_name");
   ("Short Trip - Datest Code", "datest");
   ("Short Trip - DEDALO Area", "dedalo_area");
   ("Acquisition Mode Desc", "acquisition_mode_desc");
   ("Acquisition Mode Group", "acquisition_mode_group");
   ("Orders - Specification", "order_specification");
   ("Customer Sales: GTM Rating", "customer_type");
   ("No Return Frame - TOTAL Order Qty", "qty")].

Definition valid_extensions : list string := [".xlsx"; ".csv"; ".parquet"].

Fixpoint list_eqb (a b : list string) : bool :=
  match a, b with
  | [], [] => true
  | x :: a', y :: b' => String.eqb x y && list_eqb a' b'
  | _, _ => false
  end.

Section Readers.

(** The rows of a file are not looked into by the importer. *)
Variable Cells : Type.

(** The readers of pandas: what reading the file at a path gives. *)
Variable read_excel : Path -> result (DataFrame Cells).
Variable read_csv : Path -> result (DataFrame Cells).
Variable read_parquet : Path -> result (DataFrame Cells).

(** [df.rename(columns=mapper)] *)
Definition rename (mapper : list (string * string)) (df : DataFrame Cells)
  : DataFrame Cells :=
  mkDataFrame
    (map (fun c => match B_cleaning.dict_get mapper c with
                   | Some c' => c'
                   | None => c
                   end)
         (columns df))
    (rows df).

(** The body of the [try]: the comparison is evaluated and its value is
    dropped.  The labels of a table are text here, as they are when every
    header cell of the file holds text; sorting and comparing lists of text
    labels does not raise. *)
Definition columns_check (df : DataFrame Cells) : result bool :=
  Ok (list_eqb (sorted String.leb (columns df))
               (sorted String.leb (map snd new_col_name))).

Definition import_one_file (path_to_file : Path) : result (DataFrame Cells) :=
  if str_in (suffix path_to_file) valid_extensions then
    df <- (if String.eqb (suffix path_to_file) ".xlsx" then read_excel path_to_file
           else if String.eqb (suffix path_to_file) ".csv" then read_csv path_to_file
           else read_parquet path_to_file) ;;
    let df := rename new_col_name df in
    match columns_check df with
    | Ok _ => Ok df
    | Raise _ =>
        Raise (ValueError "Columns do not match. Please check the function import_one_file")
    end
  else Raise (ValueError "Extension different from .xlsx, .csv, .parquet").

End Readers.

End A_import.

(** ** D_output *)

Module D_output.

Inductive Format : Type := Excel | Parquet | Csv.

(** A file written by [to_excel], [to_parquet] or [to_csv]. *)
Record Written (R : Type) : Type := mkWritten {
  written_at : Path;
  written_as : Format;
  written_table : DataFrame R
}.

Arguments mkWritten {R} written_at written_as written_table.

(** [save] returns nothing; the model returns the files written so far,
    the newest first. *)
Definition save {R : Type} (df : DataFrame R) (path_output : Path) (name : string)
  (disk : list (Written R)) : result (list (Written R)) :=
  let format := last_dot_field name in
  if String.eqb format "xlsx" then
    Ok (mkWritten (joinpath path_output name) Excel df :: disk)
  else if String.eqb format "parquet" then
    Ok (mkWritten (joinpath path_output name) Parquet df :: disk)
  else if String.eqb format "csv" then
    Ok (mkWritten (joinpath path_output name) Csv df :: disk)
  else Ok disk.

End D_output.

(** ** A_import.import_all *)

Module A_import_all.
Import A_import.

(** [str(path)] *)
Definition path_text (p : Path) : string := (parent p ++ "/" ++ name p)%string.

(** What [import_all] returns: the concatenated table, or the list of the
    tables it has read. *)
Inductive Imported (T : Type) : Type :=
| Aggregated (table : T)
| Listed (tables : list T).

Arguments Aggregated {T} table.
Arguments Listed {T} tables.

Section Folder.

Variable Cells : Type.
Variable read_excel : Path -> result (DataFrame Cells).
Variable read_csv : Path -> result (DataFrame Cells).
Variable read_parquet : Path -> result (DataFrame Cells).

(** [path.exists()] and [path.glob("*")]: the state of the disk. *)
Variable path_exists : Path -> bool.
Variable glob_all : Path -> list Path.

(** [pd.concat] of the tables read, which may raise. *)
Variable concat : list (DataFrame Cells) -> result (DataFrame Cells).

(** The test of the loop on a directory entry. *)
Definition wanted (word_to_check : string) (file : Path) : bool :=
  str_in (suffix file) valid_extensions && String.prefix word_to_check (name file).

Definition import_all (path_to_folder : Path) (word_to_check : string) (aggregate : bool)
  : result (Imported (DataFrame Cells)) :=
  if negb (path_exists path_to_folder) then
    Raise (ValueError ("Folder not found: " ++ path_text path_to_folder)%string)
  else
    dataframes <-
      mapM (import_one_file Cells read_excel read_csv read_parquet)
           (filter (wanted word_to_check) (glob_all path_to_folder)) ;;
    if aggregate && Nat.ltb 1 (List.length dataframes)
    then table <- concat dataframes ;; Ok (Aggregated table)
    else Ok (Listed dataframes).

End Folder.

End A_import_all.

(** ** Vocabulary of the statements *)

(** The rows of [g] carry exactly [n] distinct release values. *)
Definition distinct_releases (g : list Row) (n : nat) : Prop :=
  exists e : list string,
    NoDup e /\ List.length e = n /\
    forall x, In x e <-> exists r, In r g /\ release r = x.

(** The rows of the table that share the group key of [r]. *)
Definition group_by_key (key : Row -> string) (rs : list Row) (r : Row) : list Row :=
  filter (fun x => String.eqb (key x) (key r)) rs.

(** The rows of a peer group, in table order. *)
Definition peer_group (rs : list Row) (k : string * string * string) : list Row :=
  filter (fun r => C_shaping.key3_eqb (C_shaping.peer_key r) k) rs.

(** The rows that [groupby(...).apply(detector).reset_index(drop=True)]
    returns: group after group, each row with its flag. *)
Definition outlier_rows (detector : list Z -> Z -> bool) (rs : list Row) : list Row :=
  flat_map (fun k =>
              map (fun r => set_outlier (detector (map qty (peer_group rs k)) (qty r)) r)
                  (peer_group rs k))
           (C_shaping.peer_groups rs).

(** The rows after [comp_no_out] is written. *)
Definition comp_no_out_rows (rs : list Row) : list Row :=
  map (fun r =>
         if Bool.eqb (outlier r) false && String.eqb (comp r) "Y"
         then set_comp_no_out "Y" r else set_comp_no_out "N" r)
      rs.

(** The rows after [comp_today_no_out] is written. *)
Definition comp_today_no_out_rows (rs : list Row) : list Row :=
  map (fun r =>
         if Bool.eqb (outlier r) false && String.eqb (comp_today r) "Y"
            && String.eqb
                 (C_shaping.yes_no
                    (str_in (C_shaping.comp_today_no_out_group_id r)
                       (C_shaping.index_where_two
                          (C_shaping.groupby_release_nunique
                             C_shaping.comp_today_no_out_group_id rs))))
                 "Y"
         then set_comp_today_no_out "Y" r else set_comp_today_no_out "N" r)
      rs.

Definition comp_today_no_out_labels (ls : list string) : list string :=
  without_label "comp_today_no_out_pre"
    (without_label "group_id"
       (with_label "comp_today_no_out"
          (with_label "comp_today_no_out_pre" (with_label "group_id" ls)))).

(** The flags that relate to [comp_today]. *)
Definition today_flags (r : Row) : Prop :=
  (comp r = "Y" \/ comp r = "N") /\
  (comp_today r = "Y" \/ comp_today r = "N") /\
  (comp_today r = "Y" -> comp r = "Y" /\ till_today r = "Y").

(** The invariant of the four comparability flags of a row. *)
Definition flags_invariant (r : Row) : Prop :=
  (comp r = "Y" \/ comp r = "N") /\
  (comp_today r = "Y" \/ comp_today r = "N") /\
  (comp_no_out r = "Y" \/ comp_no_out r = "N") /\
  (comp_today_no_out r = "Y" \/ comp_today_no_out r = "N") /\
  (comp_today r = "Y" -> comp r = "Y" /\ till_today r = "Y") /\
  (comp_today_no_out r = "Y" -> outlier r = false /\ comp_today r = "Y").

(** The quantile [q] of a group of numbers by linear interpolation between
    the two closest ranks, as a rational number. *)
Definition linear_quantile (q : Q) (values : list Z) : Q :=
  let s := sorted Z.leb values in
  let n := Z.of_nat (List.length s) in
  let position := (q * inject_Z (n - 1))%Q in
  let below := Qfloor position in
  let above := Z.min (below + 1) (n - 1) in
  let fraction := (position - inject_Z below)%Q in
  let a := nth (Z.to_nat below) s 0 in
  let b := nth (Z.to_nat above) s 0 in
  (inject_Z a + inject_Z (b - a) * fraction)%Q.

(** The bounds of the interquartile rule for a group of quantities. *)
Definition iqr_lower_bound (group_qty : list Z) : Q :=
  let Q1 := linear_quantile (1 # 4) group_qty in
  let Q3 := linear_quantile (3 # 4) group_qty in
  Qmax (inject_Z 2) (Q1 - (3 # 2) * (Q3 - Q1)).

Definition iqr_upper_bound (group_qty : list Z) : Q :=
  let Q1 := linear_quantile (1 # 4) group_qty in
  let Q3 := linear_quantile (3 # 4) group_qty in
  (Q3 + (3 # 2) * (Q3 - Q1))%Q.

(** The rows of the table with the brand, dedalo_area and
    new_acquisition_mode of [r]. *)
Definition peers (rs : list Row) (r : Row) : list Row :=
  filter (fun x => String.eqb (brand x) (brand r)
                   && String.eqb (dedalo_area x) (dedalo_area r)
                   && String.eqb (new_acquisition_mode x) (new_acquisition_mode r))
         rs.

(** Every quantity of the table is at most 2^30 in absolute value and the
    table has fewer than 2^31 rows: what holds of a column of 32-bit
    quantities, and keeps every intermediate value of the interquartile
    rule exact in [float64]. *)
Definition small_quantities (rs : list Row) : Prop :=
  Z.of_nat (List.length rs) < 2 ^ 31 /\
  forall r, In r rs -> - 2 ^ 30 <= qty r <= 2 ^ 30.

(** [x] lies outside the closed interval from [lower] to [upper]. *)
Definition outside (lower upper : Q) (x : Z) : Prop :=
  (inject_Z x < lower)%Q \/ (upper < inject_Z x)%Q.

(** [r0] and [r] share release, brand, customer and dedalo_area. *)
Definition same_first_order_group (r0 r : Row) : Prop :=
  release r0 = release r /\ brand r0 = brand r /\
  customer r0 = customer r /\ dedalo_area r0 = dedalo_area r.

(** [start] is the earliest creation date among the rows of [rs] that share
    release, brand, customer and dedalo_area with [r]. *)
Definition group_start (rs : list Row) (r : Row) (start : Z) : Prop :=
  (exists r0, In r0 rs /\
     same_first_order_group r0 r /\
     to_datetime_yearweek (creation_yearweek r0) = Ok start) /\
  (forall r0 d0, In r0 rs ->
     same_first_order_group r0 r ->
     to_datetime_yearweek (creation_yearweek r0) = Ok d0 -> start <= d0).

(** The year a release encodes in its first four characters, when these
    are four digits. *)
Definition release_year (release : string) : option Z :=
  match release with
  | String a (String b (String c (String d _))) =>
      if is_digit a && is_digit b && is_digit c && is_digit d
      then Some (1000 * digit_value a + 100 * digit_value b + 10 * digit_value c
                 + digit_value d)
      else None
  | _ => None
  end.

(** The yearweek is an [int64] value that can be moved on by up to 9999
    years without leaving [int64]. *)
Definition yearweek_fits (yw : Z) : Prop :=
  int64_min <= yw /\ yw + 999900 <= int64_max.

(** The year of a release, 0 when it encodes none. *)
Definition year_or_zero (r : Row) : Z :=
  match release_year (release r) with
  | Some y => y
  | None => 0
  end.

(** The rows of the area table that the join pairs with [r]. *)
Definition area_rows (df_area : DataFrame Area.Row) (r : Row) : list Area.Row :=
  filter (B_cleaning.area_matches r) (rows df_area).

(** The rows of the inner join on [dedalo_area]. *)
Definition joined_rows (rs : list Row) (df_area : DataFrame Area.Row) : list Row :=
  flat_map (fun r =>
              map (fun a => B_cleaning.set_launch_type (Area.launch_type a) r)
                  (area_rows df_area r))
           rs.

(** The area table has at most one row for each area. *)
Definition one_row_per_area (df_area : DataFrame Area.Row) : Prop :=
  NoDup (map Area.dedalo_area (rows df_area)).

(** The text holds no ['-']. *)
Fixpoint hyphen_free (s : string) : bool :=
  match s with
  | EmptyString => true
  | String c s' => negb (Ascii.eqb c "-") && hyphen_free s'
  end.

(** The three leading dimensions of the group key hold no ['-']. *)
Definition plain_dimensions (r : Row) : Prop :=
  hyphen_free (brand r) = true /\ hyphen_free (customer r) = true /\
  hyphen_free (dedalo_area r) = true.

(** ** What the shaping steps build

    The labels and rows of the tables the steps return, named so that the
    statements can speak of them. *)

Module Outcome.
Import C_shaping.

(** The labels after [label_first_order]. *)
Definition first_order_labels (ls : list string) : list string :=
  with_label "new_acquisition_mode"
    (without_label "week_diff"
       (without_label "first_creation_yearweek_dt"
          (without_label "creation_yearweek_dt"
             (with_label "first_order"
                (with_label "week_diff"
                   (with_label "first_creation_yearweek_dt"
                      (with_label "creation_yearweek_dt" ls))))))).

Definition first_order_rows (w : option Z) (dated : list (Row * Z)) : list Row :=
  map (fun r => set_new_acquisition_mode (select_acquisition_mode r) r)
    (map (fun p =>
            set_first_order
              (lt_weeks ((snd p - transform_min dated (first_order_key (fst p)) (snd p)) # 7) w)
              (fst p))
         dated).

(** The labels and rows after [create_common_creation_yearweek]. *)
Definition common_labels (ls : list string) : list string :=
  without_label "diff"
    (without_label "max_year"
       (without_label "year_release"
          (with_label "common_planned_delivery_yearweek"
             (with_label "common_creation_yearweek"
                (with_label "diff" (with_label "max_year" (with_label "year_release" ls))))))).

Definition common_rows (rs : list Row) (diffs : list Z) : list Row :=
  map (fun p =>
         set_common_yearweeks
           (wrap_int64 (creation_yearweek (fst p) + snd p * 100))
           (wrap_int64 (planned_delivery_yearweek (fst p) + snd p * 100)) (fst p))
      (combine rs diffs).

(** The rows and labels after [create_comp_today]. *)
Definition comp_today_rows (rs : list Row) : list Row :=
  map (fun r =>
         if String.eqb (till_today r) "Y" && String.eqb (comp r) "Y"
            && String.eqb
                 (yes_no (str_in (comp_today_group_id r)
                    (index_where_two (groupby_release_nunique comp_today_group_id rs))))
                 "Y"
         then set_comp_today "Y" r else set_comp_today "N" r)
      rs.

Definition comp_today_labels (ls : list string) : list string :=
  without_label "comp_today_pre"
    (without_label "group_id"
       (with_label "comp_today" (with_label "comp_today_pre" (with_label "group_id" ls)))).

(** The function that [detect_outlier] applies to the groups. *)
Definition detector_of (detect_outliers_mad detect_outliers_iso detect_outliers_svm
  : list Z -> Z -> bool) (method : string) : result (list Z -> Z -> bool) :=
  if String.eqb method "iqr" then Ok detect_outliers_iqr
  else if String.eqb method "mad" then Ok detect_outliers_mad
  else if String.eqb method "iso" then Ok detect_outliers_iso
  else if String.eqb method "svm" then Ok detect_outliers_svm
  else Raise (UnboundLocalError "df_outliers").

(** [t] is the text of four digits that denote [y]. *)
Inductive year_text : string -> Z -> Prop :=
| year_text_intro (a b c d : ascii) :
    is_digit a = true -> is_digit b = true -> is_digit c = true -> is_digit d = true ->
    year_text (String a (String b (String c (String d EmptyString))))
              (1000 * digit_value a + 100 * digit_value b + 10 * digit_value c
               + digit_value d).

End Outcome.

(** ** Sample tables *)

Module Samples.

(** The columns of a table that has been aggregated and labelled. *)
Definition labelled_columns : list string :=
  B_cleaning.columns_to_group ++ B_cleaning.column_to_operate
    ++ ["first_order"; "new_acquisition_mode"].

Definition labelled_row (release brand customer dedalo_area : string)
  (creation_yearweek : Z) (mode : string) (qty : Z) : Row :=
  set_new_acquisition_mode mode
    (B_cleaning.order_row release brand creation_yearweek creation_yearweek customer
                          "SOLD" "OPTICAL" dedalo_area "REP" qty).

(** Two orders whose dimensions differ but whose joined keys agree. *)
Definition hyphen_left : Row := labelled_row "2023A" "A-B" "C" "IT" 202301 "EVENT" 5.
Definition hyphen_right : Row := labelled_row "2024A" "A" "B-C" "IT" 202401 "EVENT" 7.

Definition hyphen_table : Frame :=
  mkDataFrame labelled_columns [hyphen_left; hyphen_right].

(** An aggregated table as the cleaner hands it over: one peer group of six
    orders, across two releases. *)
Definition order (release customer : string) (creation_yearweek qty : Z) : Row :=
  B_cleaning.order_row release "RB" (creation_yearweek + 4) creation_yearweek customer
                       "SOLD" "OPTICAL" "IT" "REP" qty.

Definition orders_table : Frame :=
  mkDataFrame (B_cleaning.columns_to_group ++ B_cleaning.column_to_operate)
    [order "2023A" "C1" 202301 10;
     order "2024A" "C1" 202401 12;
     order "2023A" "C2" 202301 11;
     order "2024A" "C2" 202401 13;
     order "2023A" "C3" 202301 9;
     order "2024A" "C3" 202401 100].

(** One peer group with the quantities 10, 12, 11, 13, 9, 100. *)
Definition peer_table : Frame :=
  mkDataFrame labelled_columns
    [labelled_row "2023A" "RB" "C1" "IT" 202301 "REP FIRST ORDER" 10;
     labelled_row "2024A" "RB" "C1" "IT" 202401 "REP FIRST ORDER" 12;
     labelled_row "2023A" "RB" "C2" "IT" 202301 "REP FIRST ORDER" 11;
     labelled_row "2024A" "RB" "C2" "IT" 202401 "REP FIRST ORDER" 13;
     labelled_row "2023A" "RB" "C3" "IT" 202301 "REP FIRST ORDER" 9;
     labelled_row "2024A" "RB" "C3" "IT" 202401 "REP FIRST ORDER" 100].

(** One customer of one release ordering in the weeks 1, 2 and 5 of 2020. *)
Definition first_order_table : Frame :=
  mkDataFrame (B_cleaning.columns_to_group ++ B_cleaning.column_to_operate)
    [order "2020A" "C1" 202001 10;
     order "2020A" "C1" 202002 12;
     order "2020A" "C1" 202005 11].

(** The canonical columns of an imported file. *)
Definition imported_columns : list string := map snd A_import.new_col_name.

Definition raw_order (release dedalo_area : string) (customer_type : option string)
  (qty : Z) : Raw.Row :=
  Raw.mkRow (Some release) (Some "RB") 202405 202401 (Some "C1") (Some "SOLD")
            (Some "OPTICAL") (Some dedalo_area) (Some "REP") customer_type qty.

(** Three imported lines, one of them without a customer type. *)
Definition raw_table : DataFrame Raw.Row :=
  mkDataFrame imported_columns
    [raw_order "2024A" "IT" (Some "BPF") 3;
     raw_order "2024A" "IT" None 4;
     raw_order "2024A" "FR" (Some "P") 5].

(** An area table that knows Italy only. *)
Definition italy_only : DataFrame Area.Row :=
  mkDataFrame ["dedalo_area"; "launch_type"]
    [Area.mkRow (Some "IT") (Some "FIRST WAVE")].

Definition both_areas : DataFrame Area.Row :=
  mkDataFrame ["dedalo_area"; "launch_type"]
    [Area.mkRow (Some "IT") (Some "FIRST WAVE");
     Area.mkRow (Some "FR") (Some "SECOND WAVE")].

(** A file with one column the importer does not know and one it renames. *)
Definition stray_file : DataFrame unit :=
  mkDataFrame ["foo"; "NPI_Release"] [tt].

Definition reads_stray_file (path : Path) : result (DataFrame unit) := Ok stray_file.

Definition input_folder : Path := mkPath "data" "input".
Definition output_folder : Path := mkPath "data" "output".

(** Stand-ins for the detectors that are not modelled. *)
Definition never_outlier (group_qty : list Z) (x : Z) : bool := false.

End Samples.

(** ** Further vocabulary *)

(** The nine dimensions by which [grouping] aggregates. *)
Definition group_key (r : Row)
  : string * string * Z * Z * string * string * string * string * string :=
  (release r, brand r, planned_delivery_yearweek r, creation_yearweek r, customer r,
   customer_sold_to r, division r, dedalo_area r, acquisition_mode_group r).

(** None of the text dimensions of an imported row is missing. *)
Definition has_all_keys (r : Raw.Row) : bool :=
  match Raw.release r, Raw.brand r, Raw.customer r, Raw.customer_sold_to r,
        Raw.division r, Raw.dedalo_area r, Raw.acquisition_mode_group r with
  | Some _, Some _, Some _, Some _, Some _, Some _, Some _ => true
  | _, _, _, _, _, _, _ => false
  end.

(** The pieces of a table. *)
Definition sum_qty (l : list Row) : Z :=
  fold_right Z.add 0 (map qty l).

(** The quantities of the imported rows are 32-bit integers, as
    [import_one_file] reads them, and there are fewer than 2^31 rows. *)
Definition int32_quantities (l : list Raw.Row) : Prop :=
  Z.of_nat (List.length l) < 2 ^ 31 /\
  forall r, In r l -> - 2 ^ 31 <= Raw.qty r < 2 ^ 31.

(** The pieces ordered on the imported rows that have all their keys. *)
Definition raw_total (l : list Raw.Row) : Z :=
  fold_right Z.add 0 (map Raw.qty (filter has_all_keys l)).

(** The row is no first order and is not reclassified as one. *)
Definition unlabelled_first (r : Row) : Prop :=
  first_order r = false /\ new_acquisition_mode r <> "REP FIRST ORDER".

(** The reader that the suffix of a path selects. *)
Definition chosen_reader {Cells : Type}
  (read_excel read_csv read_parquet : Path -> result (DataFrame Cells)) (path : Path)
  : result (DataFrame Cells) :=
  if String.eqb (suffix path) ".xlsx" then read_excel path
  else if String.eqb (suffix path) ".csv" then read_csv path
  else read_parquet path.

(** ** Further sample tables *)

Module MoreSamples.

(** A peer group of four orders, one of them of a single piece, and an
    order that is alone in its peer group. *)
Definition small_orders : Frame :=
  mkDataFrame Samples.labelled_columns
    [Samples.labelled_row "2023A" "RB" "C1" "IT" 202301 "EVENT" 1;
     Samples.labelled_row "2024A" "RB" "C1" "IT" 202401 "EVENT" 5;
     Samples.labelled_row "2023A" "RB" "C2" "IT" 202301 "EVENT" 6;
     Samples.labelled_row "2024A" "RB" "C2" "IT" 202401 "EVENT" 7;
     Samples.labelled_row "2023A" "OO" "C1" "IT" 202301 "EVENT" 3].

(** Two customers of one release: the first orders in the weeks 1 and 3 of
    2020, the second in the week 3 only. *)
Definition two_weeks_apart : Frame :=
  mkDataFrame (columns Samples.first_order_table)
    [Samples.order "2020A" "C1" 202001 10;
     Samples.order "2020A" "C1" 202003 12;
     Samples.order "2020A" "C2" 202003 5].

(** A labelled table without rows. *)
Definition no_orders : Frame := mkDataFrame Samples.labelled_columns [].

(** The entries of the input folder. *)
Definition input_entries (folder : Path) : list Path :=
  [joinpath folder "Comp_Analysis_FIL.csv"; joinpath folder "notes.txt";
   joinpath folder "Comp_Analysis_2024.xlsx"; joinpath folder "Other.csv"].

Definition one_entry (folder : Path) : list Path :=
  [joinpath folder "Comp_Analysis_FIL.csv"; joinpath folder "notes.txt"].

(** A reader that finds the spreadsheets unreadable. *)
Definition fails_to_read (path : Path) : result (DataFrame unit) :=
  Raise (ValueError "Excel file format cannot be determined").

(** A stand-in for [pd.concat]. *)
Definition stacked (tables : list (DataFrame unit)) : result (DataFrame unit) :=
  Ok (mkDataFrame (flat_map columns tables) (flat_map rows tables)).

End MoreSamples.

(** * Properties *)

(** ** Results *)

Lemma bind_ok {A B : Type} (m : result A) (k : A -> result B) (b : B) :
  bind m k = Ok b -> exists a, m = Ok a /\ k a = Ok b.
Proof.
  destruct m as [a|e]; simpl; intros H.
  - exists a; split; [reflexivity | exact H].
  - discriminate H.
Qed.

(** Splits a successful chain of binds into its steps. *)
Ltac bind_inv H :=
  let a := fresh "x" in
  let Ha := fresh "Hstep" in
  apply bind_ok in H; destruct H as [a [Ha H]].

Lemma mapM_ok_length {A B : Type} (f : A -> result B) (l : list A) (bs : list B) :
  mapM f l = Ok bs -> List.length bs = List.length l.
Proof.
  revert bs; induction l as [|a l IH]; simpl; intros bs H.
  - injection H as <-; reflexivity.
  - bind_inv H. bind_inv H. injection H as <-. simpl. f_equal. apply IH. assumption.
Qed.

Lemma mapM_ok_nth {A B : Type} (f : A -> result B) (l : list A) (bs : list B) :
  mapM f l = Ok bs ->
  forall i a, nth_error l i = Some a ->
  exists b, nth_error bs i = Some b /\ f a = Ok b.
Proof.
  revert bs; induction l as [|a0 l IH]; simpl; intros bs H i a Hi.
  - destruct i; discriminate Hi.
  - bind_inv H. bind_inv H. injection H as <-.
    destruct i as [|i]; simpl in *.
    + injection Hi as <-. eauto.
    + eapply IH; eauto.
Qed.


(** ** Labels *)

Lemma str_in_In (x : string) (l : list string) : str_in x l = true <-> In x l.
Proof.
  unfold str_in. rewrite existsb_exists. split.
  - intros [y [Hy He]]. apply String.eqb_eq in He. subst. assumption.
  - intros H. exists x. split; [assumption | apply String.eqb_refl].
Qed.

Lemma has_column_In {R : Type} (c : string) (df : DataFrame R) :
  has_column c df = true <-> In c (columns df).
Proof. apply str_in_In. Qed.

Lemma In_with_label (c l : string) (ls : list string) :
  In c (with_label l ls) <-> c = l \/ In c ls.
Proof.
  unfold with_label. destruct (existsb (String.eqb l) ls) eqn:E.
  - split; [tauto|]. intros [->|H]; [|assumption].
    apply (str_in_In l ls). exact E.
  - rewrite in_app_iff. simpl. intuition congruence.
Qed.

Lemma In_without_label (c l : string) (ls : list string) :
  In c (without_label l ls) <-> c <> l /\ In c ls.
Proof.
  unfold without_label. rewrite filter_In, negb_true_iff, String.eqb_neq. tauto.
Qed.

Lemma getitem_ok {R : Type} (df : DataFrame R) (c : string) :
  getitem df c = Ok tt <-> In c (columns df).
Proof.
  unfold getitem. rewrite <- has_column_In.
  destruct (has_column c df); split; intros H; congruence.
Qed.

Lemma getitems_ok {R : Type} (df : DataFrame R) (cs : list string) :
  getitems df cs = Ok tt <-> (forall c, In c cs -> In c (columns df)).
Proof.
  induction cs as [|c cs IH]; simpl.
  - split; [intros _ ? [] | reflexivity].
  - split.
    + intros H. bind_inv H. destruct x. apply getitem_ok in Hstep.
      intros c' [<-|Hc]; [assumption|]. apply IH; assumption.
    + intros H. assert (Hc : getitem df c = Ok tt) by (apply getitem_ok; auto).
      rewrite Hc. simpl. apply IH. auto.
Qed.

Lemma result_unit_ok (m : result unit) (u : unit) : m = Ok u -> m = Ok tt.
Proof. destruct u. exact (fun H => H). Qed.

(** ** Distinct values *)

Lemma In_unique (x : string) (l : list string) : In x (unique l) <-> In x l.
Proof.
  induction l as [|y l IH]; simpl; [tauto|].
  rewrite filter_In, negb_true_iff, String.eqb_neq, IH.
  destruct (string_dec y x); intuition congruence.
Qed.


Lemma NoDup_unique (l : list string) : NoDup (unique l).
Proof.
  induction l as [|y l IH]; simpl; constructor.
  - rewrite filter_In, negb_true_iff, String.eqb_neq. tauto.
  - apply NoDup_filter. assumption.
Qed.

(** The number of distinct values of a list is the length of any
    duplicate-free enumeration of them. *)
Lemma nunique_enumeration (l e : list string) :
  NoDup e -> (forall x, In x e <-> In x l) -> nunique l = List.length e.
Proof.
  intros He Hin. unfold nunique. apply Permutation_length.
  apply NoDup_Permutation; [apply NoDup_unique | assumption |].
  intros x. rewrite In_unique. symmetry. apply Hin.
Qed.

(** ** Sorting and filtering *)

Lemma In_insert_sorted {A : Type} (leb : A -> A -> bool) (x y : A) (l : list A) :
  In y (insert_sorted leb x l) <-> y = x \/ In y l.
Proof.
  induction l as [|z l IH]; simpl.
  - intuition congruence.
  - destruct (leb x z); simpl; [intuition congruence|]. rewrite IH. intuition congruence.
Qed.

Lemma In_sorted {A : Type} (leb : A -> A -> bool) (y : A) (l : list A) :
  In y (sorted leb l) <-> In y l.
Proof.
  induction l as [|z l IH]; simpl; [tauto|].
  rewrite In_insert_sorted, IH. intuition congruence.
Qed.

Lemma Permutation_insert_sorted {A : Type} (leb : A -> A -> bool) (x : A) (l : list A) :
  Permutation (insert_sorted leb x l) (x :: l).
Proof.
  induction l as [|z l IH]; simpl; [reflexivity|].
  destruct (leb x z); [reflexivity|].
  rewrite IH. apply perm_swap.
Qed.

Lemma Permutation_sorted {A : Type} (leb : A -> A -> bool) (l : list A) :
  Permutation (sorted leb l) l.
Proof.
  induction l as [|z l IH]; simpl; [reflexivity|].
  rewrite Permutation_insert_sorted. apply perm_skip. assumption.
Qed.

Lemma filter_all {A : Type} (f : A -> bool) (l : list A) :
  (forall x, In x l -> f x = true) -> filter f l = l.
Proof.
  induction l as [|x l IH]; simpl; intros H; [reflexivity|].
  rewrite (H x (or_introl eq_refl)). f_equal. apply IH. auto.
Qed.

Lemma filter_split {A : Type} (f g : A -> bool) (l : list A) :
  (forall x, In x l -> f x = true -> g x = false) ->
  Permutation (filter f l ++ filter g l) (filter (fun x => f x || g x) l).
Proof.
  induction l as [|x l IH]; simpl; intros H; [reflexivity|].
  assert (IH' := IH (fun y Hy => H y (or_intror Hy))).
  destruct (f x) eqn:Ef; simpl.
  - rewrite (H x (or_introl eq_refl) Ef). apply perm_skip. assumption.
  - destruct (g x); [|assumption].
    rewrite <- Permutation_middle. apply perm_skip. assumption.
Qed.

(** ** Integers and floats *)

Lemma wrap_int64_fits (z : Z) : int64_min <= z <= int64_max -> wrap_int64 z = z.
Proof.
  unfold wrap_int64, int64_min, int64_max. intros H.
  rewrite Z.mod_small by lia. lia.
Qed.

Module FloatFacts.

Lemma round_float_small (m e : Z) : Z.abs m < 2 ^ 53 -> round_float m e = Float m e.
Proof.
  intros H. unfold round_float. cbv zeta.
  destruct (Z.leb_spec (Z.log2 (Z.abs m) + 1) 53) as [_|Hb]; [reflexivity|].
  exfalso. destruct (Z.eq_dec m 0) as [->|Hm]; [simpl in Hb; lia|].
  assert (Z.log2 (Z.abs m) < 53); [|lia].
  apply Z.log2_lt_pow2; lia.
Qed.

Lemma float_of_int_small (z : Z) : Z.abs z < 2 ^ 53 -> float_of_int z = Float z 0.
Proof. apply round_float_small. Qed.

Lemma round_half_even_cases (m s : Z) :
  round_half_even m s = m / 2 ^ s \/ round_half_even m s = m / 2 ^ s + 1.
Proof.
  unfold round_half_even. cbv zeta.
  destruct (_ <? _); [auto|]. destruct (_ <? _); [auto|]. destruct (Z.even _); auto.
Qed.

Lemma round_half_even_exact (m s : Z) :
  0 < s -> m mod 2 ^ s = 0 -> round_half_even m s = m / 2 ^ s.
Proof.
  intros Hs Hm. unfold round_half_even. cbv zeta. rewrite Hm.
  assert (0 < 2 ^ (s - 1)) by (apply Z.pow_pos_nonneg; lia).
  destruct (Z.ltb_spec 0 (2 ^ (s - 1))); [reflexivity | lia].
Qed.

(** The number of bits of a non-zero integer. *)
Lemma bits_spec (m : Z) :
  m <> 0 -> 2 ^ Z.log2 (Z.abs m) <= Z.abs m < 2 ^ (Z.log2 (Z.abs m) + 1).
Proof.
  intros Hm. pose proof (Z.log2_spec (Z.abs m)) as H.
  replace (Z.succ (Z.log2 (Z.abs m))) with (Z.log2 (Z.abs m) + 1) in H by lia.
  apply H. lia.
Qed.

Lemma round_float_exponent (m e : Z) : e <= exponent (round_float m e).
Proof.
  unfold round_float. cbv zeta. destruct (Z.leb_spec (Z.log2 (Z.abs m) + 1) 53); simpl; lia.
Qed.

Lemma round_float_mantissa (m e : Z) : Z.abs (mantissa (round_float m e)) <= 2 ^ 53.
Proof.
  unfold round_float. cbv zeta.
  destruct (Z.leb_spec (Z.log2 (Z.abs m) + 1) 53) as [Hb|Hb]; cbn [mantissa].
  - destruct (Z.eq_dec m 0) as [->|Hm]; [simpl; lia|].
    pose proof (bits_spec m Hm) as [_ H].
    assert (2 ^ (Z.log2 (Z.abs m) + 1) <= 2 ^ 53) by (apply Z.pow_le_mono_r; lia).
    lia.
  - assert (Hm : m <> 0) by (intros ->; simpl in Hb; lia).
    pose proof (bits_spec m Hm) as [_ H].
    set (s := Z.log2 (Z.abs m) + 1 - 53) in *.
    assert (Hs : 0 < s) by (unfold s; lia).
    assert (Hp : 2 ^ (Z.log2 (Z.abs m) + 1) = 2 ^ 53 * 2 ^ s).
    { rewrite <- Z.pow_add_r by lia. f_equal. unfold s. lia. }
    rewrite Hp in H.
    assert (H2 : 0 < 2 ^ s) by (apply Z.pow_pos_nonneg; lia).
    assert (Hq : - 2 ^ 53 <= m / 2 ^ s < 2 ^ 53).
    { split.
      - apply Z.div_le_lower_bound; lia.
      - apply Z.div_lt_upper_bound; lia. }
    destruct (round_half_even_cases m s) as [-> | ->]; lia.
Qed.

Lemma align_lower (x : float64) (e e' : Z) :
  e' <= e -> e <= exponent x -> align x e' = align x e * 2 ^ (e - e').
Proof.
  intros H1 H2. unfold align. rewrite <- Z.mul_assoc, <- Z.pow_add_r by lia.
  f_equal. f_equal. lia.
Qed.

Lemma fleb_at (x y : float64) (e : Z) :
  e <= exponent x -> e <= exponent y -> fleb x y = (align x e <=? align y e).
Proof.
  intros Hx Hy. unfold fleb. cbv zeta.
  set (e0 := Z.min (exponent x) (exponent y)).
  rewrite (align_lower x e0 e), (align_lower y e0 e) by (unfold e0; lia).
  assert (0 < 2 ^ (e0 - e)) by (apply Z.pow_pos_nonneg; unfold e0; lia).
  destruct (Z.leb_spec (align x e0) (align y e0));
    destruct (Z.leb_spec (align x e0 * 2 ^ (e0 - e)) (align y e0 * 2 ^ (e0 - e)));
    try reflexivity; exfalso; nia.
Qed.

Lemma fltb_at (x y : float64) (e : Z) :
  e <= exponent x -> e <= exponent y -> fltb x y = (align x e <? align y e).
Proof.
  intros Hx Hy. unfold fltb. cbv zeta.
  set (e0 := Z.min (exponent x) (exponent y)).
  rewrite (align_lower x e0 e), (align_lower y e0 e) by (unfold e0; lia).
  assert (0 < 2 ^ (e0 - e)) by (apply Z.pow_pos_nonneg; unfold e0; lia).
  destruct (Z.ltb_spec (align x e0) (align y e0));
    destruct (Z.ltb_spec (align x e0 * 2 ^ (e0 - e)) (align y e0 * 2 ^ (e0 - e)));
    try reflexivity; exfalso; nia.
Qed.

(** An integer that is at most 1 converts to a float that is at most 1. *)
Lemma float_of_int_le_one (z e : Z) :
  z <= 1 -> e <= 0 -> align (float_of_int z) e <= 2 ^ (- e).
Proof.
  intros Hz He. assert (Hp : 0 < 2 ^ (- e)) by (apply Z.pow_pos_nonneg; lia).
  destruct (Z_lt_le_dec (Z.abs z) (2 ^ 53)) as [Hs|Hl].
  - rewrite float_of_int_small by assumption. unfold align. cbn [mantissa exponent].
    replace (0 - e) with (- e) by lia. nia.
  - unfold float_of_int, round_float. cbv zeta.
    destruct (Z.leb_spec (Z.log2 (Z.abs z) + 1) 53) as [Hb|Hb].
    + exfalso. assert (Hm : z <> 0) by lia. pose proof (bits_spec z Hm) as [_ H].
      assert (2 ^ (Z.log2 (Z.abs z) + 1) <= 2 ^ 53) by (apply Z.pow_le_mono_r; lia).
      lia.
    + unfold align. cbn [mantissa exponent].
      set (s := Z.log2 (Z.abs z) + 1 - 53) in *.
      assert (Hs : 0 < s) by (unfold s; lia).
      assert (H2 : 0 < 2 ^ s) by (apply Z.pow_pos_nonneg; lia).
      assert (Hq : z / 2 ^ s + 1 <= 0).
      { assert (z / 2 ^ s < 0); [|lia]. apply Z.div_lt_upper_bound; lia. }
      assert (0 < 2 ^ (0 + s - e)) by (apply Z.pow_pos_nonneg; lia).
      destruct (round_half_even_cases z s) as [-> | ->]; nia.
Qed.

(** Rounding a number that a float holds gives that number. *)
Lemma round_float_exact (m0 k e : Z) :
  0 <= k -> Z.abs m0 <= 2 ^ 53 ->
  mantissa (round_float (m0 * 2 ^ k) e)
  * 2 ^ (exponent (round_float (m0 * 2 ^ k) e) - e) = m0 * 2 ^ k.
Proof.
  intros Hk H0. set (m := m0 * 2 ^ k). unfold round_float. cbv zeta.
  destruct (Z.leb_spec (Z.log2 (Z.abs m) + 1) 53) as [Hb|Hb]; cbn [mantissa exponent].
  - replace (e - e) with 0 by lia. lia.
  - assert (Hm : m <> 0) by (intros E; rewrite E in Hb; simpl in Hb; lia).
    pose proof (bits_spec m Hm) as [Hlow _].
    set (s := Z.log2 (Z.abs m) + 1 - 53) in *.
    assert (Hs : 0 < s) by (unfold s; lia).
    replace (Z.log2 (Z.abs m)) with (52 + s) in Hlow by (unfold s; lia).
    assert (Hk2 : 0 < 2 ^ k) by (apply Z.pow_pos_nonneg; lia).
    assert (Habs : Z.abs m = Z.abs m0 * 2 ^ k) by (unfold m; rewrite Z.abs_mul; lia).
    assert (Hdiv : m mod 2 ^ s = 0).
    { destruct (Z_le_gt_dec s k) as [Hsk|Hsk].
      - unfold m. replace k with ((k - s) + s) by lia.
        rewrite Z.pow_add_r, Z.mul_assoc by lia. apply Z.mod_mul.
        apply Z.pow_nonzero; lia.
      - assert (Hup : Z.abs m <= 2 ^ (53 + k)).
        { rewrite Habs, Z.pow_add_r by lia. nia. }
        assert (Hle : 2 ^ (53 + k) <= 2 ^ (52 + s)) by (apply Z.pow_le_mono_r; lia).
        assert (Hsk' : s = k + 1).
        { assert (52 + s <= 53 + k); [|lia].
          apply (Z.pow_le_mono_r_iff 2); lia. }
        assert (Hm0 : Z.abs m0 = 2 ^ 53).
        { rewrite Z.pow_add_r in Hup, Hle by lia. nia. }
        subst s. rewrite Hsk'.
        assert (Hmm : m = m0 * 2 ^ k) by reflexivity.
        assert (E : m = 2 ^ 52 * 2 ^ (k + 1) \/ m = - 2 ^ 52 * 2 ^ (k + 1)).
        { rewrite Z.pow_add_r by lia. change (2 ^ 1) with 2.
          assert (m0 = 2 ^ 53 \/ m0 = - 2 ^ 53) by lia.
          change (2 ^ 53) with (2 ^ 52 * 2) in *. nia. }
        destruct E as [-> | ->]; apply Z.mod_mul; apply Z.pow_nonzero; lia. }
    rewrite (round_half_even_exact m s Hs Hdiv).
    replace (e + s - e) with s by lia.
    apply Z.div_exact in Hdiv; [lia|]. apply Z.pow_nonzero; lia.
Qed.


Import C_shaping.

(** The lower bound of the rule is at least 2, in floating point too. *)
Lemma between_below_two (c upper : float64) (x : Z) :
  x < 2 -> between (py_max 2 c) upper x = false.
Proof.
  intros Hx. unfold between, py_max.
  destruct (fltb (float_of_int 2) c) eqn:E.
  - apply andb_false_iff. left.
    set (e := Z.min 0 (exponent c)).
    pose proof (round_float_exponent x 0) as Hfx. fold (float_of_int x) in Hfx.
    rewrite (fltb_at _ _ e) in E
      by (rewrite ?float_of_int_small by (simpl; lia); cbn [exponent]; unfold e; lia).
    rewrite float_of_int_small in E by (simpl; lia).
    rewrite (fleb_at _ _ e) by (unfold e; lia).
    apply Z.ltb_lt in E. apply Z.leb_gt.
    pose proof (float_of_int_le_one x e) as H1.
    assert (He : e <= 0) by (unfold e; lia). specialize (H1 ltac:(lia) He).
    unfold align in E at 1. cbn [mantissa exponent] in E.
    replace (0 - e) with (- e) in E by lia.
    assert (0 < 2 ^ (- e)) by (apply Z.pow_pos_nonneg; lia). lia.
  - apply andb_false_iff. left. apply Z.leb_gt. assumption.
Qed.

Lemma detect_outliers_iqr_below_two (group_qty : list Z) (x : Z) :
  x < 2 -> detect_outliers_iqr group_qty x = true.
Proof.
  intros Hx. unfold detect_outliers_iqr. cbv zeta.
  rewrite between_below_two by assumption. reflexivity.
Qed.

Lemma float_of_int_rounded (z : Z) :
  rounded (float_of_int z) /\ 0 <= exponent (float_of_int z).
Proof.
  split; [apply round_float_mantissa | apply round_float_exponent].
Qed.

(** Adding or subtracting a zero changes nothing. *)
Lemma fsub_zero (x : float64) (e0 : Z) :
  rounded x -> e0 <= exponent x ->
  rounded (fsub x (Float 0 e0)) /\ e0 <= exponent (fsub x (Float 0 e0)) /\
  align (fsub x (Float 0 e0)) e0 = align x e0.
Proof.
  intros Hx He. unfold fsub. cbn [mantissa exponent]. rewrite Z.min_r by lia.
  replace (align x e0 - align (Float 0 e0) e0) with (mantissa x * 2 ^ (exponent x - e0))
    by (unfold align; cbn [mantissa exponent]; lia).
  split; [apply round_float_mantissa|]. split; [apply round_float_exponent|].
  unfold align. apply round_float_exact; assumption || lia.
Qed.

Lemma fadd_zero (x : float64) (e0 : Z) :
  rounded x -> e0 <= exponent x ->
  rounded (fadd x (Float 0 e0)) /\ e0 <= exponent (fadd x (Float 0 e0)) /\
  align (fadd x (Float 0 e0)) e0 = align x e0.
Proof.
  intros Hx He. unfold fadd. cbn [mantissa exponent]. rewrite Z.min_r by lia.
  replace (align x e0 + align (Float 0 e0) e0) with (mantissa x * 2 ^ (exponent x - e0))
    by (unfold align; cbn [mantissa exponent]; lia).
  split; [apply round_float_mantissa|]. split; [apply round_float_exponent|].
  unfold align. apply round_float_exact; assumption || lia.
Qed.

Lemma fsub_diag (x : float64) : fsub x x = Float 0 (exponent x).
Proof.
  unfold fsub. rewrite Z.min_id, Z.sub_diag. apply round_float_small. simpl. lia.
Qed.

Lemma fmul_zero_r (x : float64) (e : Z) :
  fmul x (Float 0 e) = Float 0 (exponent x + e).
Proof.
  unfold fmul. cbn [mantissa exponent]. rewrite Z.mul_0_r.
  apply round_float_small. simpl. lia.
Qed.

(** The quantile of a single number is that number. *)
Lemma quantile_single (q : Z) (x : Z) :
  quantile (Float q (-2)) [x] = fsub (float_of_int x) (Float 0 (-2)).
Proof.
  unfold quantile. cbn [sorted fold_right insert_sorted List.length Z.of_nat].
  replace (Z.pos (Pos.of_succ_nat 0) - 1) with 0 by reflexivity.
  rewrite (float_of_int_small 0) by (simpl; lia).
  assert (Evi : fmul (Float 0 0) (Float q (-2)) = Float 0 (-2)).
  { unfold fmul. cbn [mantissa exponent Z.mul Z.add]. apply round_float_small. simpl. lia. }
  rewrite Evi.
  replace (fleb (Float 0 0) (Float 0 (-2))) with true by reflexivity.
  rewrite (float_of_int_small (-1)) by (simpl; lia).
  replace (fsub (Float 0 (-2)) (Float (-1) 0)) with (Float 4 (-2)) by reflexivity.
  replace (fleb (Float 1 (-1)) (Float 4 (-2))) with true by reflexivity.
  replace (at_index [x] (-1)) with x by reflexivity.
  rewrite Z.sub_diag. replace (wrap_int64 0) with 0 by reflexivity.
  rewrite (float_of_int_small 0) by (simpl; lia).
  rewrite (float_of_int_small 1) by (simpl; lia).
  replace (fsub (Float 1 0) (Float 4 (-2))) with (Float 0 (-2)) by reflexivity.
  rewrite fmul_zero_r. reflexivity.
Qed.

Lemma detect_outliers_iqr_single (x : Z) : detect_outliers_iqr [x] x = (x <? 2).
Proof.
  unfold detect_outliers_iqr. cbv zeta. rewrite !quantile_single.
  destruct (float_of_int_rounded x) as [Rx Ex].
  set (fx := float_of_int x) in *.
  destruct (fsub_zero fx (-2) Rx ltac:(lia)) as [Rf [Ef Af]].
  set (f := fsub fx (Float 0 (-2))) in *.
  rewrite fsub_diag, fmul_zero_r. cbn [exponent].
  destruct (fsub_zero f (-1 + exponent f) Rf ltac:(lia)) as [_ [Ec Ac]].
  destruct (fadd_zero f (-1 + exponent f) Rf ltac:(lia)) as [_ [Eu Au]].
  set (c := fsub f (Float 0 (-1 + exponent f))) in *.
  set (u := fadd f (Float 0 (-1 + exponent f))) in *.
  assert (Hf : align f (-3) = align fx (-3)).
  { rewrite (align_lower f (-2) (-3)), (align_lower fx (-2) (-3)) by lia. congruence. }
  assert (Hc : align c (-3) = align fx (-3)).
  { rewrite (align_lower c (-1 + exponent f) (-3)) by lia. rewrite Ac.
    rewrite <- (align_lower f (-1 + exponent f) (-3)) by lia. assumption. }
  assert (Hu : align u (-3) = align fx (-3)).
  { rewrite (align_lower u (-1 + exponent f) (-3)) by lia. rewrite Au.
    rewrite <- (align_lower f (-1 + exponent f) (-3)) by lia. assumption. }
  unfold between, py_max. fold fx.
  rewrite (fleb_at fx u (-3)) by lia. rewrite Hu, Z.leb_refl, andb_true_r.
  rewrite (float_of_int_small 2) by (simpl; lia).
  rewrite (fltb_at (Float 2 0) c (-3)) by (cbn [exponent]; lia).
  rewrite Hc. replace (align (Float 2 0) (-3)) with 16 by reflexivity.
  destruct (Z.ltb_spec 16 (align fx (-3))) as [Hlt|Hge].
  - rewrite (fleb_at c fx (-3)) by lia. rewrite Hc, Z.leb_refl. cbn [negb].
    symmetry. apply Z.ltb_ge.
    destruct (Z_lt_le_dec x 2) as [Hx|Hx]; [|assumption].
    pose proof (float_of_int_le_one x (-3) ltac:(lia) ltac:(lia)) as H1.
    fold fx in H1. change (2 ^ (- -3)) with 8 in H1. lia.
  - rewrite Z.ltb_antisym. reflexivity.
Qed.


(** *** Small numbers are computed exactly *)

Lemma fmul_exact (m1 e1 m2 e2 : Z) :
  Z.abs (m1 * m2) < 2 ^ 53 -> fmul (Float m1 e1) (Float m2 e2) = Float (m1 * m2) (e1 + e2).
Proof. intros H. unfold fmul. cbn [mantissa exponent]. apply round_float_small, H. Qed.

Lemma fadd_exact (m1 e1 m2 e2 : Z) :
  e2 <= e1 -> Z.abs (m1 * 2 ^ (e1 - e2) + m2) < 2 ^ 53 ->
  fadd (Float m1 e1) (Float m2 e2) = Float (m1 * 2 ^ (e1 - e2) + m2) e2.
Proof.
  intros He H. unfold fadd, align. cbn [mantissa exponent]. rewrite Z.min_r by lia.
  rewrite Z.sub_diag, Z.mul_1_r. apply round_float_small, H.
Qed.

Lemma fsub_exact (m1 e1 m2 e2 : Z) :
  e2 <= e1 -> Z.abs (m1 * 2 ^ (e1 - e2) - m2) < 2 ^ 53 ->
  fsub (Float m1 e1) (Float m2 e2) = Float (m1 * 2 ^ (e1 - e2) - m2) e2.
Proof.
  intros He H. unfold fsub, align. cbn [mantissa exponent]. rewrite Z.min_r by lia.
  rewrite Z.sub_diag, Z.mul_1_r. apply round_float_small, H.
Qed.

Lemma fsub_exact_l (m1 e1 m2 e2 : Z) :
  e1 <= e2 -> Z.abs (m1 - m2 * 2 ^ (e2 - e1)) < 2 ^ 53 ->
  fsub (Float m1 e1) (Float m2 e2) = Float (m1 - m2 * 2 ^ (e2 - e1)) e1.
Proof.
  intros He H. unfold fsub, align. cbn [mantissa exponent]. rewrite Z.min_l by lia.
  rewrite Z.sub_diag, Z.mul_1_r. apply round_float_small, H.
Qed.

Lemma nth_bounded (B : Z) (l : list Z) (i : nat) :
  0 <= B -> (forall v, In v l -> - B <= v <= B) -> - B <= nth i l 0 <= B.
Proof.
  intros HB H. destruct (nth_in_or_default i l 0) as [Hin| ->]; [auto | lia].
Qed.

Lemma length_sorted {A : Type} (leb : A -> A -> bool) (l : list A) :
  List.length (sorted leb l) = List.length l.
Proof. apply Permutation_length, Permutation_sorted. Qed.


Lemma fleb_floats (m1 e1 m2 e2 : Z) :
  e2 <= e1 -> fleb (Float m1 e1) (Float m2 e2) = (m1 * 2 ^ (e1 - e2) <=? m2).
Proof.
  intros He. unfold fleb, align. cbn [mantissa exponent]. rewrite Z.min_r by lia.
  rewrite Z.sub_diag, Z.mul_1_r. reflexivity.
Qed.

Lemma fleb_floats_l (m1 e1 m2 e2 : Z) :
  e1 <= e2 -> fleb (Float m1 e1) (Float m2 e2) = (m1 <=? m2 * 2 ^ (e2 - e1)).
Proof.
  intros He. unfold fleb, align. cbn [mantissa exponent]. rewrite Z.min_l by lia.
  rewrite Z.sub_diag, Z.mul_1_r. reflexivity.
Qed.

Lemma fltb_floats (m1 e1 m2 e2 : Z) :
  e2 <= e1 -> fltb (Float m1 e1) (Float m2 e2) = (m1 * 2 ^ (e1 - e2) <? m2).
Proof.
  intros He. unfold fltb, align. cbn [mantissa exponent]. rewrite Z.min_r by lia.
  rewrite Z.sub_diag, Z.mul_1_r. reflexivity.
Qed.

Lemma quantile_exact (qm : Z) (vs : list Z) :
  qm = 1 \/ qm = 3 -> vs <> [] -> Z.of_nat (List.length vs) < 2 ^ 31 ->
  (forall v, In v vs -> - 2 ^ 30 <= v <= 2 ^ 30) ->
  exists k,
    quantile (Float qm (-2)) vs = Float k (-2) /\
    (linear_quantile (qm # 4) vs == k # 4)%Q /\
    - 2 ^ 32 <= k <= 2 ^ 32.
Proof.
  intros Hq Hne Hlen Hb. unfold quantile, linear_quantile. cbv zeta.
  set (s := sorted Z.leb vs).
  assert (Hs : forall i, - 2 ^ 30 <= nth i s 0 <= 2 ^ 30).
  { intros i. apply nth_bounded; [lia|]. intros v Hv. apply Hb.
    unfold s in Hv. apply In_sorted in Hv. assumption. }
  assert (Hn : 1 <= Z.of_nat (List.length s) < 2 ^ 31).
  { unfold s. rewrite length_sorted. destruct vs as [|v vs']; [contradiction|].
    cbn [List.length] in *. lia. }
  set (n := Z.of_nat (List.length s)) in *.
  set (lo := (qm * (n - 1)) / 4).
  set (g := (qm * (n - 1)) mod 4).
  assert (Hg : 0 <= g < 4) by (apply Z.mod_pos_bound; lia).
  assert (Hp : qm * (n - 1) = 4 * lo + g) by (apply Z.div_mod; lia).
  assert (Hlo : 0 <= lo) by (apply Z.div_pos; lia).
  set (a := nth (Z.to_nat lo) s 0).
  set (b := nth (Z.to_nat (Z.min (lo + 1) (n - 1))) s 0).
  pose proof (Hs (Z.to_nat lo)) as Ha. fold a in Ha.
  pose proof (Hs (Z.to_nat (Z.min (lo + 1) (n - 1)))) as Hbb. fold b in Hbb.
  exists (4 * a + (b - a) * g). split; [|split].
  - rewrite (float_of_int_small (n - 1)) by lia.
    rewrite fmul_exact by (destruct Hq; subst qm; lia).
    change (0 + -2) with (-2).
    rewrite fleb_floats by lia. change (2 ^ (0 - -2)) with 4.
    destruct (Z.leb_spec ((n - 1) * 4) ((n - 1) * qm)) as [Hab|Hab].
    + assert (E1 : n = 1) by (destruct Hq; subst qm; lia).
      assert (Elo : lo = 0) by (unfold lo; rewrite E1, Z.sub_diag, Z.mul_0_r; reflexivity).
      assert (Eg : g = 0) by (unfold g; rewrite E1, Z.sub_diag, Z.mul_0_r; reflexivity).
      rewrite (float_of_int_small (-1)) by (simpl; lia).
      rewrite E1. change ((1 - 1) * qm) with 0.
      replace (fsub (Float 0 (-2)) (Float (-1) 0)) with (Float 4 (-2)) by reflexivity.
      replace (fleb (Float 1 (-1)) (Float 4 (-2))) with true by reflexivity.
      unfold at_index. change (-1 <? 0) with true. cbv iota. fold n. rewrite E1.
      change (Z.to_nat (1 + -1)) with 0%nat.
      assert (Ea : a = nth 0 s 0) by (unfold a; rewrite Elo; reflexivity).
      assert (Eb : b = nth 0 s 0).
      { unfold b. rewrite Elo, E1. reflexivity. }
      rewrite <- Ea. rewrite Z.sub_diag. replace (wrap_int64 0) with 0 by reflexivity.
      rewrite (float_of_int_small 0) by (simpl; lia).
      rewrite (float_of_int_small 1) by (simpl; lia).
      replace (fsub (Float 1 0) (Float 4 (-2))) with (Float 0 (-2)) by reflexivity.
      rewrite fmul_zero_r. rewrite (float_of_int_small a) by lia.
      cbn [exponent]. change (0 + -2) with (-2).
      rewrite fsub_exact by (change (2 ^ (0 - -2)) with 4; lia).
      change (2 ^ (0 - -2)) with 4.
      f_equal. rewrite Eb, <- Ea, Eg. lia.
    + assert (E1 : 2 <= n) by (destruct Hq; subst qm; lia).
      assert (Hlt : lo + 1 <= n - 1) by (destruct Hq; subst qm; lia).
      assert (Efl : ffloor (Float ((n - 1) * qm) (-2)) = lo).
      { unfold ffloor. cbn [mantissa exponent]. change (0 <=? -2) with false. cbv iota.
        change (2 ^ (- -2)) with 4. unfold lo. f_equal. lia. }
      rewrite Efl. rewrite (float_of_int_small lo) by lia.
      rewrite fsub_exact_l by (change (2 ^ (0 - -2)) with 4; lia).
      change (2 ^ (0 - -2)) with 4.
      replace ((n - 1) * qm - lo * 4) with g by lia.
      unfold at_index.
      destruct (Z.ltb_spec lo 0) as [?|_]; [lia|].
      destruct (Z.ltb_spec (lo + 1) 0) as [?|_]; [lia|].
      fold a. replace (nth (Z.to_nat (lo + 1)) s 0) with b
        by (unfold b; rewrite Z.min_l by lia; reflexivity).
      rewrite wrap_int64_fits by (unfold int64_min, int64_max; lia).
      rewrite (float_of_int_small a), (float_of_int_small b), (float_of_int_small (b - a)),
        (float_of_int_small 1) by (simpl; lia).
      rewrite fleb_floats by lia. change (2 ^ (-1 - -2)) with 2.
      assert (Hcase : g = 0 \/ g = 1 \/ g = 2 \/ g = 3) by lia.
      destruct (Z.leb_spec (1 * 2) g) as [Hge|Hlt2].
      * rewrite (fsub_exact 1 0 g (-2)) by (change (2 ^ (0 - -2)) with 4; lia).
        change (2 ^ (0 - -2)) with 4.
        rewrite fmul_exact by (destruct Hcase as [->|[->|[->| ->]]]; lia).
        change (0 + -2) with (-2).
        rewrite fsub_exact
          by (change (2 ^ (0 - -2)) with 4; destruct Hcase as [->|[->|[->| ->]]]; lia).
        change (2 ^ (0 - -2)) with 4. f_equal. lia.
      * rewrite fmul_exact by (destruct Hcase as [->|[->|[->| ->]]]; lia).
        change (0 + -2) with (-2).
        rewrite fadd_exact
          by (change (2 ^ (0 - -2)) with 4; destruct Hcase as [->|[->|[->| ->]]]; lia).
        change (2 ^ (0 - -2)) with 4. f_equal. lia.
  - fold s n.
    assert (Efloor : Qfloor ((qm # 4) * inject_Z (n - 1)) = lo).
    { unfold Qfloor, Qmult, inject_Z. cbn [Qnum Qden]. reflexivity. }
    rewrite Efloor. fold a b.
    assert (Hfrac : ((qm # 4) * inject_Z (n - 1) - inject_Z lo == g # 4)%Q).
    { cbv beta iota delta [Qeq Qplus Qminus Qmult Qopp inject_Z Qnum Qden].
      cbn [Pos.mul]. lia. }
    rewrite Hfrac.
    cbv beta iota delta [Qeq Qplus Qminus Qmult Qopp inject_Z Qnum Qden].
    cbn [Pos.mul]. ring.
  - assert (Hcase : g = 0 \/ g = 1 \/ g = 2 \/ g = 3) by lia.
    destruct Hcase as [->|[->|[->| ->]]]; lia.
Qed.


(** On small quantities the flag of [detect_outliers_iqr] is the
    interquartile rule over the rational numbers. *)
Lemma detect_outliers_iqr_exact (group_qty : list Z) (x : Z) :
  group_qty <> [] -> Z.of_nat (List.length group_qty) < 2 ^ 31 ->
  (forall v, In v group_qty -> - 2 ^ 30 <= v <= 2 ^ 30) ->
  - 2 ^ 30 <= x <= 2 ^ 30 ->
  (detect_outliers_iqr group_qty x = true <->
   outside (iqr_lower_bound group_qty) (iqr_upper_bound group_qty) x).
Proof.
  intros Hne Hlen Hb Hx.
  destruct (quantile_exact 1 group_qty (or_introl eq_refl) Hne Hlen Hb)
    as [k1 [F1 [Q1 B1]]].
  destruct (quantile_exact 3 group_qty (or_intror eq_refl) Hne Hlen Hb)
    as [k3 [F3 [Q3 B3]]].
  unfold detect_outliers_iqr, outside, iqr_lower_bound, iqr_upper_bound. cbv zeta.
  rewrite F1, F3, Q1, Q3.
  rewrite (fsub_exact k3 (-2) k1 (-2)) by (change (2 ^ (-2 - -2)) with 1; lia).
  change (2 ^ (-2 - -2)) with 1.
  rewrite fmul_exact by lia. change (-1 + -2) with (-3).
  rewrite (fsub_exact k1 (-2) _ (-3)) by (change (2 ^ (-2 - -3)) with 2; lia).
  rewrite (fadd_exact k3 (-2) _ (-3)) by (change (2 ^ (-2 - -3)) with 2; lia).
  change (2 ^ (-2 - -3)) with 2.
  unfold between, py_max.
  rewrite (float_of_int_small 2), (float_of_int_small x) by (simpl; lia).
  rewrite fltb_floats by lia. rewrite (fleb_floats x 0 _ (-3)) by lia.
  change (2 ^ (0 - -3)) with 8.
  rewrite Q.max_lt_iff.
  assert (E2 : (inject_Z x < inject_Z 2)%Q <-> x * 8 < 2 * 8).
  { rewrite <- Zlt_Qlt. lia. }
  assert (EL : (inject_Z x < (k1 # 4) - (3 # 2) * ((k3 # 4) - (k1 # 4)))%Q
               <-> x * 8 < k1 * 2 - 3 * (k3 * 1 - k1)).
  { cbv beta iota delta [Qlt Qplus Qminus Qmult Qopp inject_Z Qnum Qden].
    cbn [Pos.mul]. lia. }
  assert (EU : ((k3 # 4) + (3 # 2) * ((k3 # 4) - (k1 # 4)) < inject_Z x)%Q
               <-> k3 * 2 + 3 * (k3 * 1 - k1) < x * 8).
  { cbv beta iota delta [Qlt Qplus Qminus Qmult Qopp inject_Z Qnum Qden].
    cbn [Pos.mul]. lia. }
  rewrite E2, EL, EU.
  destruct (Z.ltb_spec (2 * 8) (k1 * 2 - 3 * (k3 * 1 - k1))) as [Hc|Hc].
  - rewrite fleb_floats_l by lia. change (2 ^ (0 - -3)) with 8.
    rewrite negb_true_iff, andb_false_iff, !Z.leb_gt. lia.
  - rewrite negb_true_iff, andb_false_iff, !Z.leb_gt. lia.
Qed.

End FloatFacts.

(** ** Comparable groups *)

Module CompFacts.
Import C_shaping.

Lemma distinct_releases_nunique (g : list Row) :
  distinct_releases g (nunique (map release g)).
Proof.
  exists (unique (map release g)). split; [apply NoDup_unique|]. split; [reflexivity|].
  intros x. rewrite In_unique, in_map_iff. split; intros [r [H1 H2]]; exists r; tauto.
Qed.



Lemma yes_no_Y (b : bool) : yes_no b = "Y" <-> b = true.
Proof. destruct b; simpl; split; intros H; congruence. Qed.

Lemma yes_no_cases (b : bool) : yes_no b = "Y" \/ yes_no b = "N".
Proof. destruct b; simpl; auto. Qed.

(** What [create_comp] returns on a table that has the columns it reads. *)
Lemma create_comp_value (df : Frame) :
  (forall c, In c ["brand"; "customer"; "dedalo_area"; "new_acquisition_mode"; "release"] ->
             In c (columns df)) ->
  create_comp df =
  Ok (mkDataFrame
        (without_label "group_id" (with_label "comp" (with_label "group_id" (columns df))))
        (map (fun r =>
                set_comp (yes_no (str_in (comp_group_id r)
                   (index_where_two (groupby_release_nunique comp_group_id (rows df))))) r)
             (rows df))).
Proof.
  intros Hc. unfold create_comp.
  assert (H1 : getitems df ["brand"; "customer"; "dedalo_area"; "new_acquisition_mode"] = Ok tt).
  { apply getitems_ok. intros c Hin. apply Hc. simpl in *. tauto. }
  rewrite H1. cbn [bind].
  assert (H2 : getitem (mkDataFrame (with_label "group_id" (columns df)) (rows df)) "release"
               = Ok tt).
  { apply getitem_ok. cbn [columns]. apply In_with_label. right. apply Hc. simpl. tauto. }
  rewrite H2. reflexivity.
Qed.



(** *** Keys and tuples *)

Lemma join_injective (a a' x x' : string) :
  hyphen_free a = true -> hyphen_free a' = true ->
  (a ++ "-" ++ x)%string = (a' ++ "-" ++ x')%string ->
  a = a' /\ x = x'.
Proof.
  revert a'. induction a as [|c a IH]; intros [|c' a'] Ha Ha' H; simpl in *.
  - injection H as ->. auto.
  - injection H as <- _. discriminate Ha'.
  - injection H as -> _. discriminate Ha.
  - injection H as -> H. apply andb_true_iff in Ha, Ha'.
    destruct (IH a' (proj2 Ha) (proj2 Ha') H) as [-> ->]. auto.
Qed.

(** Where the dimensions hold no ['-'], the key text determines the
    dimensions, and grouping by the text is grouping by the tuple. *)
Lemma comp_group_id_injective (r1 r2 : Row) :
  plain_dimensions r1 -> plain_dimensions r2 ->
  comp_group_id r1 = comp_group_id r2 ->
  (brand r1, customer r1, dedalo_area r1, new_acquisition_mode r1)
  = (brand r2, customer r2, dedalo_area r2, new_acquisition_mode r2).
Proof.
  intros [B1 [C1 D1]] [B2 [C2 D2]] H. unfold comp_group_id in H.
  apply join_injective in H; [|assumption..]. destruct H as [-> H].
  apply join_injective in H; [|assumption..]. destruct H as [-> H].
  apply join_injective in H; [|assumption..]. destruct H as [-> ->].
  reflexivity.
Qed.

Lemma group_by_key_is_tuple_group (rs : list Row) (r x : Row) :
  plain_dimensions r -> plain_dimensions x ->
  (In x (group_by_key comp_group_id rs r) <->
   In x rs /\
   (brand x, customer x, dedalo_area x, new_acquisition_mode x)
   = (brand r, customer r, dedalo_area r, new_acquisition_mode r)).
Proof.
  intros Hr Hx. unfold group_by_key. rewrite filter_In, String.eqb_eq. split.
  - intros [Hin Hk]. split; [assumption|]. apply comp_group_id_injective; assumption.
  - intros [Hin Ht]. split; [assumption|]. injection Ht as E1 E2 E3 E4.
    unfold comp_group_id. congruence.
Qed.

(** The inverse reading of [create_comp]: a successful call had the
    columns, and its result is the table with [comp] set row by row. *)
Lemma create_comp_inv (df df' : Frame) :
  create_comp df = Ok df' ->
  In "new_acquisition_mode" (columns df) /\
  df' = mkDataFrame
          (without_label "group_id" (with_label "comp" (with_label "group_id" (columns df))))
          (map (fun r =>
                  set_comp (yes_no (str_in (comp_group_id r)
                     (index_where_two (groupby_release_nunique comp_group_id (rows df))))) r)
               (rows df)).
Proof.
  intros H. pose proof H as H0. unfold create_comp in H.
  bind_inv H. apply result_unit_ok in Hstep. rewrite getitems_ok in Hstep.
  bind_inv H. apply result_unit_ok in Hstep0. rewrite getitem_ok in Hstep0.
  cbn [columns] in Hstep0. apply In_with_label in Hstep0.
  destruct Hstep0 as [Hd|Hrel]; [discriminate Hd|].
  split; [apply Hstep; simpl; tauto|].
  rewrite create_comp_value in H0.
  - injection H0 as <-. reflexivity.
  - intros c Hc. simpl in Hc.
    destruct Hc as [<-|[<-|[<-|[<-|[<-|[]]]]]]; try assumption; apply Hstep; simpl; tauto.
Qed.



End CompFacts.

(** ** What the shaping steps return *)

Module ShapeFacts.
Import C_shaping Outcome.

(** Decides goals about membership of a label after assignments and drops. *)
Ltac labels :=
  cbn [columns rows] in *;
  repeat (rewrite In_with_label in * || rewrite In_without_label in * );
  intuition (try discriminate; try congruence).

Lemma sub_datetime_ok (a b days : Z) : sub_datetime a b = Ok days -> days = a - b.
Proof.
  unfold sub_datetime. destruct (_ && _); intros H; [|discriminate H].
  injection H as <-. reflexivity.
Qed.

Lemma mapM_sub_datetime (dated : list (Row * Z)) (g : Row * Z -> Z) (days : list Z) :
  mapM (fun p => sub_datetime (snd p) (g p)) dated = Ok days ->
  days = map (fun p => snd p - g p) dated.
Proof.
  revert days. induction dated as [|p dated IH]; simpl; intros days H.
  - injection H as <-. reflexivity.
  - bind_inv H. bind_inv H. injection H as <-.
    apply sub_datetime_ok in Hstep. rewrite Hstep, (IH _ Hstep0). reflexivity.
Qed.

Lemma combine_map_combine {A B C : Type} (h : A * B -> C) (l : list A) (l' : list B) :
  combine l (map h (combine l l')) = map (fun p => (fst p, h p)) (combine l l').
Proof.
  revert l'. induction l as [|x l IH]; intros [|y l']; simpl; try reflexivity.
  rewrite IH. reflexivity.
Qed.

Lemma label_first_order_inv (df df' : Frame) (w : option Z) :
  label_first_order df w = Ok df' ->
  exists dts,
    mapM (fun r => to_datetime_yearweek (creation_yearweek r)) (rows df) = Ok dts /\
    df' = mkDataFrame (first_order_labels (columns df))
                      (first_order_rows w (combine (rows df) dts)).
Proof.
  unfold label_first_order. intros H.
  bind_inv H. bind_inv H. bind_inv H. bind_inv H. bind_inv H.
  injection H as <-. exists x0. split; [assumption|].
  apply mapM_sub_datetime in Hstep2. subst x2.
  unfold first_order_labels, first_order_rows, assign. cbn [columns rows].
  rewrite combine_map_combine, !map_map. reflexivity.
Qed.

(** The spans of a table that [label_first_order] accepts all fit. *)
Lemma label_first_order_spans (df df' : Frame) (w : option Z) :
  label_first_order df w = Ok df' ->
  exists dts days,
    mapM (fun r => to_datetime_yearweek (creation_yearweek r)) (rows df) = Ok dts /\
    mapM (fun p => sub_datetime (snd p)
                     (transform_min (combine (rows df) dts) (first_order_key (fst p)) (snd p)))
         (combine (rows df) dts) = Ok days.
Proof.
  unfold label_first_order. intros H.
  bind_inv H. bind_inv H. bind_inv H. bind_inv H. eauto.
Qed.

Lemma create_common_creation_yearweek_inv (df df' : Frame) :
  create_common_creation_yearweek df = Ok df' ->
  (In "common_creation_yearweek" (columns df) /\ df' = df) \/
  (~ In "common_creation_yearweek" (columns df) /\
   exists max_year diffs,
     py_max_str (unique (map year_release (rows df))) = Ok max_year /\
     mapM (fun r => m <- py_int max_year ;; y <- py_int (year_release r) ;; Ok (m - y))
          (rows df) = Ok diffs /\
     df' = mkDataFrame (common_labels (columns df)) (common_rows (rows df) diffs)).
Proof.
  unfold create_common_creation_yearweek. intros H.
  destruct (has_column "common_creation_yearweek" df) eqn:E; cbn [negb] in H.
  - left. apply has_column_In in E. injection H as <-. auto.
  - right. split.
    + intros Hin. apply has_column_In in Hin. congruence.
    + bind_inv H. bind_inv H. bind_inv H. bind_inv H. bind_inv H.
      injection H as <-. exists x0, x1. auto.
Qed.

Lemma In_common_rows (rs : list Row) (diffs : list Z) (r' : Row) :
  In r' (common_rows rs diffs) ->
  exists r c p, In r rs /\ r' = set_common_yearweeks c p r.
Proof.
  unfold common_rows. intros H. apply in_map_iff in H. destruct H as [[r d] [<- H]].
  apply in_combine_l in H. eauto.
Qed.

Section Flags.

Variable year_week : Z.
Variables detect_outliers_mad detect_outliers_iso detect_outliers_svm : list Z -> Z -> bool.

Lemma create_till_today_inv (df df' : Frame) :
  create_till_today year_week df = Ok df' ->
  exists df1,
    create_common_creation_yearweek df = Ok df1 /\
    df' = assign "till_today"
            (fun r => set_till_today (yes_no (common_creation_yearweek r <=? year_week)) r)
            df1.
Proof.
  unfold create_till_today. intros H. bind_inv H. bind_inv H.
  injection H as <-. eauto.
Qed.

(** [create_till_today] leaves [comp] as it finds it and keeps every label
    it does not itself write. *)
Lemma create_till_today_keeps (df df' : Frame) :
  create_till_today year_week df = Ok df' ->
  (forall r', In r' (rows df') -> exists r, In r (rows df) /\ comp r' = comp r) /\
  (In "comp" (columns df) -> In "comp" (columns df')).
Proof.
  intros H. apply create_till_today_inv in H. destruct H as [df1 [H ->]].
  apply create_common_creation_yearweek_inv in H.
  destruct H as [[_ ->]|[_ [my [diffs [_ [_ ->]]]]]]; split.
  - cbn [assign rows]. intros r' Hr'. apply in_map_iff in Hr'.
    destruct Hr' as [r [<- Hr]]. exists r. split; [assumption | reflexivity].
  - unfold assign. labels.
  - cbn [assign rows]. intros r' Hr'. apply in_map_iff in Hr'.
    destruct Hr' as [r1 [<- Hr1]]. apply In_common_rows in Hr1.
    destruct Hr1 as [r [c [p [Hr ->]]]]. exists r. split; [assumption | reflexivity].
  - unfold assign, common_labels. labels.
Qed.

Lemma create_comp_today_inv (df df' : Frame) (w : option Z) :
  create_comp_today year_week df w = Ok df' ->
  exists df1 df2 df3,
    (if negb (has_column "new_acquisition_mode" df) || is_some w
     then label_first_order df w else Ok df) = Ok df1 /\
    (if negb (has_column "comp" df1) then create_comp df1 else Ok df1) = Ok df2 /\
    (if negb (has_column "till_today" df2) then create_till_today year_week df2 else Ok df2)
    = Ok df3 /\
    In "comp" (columns df3) /\
    df' = mkDataFrame (comp_today_labels (columns df3)) (comp_today_rows (rows df3)).
Proof.
  unfold create_comp_today. intros H.
  bind_inv H. bind_inv H. bind_inv H. bind_inv H. bind_inv H.
  injection H as <-. exists x, x0, x1.
  apply result_unit_ok in Hstep2. rewrite getitems_ok in Hstep2.
  repeat split; try assumption. apply Hstep2. simpl. tauto.
Qed.

Lemma label_first_order_labels (df df' : Frame) (w : option Z) (c : string) :
  label_first_order df w = Ok df' ->
  ~ In c ["creation_yearweek_dt"; "first_creation_yearweek_dt"; "week_diff";
          "first_order"; "new_acquisition_mode"] ->
  (In c (columns df') <-> In c (columns df)).
Proof.
  intros H Hc. apply label_first_order_inv in H. destruct H as [dts [_ ->]].
  simpl in Hc. unfold first_order_labels. labels.
Qed.

Lemma create_comp_labels (df df' : Frame) (c : string) :
  create_comp df = Ok df' ->
  ~ In c ["group_id"; "comp"] ->
  (In c (columns df') <-> In c (columns df)).
Proof.
  intros H Hc. apply CompFacts.create_comp_inv in H. destruct H as [_ ->].
  simpl in Hc. labels.
Qed.

Lemma create_till_today_labels (df df' : Frame) (c : string) :
  create_till_today year_week df = Ok df' ->
  ~ In c ["year_release"; "max_year"; "diff"; "common_creation_yearweek";
          "common_planned_delivery_yearweek"; "till_today"] ->
  (In c (columns df') <-> In c (columns df)).
Proof.
  intros H Hc. apply create_till_today_inv in H. destruct H as [df1 [H ->]].
  apply create_common_creation_yearweek_inv in H. simpl in Hc.
  destruct H as [[_ ->]|[_ [my [diffs [_ [_ ->]]]]]]; unfold assign, common_labels; labels.
Qed.

Lemma In_comp_today_rows (rs : list Row) (r' : Row) :
  In r' (comp_today_rows rs) ->
  exists r, In r rs /\
    (r' = set_comp_today "Y" r /\ till_today r = "Y" /\ comp r = "Y" \/
     r' = set_comp_today "N" r).
Proof.
  unfold comp_today_rows. intros H. apply in_map_iff in H. destruct H as [r [<- Hr]].
  exists r. split; [assumption|].
  destruct (String.eqb (till_today r) "Y") eqn:E1; cbn [andb]; [|auto].
  destruct (String.eqb (comp r) "Y") eqn:E2; cbn [andb]; [|auto].
  apply String.eqb_eq in E1, E2.
  destruct (String.eqb _ "Y"); auto.
Qed.

(** [create_comp_today] never flags a row 'Y' whose [comp] or [till_today]
    is not 'Y', whatever columns the table came with. *)
Lemma create_comp_today_implies (df df' : Frame) (w : option Z) :
  create_comp_today year_week df w = Ok df' ->
  forall r', In r' (rows df') ->
    (comp_today r' = "Y" \/ comp_today r' = "N") /\
    (comp_today r' = "Y" -> comp r' = "Y" /\ till_today r' = "Y").
Proof.
  intros H r' Hr'. apply create_comp_today_inv in H.
  destruct H as [df1 [df2 [df3 [_ [_ [_ [_ ->]]]]]]]. cbn [rows] in Hr'.
  apply In_comp_today_rows in Hr'.
  destruct Hr' as [r [_ [[-> [Ht Hc]]| ->]]]; cbn [comp_today comp till_today set_comp_today].
  - auto.
  - split; [auto|]. discriminate.
Qed.

Lemma create_comp_today_flags (df df' : Frame) (w : option Z) :
  ~ In "comp" (columns df) ->
  create_comp_today year_week df w = Ok df' ->
  (forall r', In r' (rows df') -> today_flags r') /\
  In "comp" (columns df') /\
  (In "comp_no_out" (columns df') <-> In "comp_no_out" (columns df)).
Proof.
  intros Hno H. pose proof (create_comp_today_implies _ _ _ H) as Himp.
  apply create_comp_today_inv in H.
  destruct H as [df1 [df2 [df3 [H1 [H2 [H3 [Hcomp ->]]]]]]].
  assert (Hno1 : ~ In "comp" (columns df1)).
  { destruct (negb (has_column "new_acquisition_mode" df) || is_some w).
    - rewrite (label_first_order_labels _ _ _ "comp" H1); [assumption|].
      simpl. intuition discriminate.
    - injection H1 as <-. assumption. }
  assert (Hout1 : In "comp_no_out" (columns df1) <-> In "comp_no_out" (columns df)).
  { destruct (negb (has_column "new_acquisition_mode" df) || is_some w).
    - apply (label_first_order_labels _ _ _ "comp_no_out" H1). simpl. intuition discriminate.
    - injection H1 as <-. tauto. }
  assert (E : has_column "comp" df1 = false).
  { apply not_true_is_false. rewrite has_column_In. assumption. }
  rewrite E in H2. cbn [negb] in H2.
  pose proof (create_comp_labels _ _ "comp_no_out" H2) as Hout2.
  apply CompFacts.create_comp_inv in H2. destruct H2 as [_ H2].
  assert (Hrows2 : forall r, In r (rows df2) -> comp r = "Y" \/ comp r = "N").
  { subst df2. cbn [rows]. intros r Hr. apply in_map_iff in Hr.
    destruct Hr as [r0 [<- _]]. cbn [comp set_comp]. apply CompFacts.yes_no_cases. }
  assert (Hrows3 : forall r, In r (rows df3) -> comp r = "Y" \/ comp r = "N").
  { destruct (negb (has_column "till_today" df2)).
    - apply create_till_today_keeps in H3. destruct H3 as [Hk _].
      intros r Hr. destruct (Hk r Hr) as [r0 [Hr0 ->]]. auto.
    - injection H3 as <-. assumption. }
  assert (Hout3 : In "comp_no_out" (columns df3) <-> In "comp_no_out" (columns df2)).
  { destruct (negb (has_column "till_today" df2)).
    - apply (create_till_today_labels _ _ "comp_no_out" H3). simpl. intuition discriminate.
    - injection H3 as <-. tauto. }
  split; [|split].
  - intros r' Hr'. destruct (Himp r' Hr') as [Ha Hb]. split; [|split]; try assumption.
    cbn [rows] in Hr'. apply In_comp_today_rows in Hr'.
    destruct Hr' as [r [Hr [[-> _]| ->]]]; cbn [comp set_comp_today]; auto.
  - unfold comp_today_labels. labels.
  - rewrite <- Hout1, <- Hout2; [|simpl; intuition discriminate]. rewrite <- Hout3.
    unfold comp_today_labels. labels.
Qed.

(** *** Outliers *)





Lemma key3_eqb_eq (a b : string * string * string) : key3_eqb a b = true <-> a = b.
Proof.
  destruct a as [[a1 a2] a3], b as [[b1 b2] b3]. unfold key3_eqb.
  rewrite !andb_true_iff, !String.eqb_eq. split.
  - intros [[-> ->] ->]. reflexivity.
  - intros H. injection H as -> -> ->. auto.
Qed.

Lemma In_unique_keys (k : string * string * string) (l : list (string * string * string)) :
  In k (unique_keys l) <-> In k l.
Proof.
  induction l as [|y l IH]; simpl; [tauto|].
  rewrite filter_In, negb_true_iff, IH. split.
  - intuition.
  - intros [->|H]; [auto|]. destruct (key3_eqb k y) eqn:E; [|auto].
    apply key3_eqb_eq in E. auto.
Qed.

Lemma In_peer_groups (rs : list Row) (r : Row) :
  In r rs -> In (peer_key r) (peer_groups rs).
Proof.
  intros H. unfold peer_groups. apply In_sorted, In_unique_keys, in_map. assumption.
Qed.

Lemma In_outlier_rows (detector : list Z -> Z -> bool) (rs : list Row) (r' : Row) :
  In r' (outlier_rows detector rs) <->
  exists r, In r rs /\
    r' = set_outlier (detector (map qty (peer_group rs (peer_key r))) (qty r)) r.
Proof.
  unfold outlier_rows. rewrite in_flat_map. split.
  - intros [k [_ H]]. apply in_map_iff in H. destruct H as [r [<- Hr]].
    unfold peer_group in Hr. apply filter_In in Hr. destruct Hr as [Hr Hk].
    apply key3_eqb_eq in Hk. subst k. eauto.
  - intros [r [Hr ->]]. exists (peer_key r). split; [apply In_peer_groups; assumption|].
    apply in_map_iff. exists r. split; [reflexivity|].
    unfold peer_group. apply filter_In. split; [assumption|]. apply key3_eqb_eq. reflexivity.
Qed.



Lemma NoDup_unique_keys (l : list (string * string * string)) : NoDup (unique_keys l).
Proof.
  induction l as [|y l IH]; simpl; constructor.
  - rewrite filter_In, negb_true_iff. intros [_ H].
    assert (E : key3_eqb y y = true) by (apply key3_eqb_eq; reflexivity). congruence.
  - apply NoDup_filter. assumption.
Qed.

Lemma NoDup_peer_groups (rs : list Row) : NoDup (peer_groups rs).
Proof.
  unfold peer_groups. eapply Permutation_NoDup.
  - symmetry. apply Permutation_sorted.
  - apply NoDup_unique_keys.
Qed.



(** Visiting the groups one after the other visits every row once. *)
Lemma groups_partition (rs : list Row) (ks : list (string * string * string)) :
  NoDup ks ->
  Permutation (flat_map (peer_group rs) ks)
              (filter (fun r => existsb (key3_eqb (peer_key r)) ks) rs).
Proof.
  induction 1 as [|k ks Hk Hks IH]; simpl.
  - induction rs; simpl; auto.
  - rewrite IH. unfold peer_group. apply filter_split.
    intros r _ Hr. change (key3_eqb (peer_key r) k = true) in Hr.
    apply key3_eqb_eq in Hr. subst k.
    apply not_true_is_false. intros He. apply existsb_exists in He.
    destruct He as [k' [Hin He]]. apply key3_eqb_eq in He. subst k'. contradiction.
Qed.

Lemma flat_map_map_groups {A B : Type} (g : A -> B) (F : string * string * string -> list A)
  (ks : list (string * string * string)) :
  flat_map (fun k => map g (F k)) ks = map g (flat_map F ks).
Proof.
  induction ks as [|k ks IH]; simpl; [reflexivity|]. rewrite map_app. congruence.
Qed.

(** The rows after detection are the rows before it, each with its flag,
    in the order of the groups. *)
Lemma outlier_rows_permutation (detector : list Z -> Z -> bool) (rs : list Row) :
  Permutation
    (outlier_rows detector rs)
    (map (fun r => set_outlier (detector (map qty (peer_group rs (peer_key r))) (qty r)) r) rs).
Proof.
  unfold outlier_rows.
  rewrite (flat_map_ext _
    (fun k => map (fun r => set_outlier
                              (detector (map qty (peer_group rs (peer_key r))) (qty r)) r)
                  (peer_group rs k))).
  - rewrite flat_map_map_groups. apply Permutation_map.
    rewrite groups_partition by apply NoDup_peer_groups.
    rewrite filter_all; [reflexivity|].
    intros r Hr. apply existsb_exists. exists (peer_key r).
    split; [apply In_peer_groups; assumption | apply key3_eqb_eq; reflexivity].
  - intros k. apply map_ext_in. intros r Hr. unfold peer_group in Hr.
    apply filter_In in Hr. destruct Hr as [_ Hr]. apply key3_eqb_eq in Hr. subst k.
    reflexivity.
Qed.

Lemma detect_outlier_inv (df df' : Frame) (method : string) :
  detect_outlier detect_outliers_mad detect_outliers_iso detect_outliers_svm df method = Ok df' ->
  exists detector,
    detector_of detect_outliers_mad detect_outliers_iso detect_outliers_svm method
    = Ok detector /\
    ((rows df = [] /\ df' = df) \/
     (rows df <> [] /\
      df' = mkDataFrame (with_label "outlier" (columns df))
                        (outlier_rows detector (rows df)))).
Proof.
  unfold detect_outlier. intros H. bind_inv H. exists x. split; [exact Hstep|].
  bind_inv H. destruct (rows df) as [|r0 rs] eqn:E.
  - left. injection H as <-. auto.
  - right. bind_inv H. injection H as <-. split; [discriminate | reflexivity].
Qed.

Lemma detect_outlier_keeps (df df' : Frame) (method : string) :
  detect_outlier detect_outliers_mad detect_outliers_iso detect_outliers_svm df method = Ok df' ->
  (forall r', In r' (rows df') -> exists r b, In r (rows df) /\ r' = set_outlier b r) /\
  (forall c, c <> "outlier" -> (In c (columns df') <-> In c (columns df))).
Proof.
  intros H. apply detect_outlier_inv in H.
  destruct H as [det [_ [[E ->]|[_ ->]]]]; split.
  - rewrite E. intros r' [].
  - tauto.
  - cbn [rows]. intros r' Hr'. apply In_outlier_rows in Hr'.
    destruct Hr' as [r [Hr ->]]. eauto.
  - intros c Hc. labels.
Qed.

(** *** The flags without outliers *)

Lemma create_comp_no_outliers_inv (df df' : Frame) (method : string) :
  create_comp_no_outliers detect_outliers_mad detect_outliers_iso detect_outliers_svm
    df method = Ok df' ->
  exists df1 df2,
    (if negb (has_column "comp" df) then create_comp df else Ok df) = Ok df1 /\
    (if negb (has_column "outlier" df1)
     then detect_outlier detect_outliers_mad detect_outliers_iso detect_outliers_svm df1 method
     else Ok df1) = Ok df2 /\
    df' = mkDataFrame (with_label "comp_no_out" (columns df2)) (comp_no_out_rows (rows df2)).
Proof.
  unfold create_comp_no_outliers. intros H. bind_inv H. bind_inv H. bind_inv H.
  injection H as <-. exists x, x0. auto.
Qed.

Lemma In_comp_no_out_rows (rs : list Row) (r' : Row) :
  In r' (comp_no_out_rows rs) ->
  exists r, In r rs /\
    (r' = set_comp_no_out "Y" r /\ outlier r = false /\ comp r = "Y" \/
     r' = set_comp_no_out "N" r).
Proof.
  unfold comp_no_out_rows. intros H. apply in_map_iff in H. destruct H as [r [<- Hr]].
  exists r. split; [assumption|].
  destruct (outlier r); cbn [Bool.eqb andb]; [auto|].
  destruct (String.eqb (comp r) "Y") eqn:E; [|auto].
  apply String.eqb_eq in E. auto.
Qed.

(** [create_comp_no_outliers] writes only 'Y' and 'N', and 'Y' only on a
    row that is no outlier and whose [comp] is 'Y'. *)
Lemma create_comp_no_outliers_implies (df df' : Frame) (method : string) :
  create_comp_no_outliers detect_outliers_mad detect_outliers_iso detect_outliers_svm
    df method = Ok df' ->
  forall r', In r' (rows df') ->
    (comp_no_out r' = "Y" \/ comp_no_out r' = "N") /\
    (comp_no_out r' = "Y" -> outlier r' = false /\ comp r' = "Y").
Proof.
  intros H r' Hr'. apply create_comp_no_outliers_inv in H.
  destruct H as [df1 [df2 [_ [_ ->]]]]. cbn [rows] in Hr'.
  apply In_comp_no_out_rows in Hr'.
  destruct Hr' as [r [_ [[-> [Ho Hc]]| ->]]];
    cbn [comp_no_out comp outlier set_comp_no_out].
  - auto.
  - split; [auto|]. discriminate.
Qed.

Lemma create_comp_today_no_outliers_inv (df df' : Frame) (method : string) :
  create_comp_today_no_outliers year_week detect_outliers_mad detect_outliers_iso
    detect_outliers_svm df method = Ok df' ->
  exists df1 df2 df3,
    (if negb (has_column "comp_today" df)
     then create_comp_today year_week df None else Ok df) = Ok df1 /\
    (if negb (has_column "outlier" df1)
     then detect_outlier detect_outliers_mad detect_outliers_iso detect_outliers_svm df1 method
     else Ok df1) = Ok df2 /\
    (if negb (has_column "comp_no_out" df2)
     then create_comp_no_outliers detect_outliers_mad detect_outliers_iso detect_outliers_svm
            df2 "iqr"
     else Ok df2) = Ok df3 /\
    df' = mkDataFrame (comp_today_no_out_labels (columns df3))
                      (comp_today_no_out_rows (rows df3)).
Proof.
  unfold create_comp_today_no_outliers. intros H.
  bind_inv H. bind_inv H. bind_inv H. bind_inv H. bind_inv H.
  injection H as <-. exists x, x0, x1. auto.
Qed.

Lemma In_comp_today_no_out_rows (rs : list Row) (r' : Row) :
  In r' (comp_today_no_out_rows rs) ->
  exists r, In r rs /\
    (r' = set_comp_today_no_out "Y" r /\ outlier r = false /\ comp_today r = "Y" \/
     r' = set_comp_today_no_out "N" r).
Proof.
  unfold comp_today_no_out_rows. intros H. apply in_map_iff in H.
  destruct H as [r [<- Hr]]. exists r. split; [assumption|].
  destruct (outlier r); cbn [Bool.eqb andb]; [auto|].
  destruct (String.eqb (comp_today r) "Y") eqn:E; cbn [andb]; [|auto].
  apply String.eqb_eq in E. destruct (String.eqb _ "Y"); auto.
Qed.

Lemma today_flags_after_outlier (df df' : Frame) (method : string) :
  (if negb (has_column "outlier" df)
   then detect_outlier detect_outliers_mad detect_outliers_iso detect_outliers_svm df method
   else Ok df) = Ok df' ->
  (forall r, In r (rows df) -> today_flags r) ->
  (forall r, In r (rows df') -> today_flags r) /\
  (forall c, c <> "outlier" -> (In c (columns df') <-> In c (columns df))).
Proof.
  intros H F. destruct (negb (has_column "outlier" df)).
  - apply detect_outlier_keeps in H. destruct H as [Hr Hc]. split; [|assumption].
    intros r' Hr'. destruct (Hr r' Hr') as [r [b [Hin ->]]]. exact (F r Hin).
  - injection H as <-. split; [assumption | tauto].
Qed.

(** C2.  When the table comes without [comp], [comp_today] and
    [comp_no_out], so that the shaper computes them, every row of the table
    that [create_comp_today_no_outliers] returns has 'Y' or 'N' in each of
    the four flags, has [comp_today] 'Y' only with [comp] 'Y' and
    [till_today] 'Y', and has [comp_today_no_out] 'Y' only with [outlier]
    false and [comp_today] 'Y'. *)
Theorem shaping_flags_invariant (df df' : Frame) (method : string) :
  ~ In "comp" (columns df) ->
  ~ In "comp_today" (columns df) ->
  ~ In "comp_no_out" (columns df) ->
  create_comp_today_no_outliers year_week detect_outliers_mad detect_outliers_iso
    detect_outliers_svm df method = Ok df' ->
  forall r, In r (rows df') -> flags_invariant r.
Proof.
  intros Hc Ht Hn H r' Hr'.
  apply create_comp_today_no_outliers_inv in H.
  destruct H as [df1 [df2 [df3 [H1 [H2 [H3 ->]]]]]].
  assert (E1 : has_column "comp_today" df = false).
  { apply not_true_is_false. rewrite has_column_In. assumption. }
  rewrite E1 in H1. cbn [negb] in H1.
  apply create_comp_today_flags in H1; [|assumption].
  destruct H1 as [F1 [C1 N1]].
  apply today_flags_after_outlier in H2; [|assumption].
  destruct H2 as [F2 L2].
  assert (E2 : has_column "comp_no_out" df2 = false).
  { apply not_true_is_false. rewrite has_column_In, L2, N1; [assumption|discriminate]. }
  rewrite E2 in H3. cbn [negb] in H3.
  pose proof (create_comp_no_outliers_implies _ _ _ H3) as Hno.
  apply create_comp_no_outliers_inv in H3.
  destruct H3 as [df2a [df2b [Ha [Hb ->]]]].
  assert (E3 : has_column "comp" df2 = true).
  { rewrite has_column_In, L2; [assumption|discriminate]. }
  rewrite E3 in Ha. cbn [negb] in Ha. injection Ha as <-.
  apply today_flags_after_outlier in Hb; [|assumption].
  destruct Hb as [F3 _].
  cbn [rows] in Hr', Hno. apply In_comp_today_no_out_rows in Hr'.
  destruct Hr' as [r [Hr Hcase]].
  destruct (Hno r Hr) as [Hflag _].
  apply In_comp_no_out_rows in Hr. destruct Hr as [r0 [Hr0 Hr]].
  assert (T : today_flags r).
  { destruct Hr as [[-> _]| ->]; exact (F3 r0 Hr0). }
  destruct T as [Tc [Tt Ti]]. unfold flags_invariant.
  destruct Hcase as [[-> [Ho Hy]]| ->];
    cbn [comp comp_today comp_no_out comp_today_no_out till_today outlier
         set_comp_today_no_out];
    repeat split; auto; try discriminate; try (apply Ti; assumption).
Qed.

(** A [comp] column that the table brings along is taken as it is, whatever
    it holds; hence the three absent labels in the statement above. *)
Example supplied_comp_is_kept :
  exists df',
    create_comp_no_outliers detect_outliers_mad detect_outliers_iso detect_outliers_svm
      (mkDataFrame (Samples.labelled_columns ++ ["comp"; "outlier"])
                   [set_comp "X" Samples.hyphen_left]) "iqr" = Ok df' /\
    map comp (rows df') = ["X"] /\
    map comp_no_out (rows df') = ["N"].
Proof. eexists. split; [reflexivity|]. split; reflexivity. Qed.

End Flags.

Lemma shaping_flags_invariant_witness :
  exists df',
    C_shaping.create_comp_today_no_outliers 202430 Samples.never_outlier
      Samples.never_outlier Samples.never_outlier Samples.orders_table "iqr" = Ok df' /\
    forall r, In r (rows df') -> flags_invariant r.
Proof.
  destruct (C_shaping.create_comp_today_no_outliers 202430 Samples.never_outlier
              Samples.never_outlier Samples.never_outlier Samples.orders_table "iqr")
    as [df'|e] eqn:E.
  - exists df'. split; [reflexivity|].
    apply (shaping_flags_invariant 202430 Samples.never_outlier Samples.never_outlier
             Samples.never_outlier Samples.orders_table df' "iqr");
      try exact E; simpl; intuition discriminate.
  - vm_compute in E. discriminate E.
Defined.

(** *** The interquartile rule *)

Lemma detector_of_iqr (mad iso svm det : list Z -> Z -> bool) :
  detector_of mad iso svm "iqr" = Ok det -> det = detect_outliers_iqr.
Proof.
  intros H. change (Ok detect_outliers_iqr = Ok det) in H.
  symmetry. exact (f_equal (fun m => match m with Ok d => d | Raise _ => det end) H).
Qed.

(** The peer group that the shaper forms is the group of the rows with the
    same brand, dedalo_area and new_acquisition_mode. *)
Lemma peer_group_peers (rs : list Row) (r : Row) :
  peer_group rs (peer_key r) = peers rs r.
Proof. unfold peer_group, peers. apply filter_ext. intros x. reflexivity. Qed.

Lemma small_quantities_peers (rs : list Row) (r : Row) :
  small_quantities rs -> In r rs ->
  map qty (peers rs r) <> [] /\
  Z.of_nat (List.length (map qty (peers rs r))) < 2 ^ 31 /\
  (forall v, In v (map qty (peers rs r)) -> - 2 ^ 30 <= v <= 2 ^ 30) /\
  - 2 ^ 30 <= qty r <= 2 ^ 30.
Proof.
  intros [Hlen Hb] Hr.
  assert (Hin : In r (peers rs r)).
  { unfold peers. apply filter_In. split; [assumption|]. rewrite !String.eqb_refl. reflexivity. }
  split; [|split; [|split]].
  - intros E. apply (in_map qty) in Hin. rewrite E in Hin. destruct Hin.
  - rewrite length_map. unfold peers.
    pose proof (filter_length_le
                  (fun x => String.eqb (brand x) (brand r)
                            && String.eqb (dedalo_area x) (dedalo_area r)
                            && String.eqb (new_acquisition_mode x) (new_acquisition_mode r))
                  rs) as Hle.
    lia.
  - intros v Hv. apply in_map_iff in Hv. destruct Hv as [x [<- Hx]].
    unfold peers in Hx. apply filter_In in Hx. apply Hb. tauto.
  - apply Hb. assumption.
Qed.

(** C9.  On a table of small quantities, [detect_outlier] with method 'iqr'
    returns the rows of the table, group after group, each with its
    [outlier] flag set and nothing else changed; the flag of a row is true
    exactly when its quantity lies outside
    [max(2, Q1 - 1.5 IQR), Q3 + 1.5 IQR], Q1 and Q3 being the quartiles of
    the quantities of the rows with the same brand, dedalo_area and
    new_acquisition_mode.  On the peer group with quantities 10, 12, 11,
    13, 9, 100 the bounds are 6.5 and 16.5 and only the row with 100 is
    flagged. *)
Theorem detect_outlier_iqr_rule :
  (forall mad iso svm (df df' : Frame),
      small_quantities (rows df) ->
      C_shaping.detect_outlier mad iso svm df "iqr" = Ok df' ->
      (exists flag : Row -> bool,
         Permutation (rows df') (map (fun r => set_outlier (flag r) r) (rows df))) /\
      forall r', In r' (rows df') ->
        exists r, In r (rows df) /\ r' = set_outlier (outlier r') r /\
          let group_qty := map qty (peers (rows df) r) in
          (outlier r' = true <->
           outside (iqr_lower_bound group_qty) (iqr_upper_bound group_qty) (qty r))) /\
  (exists df',
      C_shaping.detect_outlier Samples.never_outlier Samples.never_outlier
        Samples.never_outlier Samples.peer_table "iqr" = Ok df' /\
      map qty (rows df') = [10; 12; 11; 13; 9; 100] /\
      map outlier (rows df') = [false; false; false; false; false; true] /\
      Qeq (iqr_lower_bound [10; 12; 11; 13; 9; 100]) (13 # 2) /\
      Qeq (iqr_upper_bound [10; 12; 11; 13; 9; 100]) (33 # 2)).
Proof.
  split.
  - intros mad iso svm df df' Hsmall H. apply detect_outlier_inv in H.
    destruct H as [det [Hdet Hcase]]. apply detector_of_iqr in Hdet. subst det.
    destruct Hcase as [[E ->]|[_ ->]].
    + rewrite E. split; [exists (fun _ => false); constructor | intros r' []].
    + split.
      * exists (fun r => detect_outliers_iqr
                           (map qty (peer_group (rows df) (peer_key r))) (qty r)).
        apply outlier_rows_permutation.
      * cbn [rows]. intros r' Hr'. apply In_outlier_rows in Hr'.
        destruct Hr' as [r [Hr ->]]. exists r. split; [assumption|].
        cbn [outlier set_outlier]. split; [reflexivity|]. cbv zeta.
        rewrite peer_group_peers.
        destruct (small_quantities_peers _ r Hsmall Hr) as [H1 [H2 [H3 H4]]].
        apply FloatFacts.detect_outliers_iqr_exact; assumption.
  - eexists. split; [vm_compute; reflexivity|].
    repeat split; vm_compute; reflexivity.
Qed.

Lemma detect_outlier_iqr_rule_witness :
  small_quantities (rows MoreSamples.small_orders) /\
  forall r', In r' (outlier_rows detect_outliers_iqr (rows MoreSamples.small_orders)) ->
    exists r, In r (rows MoreSamples.small_orders) /\ r' = set_outlier (outlier r') r /\
      let group_qty := map qty (peers (rows MoreSamples.small_orders) r) in
      (outlier r' = true <->
       outside (iqr_lower_bound group_qty) (iqr_upper_bound group_qty) (qty r)).
Proof.
  assert (Hsmall : small_quantities (rows MoreSamples.small_orders)).
  { split; [reflexivity|]. intros r Hr. simpl in Hr.
    repeat (destruct Hr as [<-|Hr]; [vm_compute; split; discriminate|]). destruct Hr. }
  split; [exact Hsmall|].
  destruct detect_outlier_iqr_rule as [H _].
  apply (H Samples.never_outlier Samples.never_outlier Samples.never_outlier
           MoreSamples.small_orders
           (mkDataFrame (with_label "outlier" (columns MoreSamples.small_orders))
                        (outlier_rows detect_outliers_iqr (rows MoreSamples.small_orders)))
           Hsmall).
  vm_compute. reflexivity.
Defined.

End ShapeFacts.

(** ** First orders *)

Module FirstOrderFacts.
Import C_shaping Outcome ShapeFacts.

Lemma key4_eqb_eq (a b : string * string * string * string) :
  key4_eqb a b = true <-> a = b.
Proof.
  destruct a as [[[a1 a2] a3] a4], b as [[[b1 b2] b3] b4]. unfold key4_eqb.
  rewrite !andb_true_iff, !String.eqb_eq. split.
  - intros [[[-> ->] ->] ->]. reflexivity.
  - intros H. injection H as -> -> -> ->. auto.
Qed.

Lemma minimum_le (d : Z) (l : list Z) :
  minimum d l <= d /\ (forall x, In x l -> minimum d l <= x).
Proof.
  unfold minimum. revert d. induction l as [|y l IH]; intros d; simpl.
  - split; [lia | intros ? []].
  - destruct (IH (Z.min d y)) as [H1 H2]. split; [lia|].
    intros x [<-|Hx]; [lia | auto].
Qed.

Lemma minimum_In (d : Z) (l : list Z) : minimum d l = d \/ In (minimum d l) l.
Proof.
  unfold minimum. revert d. induction l as [|y l IH]; intros d; simpl; [auto|].
  destruct (IH (Z.min d y)) as [H|H]; [|auto].
  rewrite H. destruct (Z.min_spec d y) as [[_ ->]|[_ ->]]; auto.
Qed.

Lemma nth_error_combine {A B : Type} (l : list A) (l' : list B) (i : nat) (a : A) (b : B) :
  nth_error l i = Some a -> nth_error l' i = Some b ->
  nth_error (combine l l') i = Some (a, b).
Proof.
  revert l' i; induction l as [|x l IH]; intros l' i Ha Hb.
  - destruct i; discriminate Ha.
  - destruct l' as [|y l']; [destruct i; discriminate Hb|].
    destruct i as [|i]; simpl in *.
    + congruence.
    + auto.
Qed.

Lemma mapM_ok_combine {A B : Type} (f : A -> result B) (l : list A) (bs : list B) :
  mapM f l = Ok bs -> forall a b, In (a, b) (combine l bs) -> f a = Ok b.
Proof.
  revert bs; induction l as [|x l IH]; simpl; intros bs H a b Hin; [destruct Hin|].
  bind_inv H. bind_inv H. injection H as <-. simpl in Hin.
  destruct Hin as [Heq|Hin].
  - injection Heq as <- <-. assumption.
  - eapply IH; eassumption.
Qed.

Lemma mapM_ok_In {A B : Type} (f : A -> result B) (l : list A) (bs : list B) :
  mapM f l = Ok bs -> forall a, In a l -> exists b, In (a, b) (combine l bs).
Proof.
  intros H a Ha. apply In_nth_error in Ha. destruct Ha as [i Hi].
  destruct (mapM_ok_nth _ _ _ H _ _ Hi) as [b [Hb _]].
  exists b. eapply nth_error_In. apply nth_error_combine; eassumption.
Qed.

Lemma same_first_order_group_key (r0 r : Row) :
  same_first_order_group r0 r <-> first_order_key r0 = first_order_key r.
Proof.
  unfold same_first_order_group, first_order_key. split.
  - intros [-> [-> [-> ->]]]. reflexivity.
  - intros H. injection H as H1 H2 H3 H4. auto.
Qed.

(** [transform('min')] gives the start of the group of the row. *)
Lemma transform_min_group_start (rs : list Row) (dts : list Z) (r : Row) (d : Z) :
  mapM (fun r => to_datetime_yearweek (creation_yearweek r)) rs = Ok dts ->
  In (r, d) (combine rs dts) ->
  group_start rs r (transform_min (combine rs dts) (first_order_key r) d).
Proof.
  intros HM Hin. unfold transform_min.
  set (l := map snd (filter (fun p => key4_eqb (first_order_key (fst p)) (first_order_key r))
                            (combine rs dts))).
  assert (Hl : forall x, In x l <->
             exists r0, In (r0, x) (combine rs dts) /\ first_order_key r0 = first_order_key r).
  { intros x. unfold l. rewrite in_map_iff. split.
    - intros [[r0 x0] [Hx H]]. simpl in Hx. subst x0. apply filter_In in H.
      destruct H as [H Hk]. cbn [fst] in Hk. apply key4_eqb_eq in Hk. eauto.
    - intros [r0 [H Hk]]. exists (r0, x). split; [reflexivity|].
      apply filter_In. split; [assumption|]. cbn [fst]. apply key4_eqb_eq. assumption. }
  assert (Hd : In d l) by (apply Hl; eauto).
  destruct (minimum_le d l) as [_ Hle]. split.
  - assert (Hm : In (minimum d l) l).
    { destruct (minimum_In d l) as [->|H]; assumption. }
    apply Hl in Hm. destruct Hm as [r0 [H0 Hk]]. exists r0.
    split; [eapply in_combine_l; eassumption|].
    split; [apply same_first_order_group_key; assumption|].
    eapply (mapM_ok_combine _ _ _ HM); eassumption.
  - intros r0 d0 Hr0 Hk Hd0. apply same_first_order_group_key in Hk.
    apply Hle. apply Hl. exists r0. split; [|assumption].
    destruct (mapM_ok_In _ _ _ HM _ Hr0) as [b Hb].
    pose proof (mapM_ok_combine _ _ _ HM _ _ Hb) as Hfb. simpl in Hfb.
    rewrite Hd0 in Hfb. injection Hfb as ->. assumption.
Qed.

Lemma lt_weeks_days (days w : Z) : lt_weeks (days # 7) (Some w) = true <-> days < 7 * w.
Proof.
  unfold lt_weeks, Qltb. cbn [Qnum Qden inject_Z]. rewrite Z.ltb_lt. lia.
Qed.

(** C4, with the window open at its far end.  [label_first_order] with a
    number of weeks [w] keeps every row in its place, writing only
    [first_order] and [new_acquisition_mode]; [first_order] is true exactly
    when the date of the row's creation_yearweek is fewer than [w] weeks
    after the earliest such date among the rows with the same release,
    brand, customer and dedalo_area.  For a group ordering in the weeks
    202001, 202002 and 202005 and [w = 2] the first two rows are first
    orders and the third is not. *)
Theorem label_first_order_window :
  (forall (df df' : Frame) (w : Z),
      label_first_order df (Some w) = Ok df' ->
      List.length (rows df') = List.length (rows df) /\
      forall i r, nth_error (rows df) i = Some r ->
        exists r' d start,
          nth_error (rows df') i = Some r' /\
          r' = set_new_acquisition_mode (new_acquisition_mode r')
                 (set_first_order (first_order r') r) /\
          to_datetime_yearweek (creation_yearweek r) = Ok d /\
          group_start (rows df) r start /\
          (first_order r' = true <-> d - start < 7 * w)) /\
  (exists df',
      label_first_order Samples.first_order_table (Some default_week_inside_first)
      = Ok df' /\
      map creation_yearweek (rows df') = [202001; 202002; 202005] /\
      map first_order (rows df') = [true; true; false]).
Proof.
  split.
  - intros df df' w H. apply label_first_order_inv in H. destruct H as [dts [HM ->]].
    cbn [rows]. unfold first_order_rows. split.
    + rewrite !length_map, length_combine, (mapM_ok_length _ _ _ HM). apply Nat.min_id.
    + intros i r Hi. destruct (mapM_ok_nth _ _ _ HM _ _ Hi) as [d [Hd Hfd]].
      pose proof (nth_error_combine _ _ _ _ _ Hi Hd) as Hc.
      eexists. exists d. eexists. split; [|split; [|split; [|split]]].
      * rewrite !nth_error_map, Hc. reflexivity.
      * reflexivity.
      * exact Hfd.
      * apply (transform_min_group_start _ _ r d HM). eapply nth_error_In. exact Hc.
      * cbn [first_order set_new_acquisition_mode set_first_order fst snd].
        apply lt_weeks_days.
  - eexists. split; [vm_compute; reflexivity|]. split; reflexivity.
Qed.

Lemma label_first_order_window_witness :
  exists df',
    label_first_order MoreSamples.two_weeks_apart (Some 2) = Ok df' /\
    List.length (rows df') = List.length (rows MoreSamples.two_weeks_apart) /\
    forall i r, nth_error (rows MoreSamples.two_weeks_apart) i = Some r ->
      exists r' d start,
        nth_error (rows df') i = Some r' /\
        r' = set_new_acquisition_mode (new_acquisition_mode r')
               (set_first_order (first_order r') r) /\
        to_datetime_yearweek (creation_yearweek r) = Ok d /\
        group_start (rows MoreSamples.two_weeks_apart) r start /\
        (first_order r' = true <-> d - start < 7 * 2).
Proof.
  destruct label_first_order_window as [H _].
  destruct (label_first_order MoreSamples.two_weeks_apart (Some 2)) as [df'|e] eqn:E.
  - exists df'. split; [reflexivity|].
    exact (H MoreSamples.two_weeks_apart df' 2 E).
  - vm_compute in E. discriminate E.
Defined.

(** The claim as it is worded fails: the second order of the first customer
    comes exactly two weeks after the first, so within two weeks of the
    start of its group, and it is no first order. *)
Lemma label_first_order_within_fails :
  exists df' r r' d start,
    label_first_order MoreSamples.two_weeks_apart (Some 2) = Ok df' /\
    nth_error (rows MoreSamples.two_weeks_apart) 1 = Some r /\
    nth_error (rows df') 1 = Some r' /\
    to_datetime_yearweek (creation_yearweek r) = Ok d /\
    group_start (rows MoreSamples.two_weeks_apart) r start /\
    d - start <= 7 * 2 /\
    first_order r' = false.
Proof.
  destruct (mapM (fun r => to_datetime_yearweek (creation_yearweek r))
                 (rows MoreSamples.two_weeks_apart)) as [dts|e] eqn:HM;
    [|vm_compute in HM; discriminate HM].
  eexists. eexists. eexists. eexists. eexists.
  split; [vm_compute; reflexivity|]. split; [reflexivity|]. split; [reflexivity|].
  split; [vm_compute; reflexivity|]. split; [|split].
  - eapply (transform_min_group_start _ dts _ _ HM).
    vm_compute in HM. injection HM as <-. right. left. reflexivity.
  - vm_compute in HM. injection HM as <-. vm_compute. discriminate.
  - reflexivity.
Qed.

End FirstOrderFacts.

(** ** Common yearweeks *)

Module CommonFacts.
Import C_shaping Outcome ShapeFacts.

Lemma digit_range (c : ascii) :
  is_digit c = true -> (48 <= nat_of_ascii c <= 57)%nat.
Proof.
  unfold is_digit. rewrite andb_true_iff, !Nat.leb_le. tauto.
Qed.

Lemma digit_value_range (c : ascii) : is_digit c = true -> 0 <= digit_value c <= 9.
Proof. intros H. apply digit_range in H. unfold digit_value. lia. Qed.

Lemma digit_not_space (c : ascii) : is_digit c = true -> is_space c = false.
Proof.
  intros H. apply digit_range in H. unfold is_space. cbv zeta.
  apply orb_false_iff. split.
  - apply andb_false_iff. right. apply Nat.leb_gt. lia.
  - apply Nat.eqb_neq. lia.
Qed.

Lemma digit_is_ascii (c : ascii) : is_digit c = true -> is_ascii c = true.
Proof.
  intros H. apply digit_range in H. unfold is_ascii. apply Nat.ltb_lt. lia.
Qed.

Lemma digit_width (c : ascii) : is_digit c = true -> char_width c = 1%nat.
Proof.
  intros H. apply digit_range in H. unfold char_width. cbv zeta.
  destruct (Nat.ltb_spec (nat_of_ascii c) 192); [reflexivity | lia].
Qed.

Lemma digit_not_sign (c : ascii) :
  is_digit c = true -> Ascii.eqb c "-" = false /\ Ascii.eqb c "+" = false.
Proof.
  intros H. split; apply Ascii.eqb_neq; intros ->; discriminate H.
Qed.

Lemma take_chars_digit (n : nat) (c : ascii) (cs : list ascii) :
  is_digit c = true -> take_chars (S n) (c :: cs) = c :: take_chars n cs.
Proof.
  intros H. cbn [take_chars]. rewrite (digit_width c H). reflexivity.
Qed.

Lemma release_year_text (release : string) (y : Z) :
  release_year release = Some y -> year_text (str_prefix 4 release) y.
Proof.
  unfold release_year.
  destruct release as [|a [|b [|c [|d rest]]]]; try discriminate.
  destruct (is_digit a) eqn:Ea; [|discriminate].
  destruct (is_digit b) eqn:Eb; [|discriminate].
  destruct (is_digit c) eqn:Ec; [|discriminate].
  destruct (is_digit d) eqn:Ed; [|discriminate].
  cbn [andb]. intros H. injection H as <-.
  replace (str_prefix 4 (String a (String b (String c (String d rest)))))
    with (String a (String b (String c (String d EmptyString)))).
  - constructor; assumption.
  - unfold str_prefix. cbn [list_ascii_of_string].
    rewrite !take_chars_digit by assumption.
    destruct (list_ascii_of_string rest); reflexivity.
Qed.

Lemma py_int_year_text (t : string) (y : Z) : year_text t y -> py_int t = Ok y.
Proof.
  intros [a b c d Ha Hb Hc Hd]. unfold py_int.
  cbn [list_ascii_of_string forallb].
  rewrite (digit_is_ascii a Ha), (digit_is_ascii b Hb), (digit_is_ascii c Hc),
    (digit_is_ascii d Hd).
  cbn [andb option_map]. unfold strip.
  cbn [lstrip]. rewrite (digit_not_space a Ha).
  cbn [rev app lstrip]. rewrite (digit_not_space d Hd). cbn [rev app].
  destruct (digit_not_sign a Ha) as [-> ->].
  unfold unsigned_int. rewrite Ha. cbn [digits_value]. rewrite Ha, Hb, Hc, Hd.
  f_equal. lia.
Qed.

Lemma ascii_compare_nat (a b : ascii) :
  Ascii.compare a b = Nat.compare (nat_of_ascii a) (nat_of_ascii b).
Proof.
  unfold Ascii.compare, nat_of_ascii. apply Nnat.N2Nat.inj_compare.
Qed.

(** On year texts the order of strings is the order of the years. *)
Lemma year_text_ltb (t1 t2 : string) (y1 y2 : Z) :
  year_text t1 y1 -> year_text t2 y2 -> String.ltb t1 t2 = (y1 <? y2).
Proof.
  intros [a b c d Ha Hb Hc Hd] [a' b' c' d' Ha' Hb' Hc' Hd'].
  apply digit_range in Ha, Hb, Hc, Hd, Ha', Hb', Hc', Hd'.
  unfold String.ltb. cbn [String.compare]. rewrite !ascii_compare_nat.
  unfold digit_value.
  destruct (Nat.compare_spec (nat_of_ascii a) (nat_of_ascii a'));
  destruct (Nat.compare_spec (nat_of_ascii b) (nat_of_ascii b'));
  destruct (Nat.compare_spec (nat_of_ascii c) (nat_of_ascii c'));
  destruct (Nat.compare_spec (nat_of_ascii d) (nat_of_ascii d'));
  symmetry; (apply Z.ltb_lt; lia) || (apply Z.ltb_ge; lia).
Qed.

Lemma year_text_functional (t : string) (y y' : Z) :
  year_text t y -> year_text t y' -> y = y'.
Proof.
  intros H H'. destruct H. inversion H'. reflexivity.
Qed.

(** The greatest text is the text of the greatest year. *)
Lemma fold_max_year_text (l : list string) (m : string) (ym : Z) :
  year_text m ym ->
  (forall x, In x l -> exists y, year_text x y) ->
  exists yM,
    year_text (fold_left (fun m y => if String.ltb m y then y else m) l m) yM /\
    ym <= yM /\
    (forall x y, In x l -> year_text x y -> y <= yM) /\
    (yM = ym \/ exists x, In x l /\ year_text x yM).
Proof.
  revert m ym. induction l as [|x l IH]; intros m ym Hm Hl; simpl.
  - exists ym. split; [assumption|]. split; [lia|]. split; [intros ? ? []|auto].
  - destruct (Hl x (or_introl eq_refl)) as [yx Hx].
    rewrite (year_text_ltb _ _ _ _ Hm Hx).
    destruct (Z.ltb_spec ym yx) as [Hlt|Hge].
    + destruct (IH x yx Hx (fun z Hz => Hl z (or_intror Hz))) as [yM [H1 [H2 [H3 H4]]]].
      exists yM. split; [assumption|]. split; [lia|]. split.
      * intros z y [<-|Hz] Hzy; [|eauto].
        rewrite (year_text_functional _ _ _ Hzy Hx). assumption.
      * right. destruct H4 as [->|[z [Hz Hzy]]]; eauto.
    + destruct (IH m ym Hm (fun z Hz => Hl z (or_intror Hz))) as [yM [H1 [H2 [H3 H4]]]].
      exists yM. split; [assumption|]. split; [assumption|]. split.
      * intros z y [<-|Hz] Hzy; [|eauto].
        rewrite (year_text_functional _ _ _ Hzy Hx). lia.
      * destruct H4 as [->|[z [Hz Hzy]]]; eauto.
Qed.

Lemma mapM_map {A B : Type} (f : A -> result B) (g : A -> B) (l : list A) :
  (forall a, In a l -> f a = Ok (g a)) -> mapM f l = Ok (map g l).
Proof.
  induction l as [|a l IH]; simpl; intros H; [reflexivity|].
  rewrite (H a (or_introl eq_refl)). cbn [bind].
  rewrite IH by auto. reflexivity.
Qed.

Lemma combine_map_same {A B : Type} (g : A -> B) (l : list A) :
  combine l (map g l) = map (fun a => (a, g a)) l.
Proof. induction l as [|a l IH]; simpl; congruence. Qed.

Lemma year_text_range (t : string) (y : Z) : year_text t y -> 0 <= y <= 9999.
Proof.
  intros [a b c d Ha Hb Hc Hd].
  apply digit_value_range in Ha, Hb, Hc, Hd. lia.
Qed.

Lemma release_year_range (release : string) (y : Z) :
  release_year release = Some y -> 0 <= y <= 9999.
Proof. intros H. apply release_year_text in H. exact (year_text_range _ _ H). Qed.

Lemma shifted_fits (yw d : Z) :
  yearweek_fits yw -> 0 <= d <= 9999 -> int64_min <= yw + d * 100 <= int64_max.
Proof. unfold yearweek_fits, int64_min, int64_max. lia. Qed.

(** A table that has the column is returned as it is. *)
Lemma create_common_creation_yearweek_reuses (df : Frame) :
  In "common_creation_yearweek" (columns df) ->
  create_common_creation_yearweek df = Ok df.
Proof.
  intros H. apply has_column_In in H. unfold create_common_creation_yearweek.
  rewrite H. reflexivity.
Qed.

(** C5.  On a table with rows, whose releases begin with a four-digit
    year, whose yearweeks leave room in [int64] for a shift of 9999 years
    and which has no [common_creation_yearweek] column,
    [create_common_creation_yearweek] succeeds: with [max_year] the greatest
    release year of the table, every row keeps its place and its other
    fields, and gets
    [common_creation_yearweek = creation_yearweek + (max_year - year) * 100]
    and the planned delivery week shifted alike, both labels are added, and
    a second call on the result returns the result unchanged. *)
Theorem create_common_creation_yearweek_aligns (df : Frame) :
  ~ In "common_creation_yearweek" (columns df) ->
  (forall c, In c ["release"; "creation_yearweek"; "planned_delivery_yearweek"] ->
             In c (columns df)) ->
  rows df <> [] ->
  (forall r, In r (rows df) -> exists y, release_year (release r) = Some y) ->
  (forall r, In r (rows df) ->
     yearweek_fits (creation_yearweek r) /\ yearweek_fits (planned_delivery_yearweek r)) ->
  exists df' max_year,
    create_common_creation_yearweek df = Ok df' /\
    (exists r, In r (rows df) /\ release_year (release r) = Some max_year) /\
    (forall r y, In r (rows df) -> release_year (release r) = Some y -> y <= max_year) /\
    List.length (rows df') = List.length (rows df) /\
    (forall i r, nth_error (rows df) i = Some r ->
       exists y r',
         release_year (release r) = Some y /\
         nth_error (rows df') i = Some r' /\
         common_creation_yearweek r' = creation_yearweek r + (max_year - y) * 100 /\
         common_planned_delivery_yearweek r'
         = planned_delivery_yearweek r + (max_year - y) * 100 /\
         r' = set_common_yearweeks (common_creation_yearweek r')
                (common_planned_delivery_yearweek r') r) /\
    In "common_creation_yearweek" (columns df') /\
    In "common_planned_delivery_yearweek" (columns df') /\
    create_common_creation_yearweek df' = Ok df'.
Proof.
  intros Hno Hcols Hne Hyear Hfits.
  assert (Htext : forall r, In r (rows df) -> year_text (year_release r) (year_or_zero r)).
  { intros r Hr. destruct (Hyear r Hr) as [y Hy]. unfold year_or_zero. rewrite Hy.
    apply release_year_text. assumption. }
  destruct (rows df) as [|r0 rs] eqn:Erows; [contradiction|].
  destruct (fold_max_year_text
              (filter (fun y => negb (String.eqb y (year_release r0)))
                      (unique (map year_release rs)))
              (year_release r0) (year_or_zero r0)) as [yM [HM [Hge [Hall Hex]]]].
  { apply Htext. left. reflexivity. }
  { intros x Hx. apply filter_In in Hx. destruct Hx as [Hx _].
    apply In_unique, in_map_iff in Hx. destruct Hx as [r [<- Hr]].
    exists (year_or_zero r). apply Htext. right. assumption. }
  set (max_text := fold_left (fun m y => if String.ltb m y then y else m)
                     (filter (fun y => negb (String.eqb y (year_release r0)))
                             (unique (map year_release rs))) (year_release r0)) in *.
  set (diffs := map (fun r => yM - year_or_zero r) (r0 :: rs)).
  assert (Hdiffs : mapM (fun r => m <- py_int max_text ;; y <- py_int (year_release r) ;;
                                  Ok (m - y)) (r0 :: rs) = Ok diffs).
  { apply mapM_map. intros r Hr.
    rewrite (py_int_year_text _ _ HM). cbn [bind].
    rewrite (py_int_year_text _ _ (Htext r Hr)). reflexivity. }
  assert (Hres : create_common_creation_yearweek df
                 = Ok (mkDataFrame (common_labels (columns df)) (common_rows (r0 :: rs) diffs))).
  { unfold create_common_creation_yearweek.
    assert (E : has_column "common_creation_yearweek" df = false).
    { apply not_true_is_false. rewrite has_column_In. assumption. }
    rewrite E. cbn [negb].
    assert (G1 : getitem df "release" = Ok tt).
    { apply getitem_ok. apply Hcols. simpl. tauto. }
    rewrite G1. cbn [bind]. rewrite Erows. cbn [map unique py_max_str bind].
    fold max_text. rewrite Hdiffs. cbn [bind].
    match goal with |- context [getitem ?d "creation_yearweek"] =>
      assert (G2 : getitem d "creation_yearweek" = Ok tt)
    end.
    { apply getitem_ok. cbn [columns]. rewrite !In_with_label.
      right. right. right. apply Hcols. simpl. tauto. }
    rewrite G2. cbn [bind].
    match goal with |- context [getitem ?d "planned_delivery_yearweek"] =>
      assert (G3 : getitem d "planned_delivery_yearweek" = Ok tt)
    end.
    { apply getitem_ok. cbn [columns]. rewrite !In_with_label.
      right. right. right. right. apply Hcols. simpl. tauto. }
    rewrite G3. reflexivity. }
  exists (mkDataFrame (common_labels (columns df)) (common_rows (r0 :: rs) diffs)), yM.
  assert (Hmax_of : forall r y, In r (r0 :: rs) -> release_year (release r) = Some y ->
                                y <= yM).
  { intros r y Hr Hy.
    assert (Hyt : year_text (year_release r) y) by (apply release_year_text; assumption).
    destruct (String.eqb (year_release r) (year_release r0)) eqn:E.
    - apply String.eqb_eq in E. rewrite E in Hyt.
      rewrite (year_text_functional _ _ _ Hyt (Htext r0 (or_introl eq_refl))). assumption.
    - destruct Hr as [<-|Hr]; [rewrite String.eqb_refl in E; discriminate|].
      apply (Hall (year_release r)); [|assumption].
      apply filter_In. split; [|rewrite E; reflexivity].
      apply In_unique, in_map. assumption. }
  split; [exact Hres|]. split; [|split; [exact Hmax_of|]].
  { destruct Hex as [->|[x [Hx Hxt]]].
    - exists r0. split; [left; reflexivity|].
      destruct (Hyear r0 (or_introl eq_refl)) as [y Hy].
      unfold year_or_zero. rewrite Hy. reflexivity.
    - apply filter_In in Hx. destruct Hx as [Hx _].
      apply In_unique, in_map_iff in Hx. destruct Hx as [r [<- Hr]].
      exists r. split; [right; assumption|].
      destruct (Hyear r (or_intror Hr)) as [y Hy]. rewrite Hy. f_equal.
      apply release_year_text in Hy. eapply year_text_functional; eassumption. }
  cbn [rows columns]. unfold common_rows, diffs. rewrite combine_map_same, map_map.
  split; [apply length_map|]. split; [|split; [|split]].
  - intros i r Hi.
    assert (Hr : In r (r0 :: rs)) by (eapply nth_error_In; eassumption).
    destruct (Hyear r Hr) as [y Hy]. exists y. eexists. split; [assumption|].
    rewrite nth_error_map, Hi. cbn [option_map fst snd].
    unfold year_or_zero. rewrite Hy. split; [reflexivity|].
    cbn [common_creation_yearweek common_planned_delivery_yearweek set_common_yearweeks].
    pose proof (Hmax_of r y Hr Hy) as Hle.
    assert (H0 : 0 <= y <= 9999) by (apply (release_year_range (release r)); assumption).
    assert (HM9 : 0 <= yM <= 9999) by (apply (year_text_range _ _ HM)).
    destruct (Hfits r Hr) as [F1 F2].
    rewrite !wrap_int64_fits by (apply shifted_fits; assumption || lia).
    split; [reflexivity|]. split; reflexivity.
  - unfold common_labels. labels.
  - unfold common_labels. labels.
  - apply create_common_creation_yearweek_reuses. unfold common_labels. labels.
Qed.

(** On a table without rows there is no year to take the maximum of, and
    the call raises. *)
Example create_common_creation_yearweek_empty :
  create_common_creation_yearweek (mkDataFrame (columns Samples.orders_table) [])
  = Raise (ValueError "max() arg is an empty sequence").
Proof. reflexivity. Qed.

Lemma create_common_creation_yearweek_aligns_witness :
  exists df' max_year,
    create_common_creation_yearweek Samples.orders_table = Ok df' /\
    (exists r, In r (rows Samples.orders_table) /\
               release_year (release r) = Some max_year) /\
    (forall r y, In r (rows Samples.orders_table) ->
                 release_year (release r) = Some y -> y <= max_year) /\
    List.length (rows df') = List.length (rows Samples.orders_table) /\
    (forall i r, nth_error (rows Samples.orders_table) i = Some r ->
       exists y r',
         release_year (release r) = Some y /\
         nth_error (rows df') i = Some r' /\
         common_creation_yearweek r' = creation_yearweek r + (max_year - y) * 100 /\
         common_planned_delivery_yearweek r'
         = planned_delivery_yearweek r + (max_year - y) * 100 /\
         r' = set_common_yearweeks (common_creation_yearweek r')
                (common_planned_delivery_yearweek r') r) /\
    In "common_creation_yearweek" (columns df') /\
    In "common_planned_delivery_yearweek" (columns df') /\
    create_common_creation_yearweek df' = Ok df'.
Proof.
  apply (create_common_creation_yearweek_aligns Samples.orders_table).
  - simpl. intuition discriminate.
  - simpl. intuition (subst; auto 20).
  - discriminate.
  - simpl. intros r Hr.
    repeat (destruct Hr as [<-|Hr]; [vm_compute; eauto|]). destruct Hr.
  - simpl. intros r Hr. unfold yearweek_fits.
    repeat (destruct Hr as [<-|Hr];
            [vm_compute; repeat split; discriminate|]).
    destruct Hr.
Defined.

End CommonFacts.

(** ** Cleaning *)

Module CleaningFacts.
Import B_cleaning.

Lemma replacing_values_inv (df df' : DataFrame Raw.Row) :
  replacing_values df = Ok df' ->
  exists fill,
    iloc0 (mode (map (fun r => replace DICT_CUSTOMER_TYPE (Raw.customer_type r)) (rows df)))
    = Ok fill /\
    df' = mkDataFrame (columns df)
            (map (fun r =>
                    Raw.set_customer_type
                      (fillna fill (replace DICT_CUSTOMER_TYPE (Raw.customer_type r))) r)
                 (rows df)).
Proof.
  unfold replacing_values. intros H. bind_inv H. bind_inv H. injection H as <-.
  rewrite map_map in Hstep0. cbn [Raw.customer_type Raw.set_customer_type] in Hstep0.
  exists x0. split; [assumption|]. rewrite map_map. reflexivity.
Qed.

(** After [replacing_values] no customer type is missing. *)
Lemma replacing_values_no_missing (df df' : DataFrame Raw.Row) :
  replacing_values df = Ok df' ->
  forall r, In r (rows df') -> Raw.customer_type r <> None.
Proof.
  intros H r Hr. apply replacing_values_inv in H. destruct H as [fill [_ ->]].
  cbn [rows] in Hr. apply in_map_iff in Hr. destruct Hr as [r0 [<- _]].
  cbn [Raw.customer_type Raw.set_customer_type].
  destruct (replace DICT_CUSTOMER_TYPE (Raw.customer_type r0)); discriminate.
Qed.

Lemma In_dropna (x : string) (l : list (option string)) :
  In x (dropna l) <-> In (Some x) l.
Proof.
  induction l as [|[y|] l IH]; simpl; [tauto| |].
  - rewrite IH. intuition congruence.
  - rewrite IH. intuition discriminate.
Qed.

Lemma le_fold_max {A : Type} (f : A -> nat) (l : list A) (x : A) :
  In x l -> (f x <= fold_right Nat.max 0%nat (map f l))%nat.
Proof.
  induction l as [|y l IH]; simpl; intros H; [destruct H|].
  destruct H as [->|H]; [lia|]. specialize (IH H). lia.
Qed.

Lemma occurrences_absent (x : string) (l : list string) :
  ~ In x l -> occurrences x l = 0%nat.
Proof.
  unfold occurrences. induction l as [|y l IH]; simpl; intros H; [reflexivity|].
  destruct (String.eqb_spec x y) as [->|_]; [tauto|]. apply IH. tauto.
Qed.

(** A value of [mode()] is present in the column and no value occurs more
    often. *)
Lemma mode_most_frequent (l : list (option string)) (x : string) :
  In x (mode l) ->
  In (Some x) l /\
  forall y, (occurrences y (dropna l) <= occurrences x (dropna l))%nat.
Proof.
  unfold mode. intros H. apply In_sorted in H. apply filter_In in H.
  destruct H as [Hx Htop]. rewrite In_unique in Hx. apply Nat.eqb_eq in Htop.
  split; [apply (proj1 (In_dropna x l)); assumption|].
  intros y. rewrite Htop.
  destruct (in_dec string_dec y (dropna l)) as [Hy|Hy].
  - apply (le_fold_max (fun z => occurrences z (dropna l))). assumption.
  - rewrite (occurrences_absent _ _ Hy). lia.
Qed.

(** [replacing_values] maps every code through the dictionary and puts a
    most frequent value of the mapped column where none is given. *)
Lemma replacing_values_fills_mode (df df' : DataFrame Raw.Row) :
  replacing_values df = Ok df' ->
  exists fill,
    (forall y, (occurrences y (dropna (map (fun r => replace DICT_CUSTOMER_TYPE
                                                        (Raw.customer_type r)) (rows df)))
                <= occurrences fill
                     (dropna (map (fun r => replace DICT_CUSTOMER_TYPE
                                              (Raw.customer_type r)) (rows df))))%nat) /\
    rows df' =
      map (fun r =>
             Raw.set_customer_type
               (Some (match replace DICT_CUSTOMER_TYPE (Raw.customer_type r) with
                      | Some s => s
                      | None => fill
                      end)) r)
          (rows df).
Proof.
  intros H. apply replacing_values_inv in H. destruct H as [fill [Hfill ->]].
  exists fill. split.
  - unfold iloc0 in Hfill.
    destruct (mode _) as [|x m] eqn:E; [discriminate Hfill|]. injection Hfill as ->.
    eapply mode_most_frequent. rewrite E. left. reflexivity.
  - cbn [rows]. apply map_ext. intros r.
    destruct (replace DICT_CUSTOMER_TYPE (Raw.customer_type r)); reflexivity.
Qed.

(** The aggregated table has the nine keys and [qty], nothing else. *)
Lemma grouping_columns (df : DataFrame Raw.Row) (df' : Frame) :
  grouping df = Ok df' -> columns df' = columns_to_group ++ column_to_operate.
Proof.
  unfold grouping. intros H. bind_inv H. bind_inv H. injection H as <-. reflexivity.
Qed.

Lemma cleaning_columns (area : result (DataFrame Area.Row)) (df : DataFrame Raw.Row)
  (df' : Frame) :
  cleaning area df false = Ok df' -> columns df' = columns_to_group ++ column_to_operate.
Proof.
  unfold cleaning. intros H. bind_inv H. bind_inv H. injection H as <-.
  eapply grouping_columns. eassumption.
Qed.

(** C8.  The table that [cleaning] returns has no [customer_type] column:
    [replacing_values] maps the codes and fills the missing one, and
    [grouping] then keeps the nine keys and [qty] only.  Shown on three
    imported lines with the types BPF, missing and P. *)
Theorem cleaning_drops_customer_type :
  (exists filled,
      replacing_values Samples.raw_table = Ok filled /\
      In "customer_type" (columns filled) /\
      map Raw.customer_type (rows filled) = [Some "BP"; Some "BP"; Some "P"]) /\
  (exists cleaned,
      cleaning (Ok Samples.both_areas) Samples.raw_table false = Ok cleaned /\
      columns cleaned =
        ["release"; "brand"; "planned_delivery_yearweek"; "creation_yearweek"; "customer";
         "customer_sold_to"; "division"; "dedalo_area"; "acquisition_mode_group"; "qty"] /\
      ~ In "customer_type" (columns cleaned)) /\
  (exists cleaned,
      cleaning (Ok Samples.both_areas) Samples.raw_table true = Ok cleaned /\
      columns cleaned =
        ["release"; "brand"; "planned_delivery_yearweek"; "creation_yearweek"; "customer";
         "customer_sold_to"; "division"; "dedalo_area"; "acquisition_mode_group"; "qty";
         "launch_type"] /\
      ~ In "customer_type" (columns cleaned)).
Proof.
  split; [|split].
  - eexists. split; [vm_compute; reflexivity|]. split; [|reflexivity].
    cbn. auto 30.
  - eexists. split; [vm_compute; reflexivity|]. split; [reflexivity|].
    cbn. intuition discriminate.
  - eexists. split; [vm_compute; reflexivity|]. split; [reflexivity|].
    cbn. intuition discriminate.
Qed.

(** *** The join with the area table *)

Lemma merge_value (df : Frame) (df_area : DataFrame Area.Row) :
  In "dedalo_area" (columns df) -> In "dedalo_area" (columns df_area) ->
  merge df df_area =
  Ok (mkDataFrame (columns df ++ without_label "dedalo_area" (columns df_area))
                  (joined_rows (rows df) df_area)).
Proof.
  intros H1 H2. unfold merge.
  apply getitem_ok in H1, H2. rewrite H1, H2. reflexivity.
Qed.

Lemma length_joined_rows (rs : list Row) (df_area : DataFrame Area.Row) :
  (forall r, In r rs -> List.length (area_rows df_area r) = 1%nat) ->
  List.length (joined_rows rs df_area) = List.length rs.
Proof.
  unfold joined_rows. induction rs as [|r rs IH]; simpl; intros H; [reflexivity|].
  rewrite length_app, length_map, (H r (or_introl eq_refl)), IH by auto. reflexivity.
Qed.

(** C7, as the code has it.  With the area option, once the table is
    filled and aggregated and the area table is read, [cleaning] takes the
    inner join on dedalo_area: each aggregated row is paired with every
    area row of its dedalo_area, so a row without one is dropped.  The call
    returns the joined table when it has as many rows as the aggregated
    table and raises the assertion error when it has not.  When every
    aggregated row has exactly one area row, the call succeeds with the
    row count of the aggregated table. *)
Theorem cleaning_inner_join (df : DataFrame Raw.Row) (df1 : DataFrame Raw.Row)
  (df2 : Frame) (df_area : DataFrame Area.Row) :
  replacing_values df = Ok df1 ->
  grouping df1 = Ok df2 ->
  In "dedalo_area" (columns df_area) ->
  (List.length (joined_rows (rows df2) df_area) = List.length (rows df2) ->
   exists df3, cleaning (Ok df_area) df true = Ok df3 /\
               rows df3 = joined_rows (rows df2) df_area) /\
  (List.length (joined_rows (rows df2) df_area) <> List.length (rows df2) ->
   cleaning (Ok df_area) df true
   = Raise (AssertionError "Number of rows is not correct, check the merge")) /\
  ((forall r, In r (rows df2) -> List.length (area_rows df_area r) = 1%nat) ->
   exists df3, cleaning (Ok df_area) df true = Ok df3 /\
               List.length (rows df3) = List.length (rows df2)).
Proof.
  intros H1 H2 Harea.
  assert (Hd : In "dedalo_area" (columns df2)).
  { rewrite (grouping_columns _ _ H2). simpl. tauto. }
  assert (Hc : cleaning (Ok df_area) df true =
               if Nat.eqb (List.length (joined_rows (rows df2) df_area))
                          (List.length (rows df2))
               then Ok (mkDataFrame
                          (columns df2 ++ without_label "dedalo_area" (columns df_area))
                          (joined_rows (rows df2) df_area))
               else Raise (AssertionError "Number of rows is not correct, check the merge")).
  { unfold cleaning. rewrite H1. cbn [bind]. rewrite H2. cbn [bind].
    rewrite (merge_value _ _ Hd Harea). reflexivity. }
  assert (Hyes : List.length (joined_rows (rows df2) df_area) = List.length (rows df2) ->
                 exists df3, cleaning (Ok df_area) df true = Ok df3 /\
                             rows df3 = joined_rows (rows df2) df_area).
  { intros E. rewrite Hc. apply Nat.eqb_eq in E. rewrite E. eauto. }
  split; [exact Hyes|]. split.
  - intros E. rewrite Hc. apply Nat.eqb_neq in E. rewrite E. reflexivity.
  - intros Hone. destruct (Hyes (length_joined_rows _ _ Hone)) as [df3 [H3 Hr]].
    exists df3. split; [assumption|]. rewrite Hr. apply length_joined_rows. assumption.
Qed.

Lemma cleaning_inner_join_witness :
  exists df3,
    cleaning (Ok Samples.both_areas) Samples.raw_table true = Ok df3 /\
    List.length (rows df3) = 2%nat.
Proof.
  destruct (replacing_values Samples.raw_table) as [df1|e] eqn:E1;
    [|vm_compute in E1; discriminate E1].
  destruct (grouping df1) as [df2|e] eqn:E2;
    [|vm_compute in E1; injection E1 as <-; vm_compute in E2; discriminate E2].
  assert (Harea : In "dedalo_area" (columns Samples.both_areas)) by (simpl; auto).
  destruct (cleaning_inner_join Samples.raw_table df1 df2 Samples.both_areas E1 E2 Harea)
    as [_ [_ H]].
  destruct H as [df3 [H3 Hlen]].
  - vm_compute in E1. injection E1 as <-. vm_compute in E2. injection E2 as <-.
    intros r Hr. simpl in Hr. destruct Hr as [<-|[<-|[]]]; reflexivity.
  - exists df3. split; [assumption|]. rewrite Hlen.
    vm_compute in E1. injection E1 as <-. vm_compute in E2. injection E2 as <-.
    reflexivity.
Defined.

(** The claim as it is worded fails: an area table with one row per area
    that does not know the area of some order makes [cleaning] raise, and
    the join keeps the Italian order only. *)
Lemma cleaning_left_join_fails :
  one_row_per_area Samples.italy_only /\
  cleaning (Ok Samples.italy_only) Samples.raw_table true
  = Raise (AssertionError "Number of rows is not correct, check the merge") /\
  (exists aggregated,
      cleaning (Ok Samples.italy_only) Samples.raw_table false = Ok aggregated /\
      map dedalo_area (rows aggregated) = ["FR"; "IT"] /\
      map dedalo_area (joined_rows (rows aggregated) Samples.italy_only) = ["IT"]).
Proof.
  split; [|split].
  - unfold one_row_per_area. simpl. constructor; [intros []|constructor].
  - vm_compute. reflexivity.
  - eexists. split; [vm_compute; reflexivity|]. split; vm_compute; reflexivity.
Qed.

End CleaningFacts.

(** ** Import and export *)

Module FileFacts.
Import A_import D_output.

Example suffix_csv : suffix (mkPath "data/input" "Comp_Analysis_FIL.csv") = ".csv".
Proof. reflexivity. Qed.

Example suffix_last_of_two : suffix (mkPath "data" "archive.tar.gz") = ".gz".
Proof. reflexivity. Qed.

Example suffix_hidden_file : suffix (mkPath "data" ".csv") = "".
Proof. reflexivity. Qed.

Example suffix_trailing_dot : suffix (mkPath "data" "table.") = "".
Proof. reflexivity. Qed.

Example last_dot_field_plain : last_dot_field "xlsx" = "xlsx".
Proof. reflexivity. Qed.

Example last_dot_field_two_dots : last_dot_field "df.comp.csv" = "csv".
Proof. reflexivity. Qed.

Section Readers.

Variable Cells : Type.
Variables read_excel read_csv read_parquet : Path -> result (DataFrame Cells).

(** A path whose suffix is none of the three is refused. *)
Lemma import_one_file_unsupported (path : Path) :
  ~ In (suffix path) valid_extensions ->
  import_one_file Cells read_excel read_csv read_parquet path
  = Raise (ValueError "Extension different from .xlsx, .csv, .parquet").
Proof.
  intros H. unfold import_one_file.
  assert (E : str_in (suffix path) valid_extensions = false).
  { apply not_true_is_false. rewrite str_in_In. assumption. }
  rewrite E. reflexivity.
Qed.

(** Whatever the columns of the file, a file that is read is returned: the
    comparison of the columns has no effect. *)
Lemma import_one_file_returns_any_columns (path : Path) (df : DataFrame Cells) :
  suffix path = ".csv" ->
  read_csv path = Ok df ->
  import_one_file Cells read_excel read_csv read_parquet path
  = Ok (rename Cells new_col_name df).
Proof.
  intros Hs Hr. unfold import_one_file. rewrite Hs. cbn [str_in valid_extensions existsb].
  replace (String.eqb ".csv" ".xlsx") with false by reflexivity.
  replace (String.eqb ".csv" ".csv") with true by reflexivity.
  cbn [orb]. rewrite Hr. reflexivity.
Qed.

(** An output name whose last dot field is none of the three formats
    leaves the disk as it is, and nothing is raised. *)
Lemma save_unsupported (df : DataFrame Cells) (path_output : Path) (name : string)
  (disk : list (Written Cells)) :
  ~ In (last_dot_field name) ["xlsx"; "parquet"; "csv"] ->
  save df path_output name disk = Ok disk.
Proof.
  intros H. unfold save. simpl in H.
  destruct (String.eqb_spec (last_dot_field name) "xlsx") as [E|_];
    [symmetry in E; tauto|].
  destruct (String.eqb_spec (last_dot_field name) "parquet") as [E|_];
    [symmetry in E; tauto|].
  destruct (String.eqb_spec (last_dot_field name) "csv") as [E|_];
    [symmetry in E; tauto|].
  reflexivity.
Qed.

End Readers.

(** C3.  A .csv file whose columns, after renaming, are foo and release is
    imported without any error, although these are not the canonical
    columns: the comparison evaluates to false and its value is dropped. *)
Theorem import_one_file_ignores_columns :
  let path := joinpath Samples.input_folder "Comp_Analysis_FIL.csv" in
  exists df,
    import_one_file unit Samples.reads_stray_file Samples.reads_stray_file
      Samples.reads_stray_file path = Ok df /\
    columns df = ["foo"; "release"] /\
    columns_check unit df = Ok false /\
    ~ Permutation (columns df) (map snd new_col_name).
Proof.
  cbv zeta. eexists. split; [vm_compute; reflexivity|].
  split; [reflexivity|]. split; [vm_compute; reflexivity|].
  intros H. apply Permutation_length in H. discriminate H.
Qed.

(** C6.  [import_one_file] refuses a .txt path with the error on the
    extension, whereas [save] with the output name df_comp.txt writes
    nothing and raises nothing. *)
Theorem save_ignores_unknown_format :
  import_one_file unit Samples.reads_stray_file Samples.reads_stray_file
    Samples.reads_stray_file (joinpath Samples.input_folder "Comp_Analysis_FIL.txt")
  = Raise (ValueError "Extension different from .xlsx, .csv, .parquet") /\
  (forall disk,
      save Samples.orders_table Samples.output_folder "df_comp.txt" disk = Ok disk) /\
  (exists written,
      save Samples.orders_table Samples.output_folder "df_comp.csv" [] = Ok [written] /\
      written_as Row written = Csv).
Proof.
  split; [vm_compute; reflexivity|]. split.
  - intros disk. reflexivity.
  - eexists. split; reflexivity.
Qed.

End FileFacts.

(** ** More on labelling *)

Module LabelFacts.
Import C_shaping Outcome ShapeFacts FirstOrderFacts.

Lemma mapM_raises {A B : Type} (f : A -> result B) (P : Exception -> Prop)
  (l : list A) (a : A) (e0 : Exception) :
  (forall x e, f x = Raise e -> P e) ->
  In a l -> f a = Raise e0 ->
  exists e, mapM f l = Raise e /\ P e.
Proof.
  intros HP. induction l as [|x l IH]; simpl; intros Hin Ha; [destruct Hin|].
  destruct (f x) as [b|e] eqn:E; cbn [bind].
  - destruct Hin as [->|Hin]; [congruence|].
    destruct (IH Hin Ha) as [e [-> He]]. cbn [bind]. eauto.
  - exists e. split; [reflexivity|]. eapply HP. eassumption.
Qed.

Lemma to_datetime_yearweek_raises (yw : Z) (e : Exception) :
  to_datetime_yearweek yw = Raise e -> exists msg, e = ValueError msg.
Proof.
  unfold to_datetime_yearweek. destruct (parse_yearweek yw) as [[y w]|].
  - destruct (_ && _); intros H; [discriminate H|]. injection H as <-. eauto.
  - intros H. injection H as <-. eauto.
Qed.

Lemma In_first_order_rows (w : option Z) (dated : list (Row * Z)) (r' : Row) :
  In r' (first_order_rows w dated) ->
  exists r d,
    In (r, d) dated /\
    r' = set_new_acquisition_mode
           (select_acquisition_mode
              (set_first_order
                 (lt_weeks ((d - transform_min dated (first_order_key r) d) # 7) w) r))
           (set_first_order
              (lt_weeks ((d - transform_min dated (first_order_key r) d) # 7) w) r).
Proof.
  unfold first_order_rows. intros H. apply in_map_iff in H. destruct H as [r1 [<- H]].
  apply in_map_iff in H. destruct H as [[r d] [<- H]]. exists r, d. auto.
Qed.

(** [label_first_order] called without a number of weeks, as
    [create_comp_today] calls it by default, flags no row as a first order,
    so that no row is reclassified to 'REP FIRST ORDER'. *)
Theorem label_first_order_without_weeks (df df' : Frame) :
  label_first_order df None = Ok df' ->
  forall r', In r' (rows df') ->
    first_order r' = false /\ new_acquisition_mode r' <> "REP FIRST ORDER".
Proof.
  intros H r' Hr'. apply label_first_order_inv in H. destruct H as [dts [_ ->]].
  cbn [rows] in Hr'. apply In_first_order_rows in Hr'. destruct Hr' as [r [d [_ ->]]].
  cbn [lt_weeks first_order new_acquisition_mode set_new_acquisition_mode set_first_order].
  split; [reflexivity|]. unfold select_acquisition_mode.
  cbn [first_order set_first_order acquisition_mode_group andb negb].
  destruct (String.eqb (acquisition_mode_group r) "RED CARPET"); [discriminate|].
  destruct (String.eqb (acquisition_mode_group r) "REP"); discriminate.
Qed.

Lemma label_first_order_without_weeks_witness :
  exists df',
    label_first_order Samples.first_order_table None = Ok df' /\
    forall r', In r' (rows df') ->
      first_order r' = false /\ new_acquisition_mode r' <> "REP FIRST ORDER".
Proof.
  destruct (label_first_order Samples.first_order_table None) as [df'|e] eqn:E.
  - exists df'. split; [reflexivity|].
    exact (label_first_order_without_weeks Samples.first_order_table df' E).
  - vm_compute in E. discriminate E.
Defined.

(** The reclassification of [label_first_order]: on every row it returns,
    the new mode is 'REP FIRST ORDER' exactly for a first order of group
    REP, 'EVENT' exactly for group RED CARPET, 'REP REPLENISHMENT' exactly
    for a later order of group REP, and 'REPLENISHMENT' exactly for any
    other group. *)
Theorem label_first_order_modes (df df' : Frame) (w : option Z) :
  label_first_order df w = Ok df' ->
  forall r', In r' (rows df') ->
    (new_acquisition_mode r' = "REP FIRST ORDER" <->
     first_order r' = true /\ acquisition_mode_group r' = "REP") /\
    (new_acquisition_mode r' = "EVENT" <-> acquisition_mode_group r' = "RED CARPET") /\
    (new_acquisition_mode r' = "REP REPLENISHMENT" <->
     first_order r' = false /\ acquisition_mode_group r' = "REP") /\
    (new_acquisition_mode r' = "REPLENISHMENT" <->
     acquisition_mode_group r' <> "REP" /\ acquisition_mode_group r' <> "RED CARPET").
Proof.
  intros H r' Hr'. apply label_first_order_inv in H. destruct H as [dts [_ ->]].
  cbn [rows] in Hr'. apply In_first_order_rows in Hr'. destruct Hr' as [r [d [_ ->]]].
  cbn [first_order new_acquisition_mode acquisition_mode_group
       set_new_acquisition_mode set_first_order].
  unfold select_acquisition_mode.
  cbn [first_order set_first_order acquisition_mode_group].
  destruct (lt_weeks _ w); cbn [andb negb];
    destruct (String.eqb_spec (acquisition_mode_group r) "REP") as [E1|E1];
    destruct (String.eqb_spec (acquisition_mode_group r) "RED CARPET") as [E2|E2];
    try (rewrite E1 in E2; discriminate E2);
    repeat split; intros; try discriminate; try tauto; try congruence;
    try (destruct H; discriminate); try (destruct H; congruence).
Qed.

Lemma label_first_order_modes_witness :
  exists df',
    label_first_order Samples.first_order_table (Some 2) = Ok df' /\
    forall r', In r' (rows df') ->
      (new_acquisition_mode r' = "REP FIRST ORDER" <->
       first_order r' = true /\ acquisition_mode_group r' = "REP") /\
      (new_acquisition_mode r' = "EVENT" <-> acquisition_mode_group r' = "RED CARPET") /\
      (new_acquisition_mode r' = "REP REPLENISHMENT" <->
       first_order r' = false /\ acquisition_mode_group r' = "REP") /\
      (new_acquisition_mode r' = "REPLENISHMENT" <->
       acquisition_mode_group r' <> "REP" /\ acquisition_mode_group r' <> "RED CARPET").
Proof.
  destruct (label_first_order Samples.first_order_table (Some 2)) as [df'|e] eqn:E.
  - exists df'. split; [reflexivity|].
    exact (label_first_order_modes Samples.first_order_table df' (Some 2) E).
  - vm_compute in E. discriminate E.
Defined.

Lemma transform_min_le (rs : list Row) (dts : list Z) (r : Row) (d : Z) :
  mapM (fun r => to_datetime_yearweek (creation_yearweek r)) rs = Ok dts ->
  In (r, d) (combine rs dts) ->
  transform_min (combine rs dts) (first_order_key r) d <= d.
Proof.
  intros HM Hin. destruct (transform_min_group_start _ _ _ _ HM Hin) as [_ Hle].
  apply (Hle r d);
    [eapply in_combine_l; eassumption | apply same_first_order_group_key; reflexivity|].
  exact (mapM_ok_combine _ _ _ HM _ _ Hin).
Qed.

(** With a positive number of weeks every group of [label_first_order] has
    a first order, the earliest order of the group; with zero or a negative
    number no row is a first order. *)
Theorem label_first_order_some_first (df df' : Frame) (w : Z) :
  label_first_order df (Some w) = Ok df' ->
  (0 < w ->
   forall r, In r (rows df) ->
     exists r0', In r0' (rows df') /\
                 first_order_key r0' = first_order_key r /\ first_order r0' = true) /\
  (w <= 0 -> forall r', In r' (rows df') -> first_order r' = false).
Proof.
  intros H. apply label_first_order_inv in H. destruct H as [dts [HM ->]].
  cbn [rows]. split.
  - intros Hw r Hr. destruct (mapM_ok_In _ _ _ HM _ Hr) as [d Hd].
    destruct (transform_min_group_start _ _ _ _ HM Hd) as [[r0 [Hr0 [Hk0 Hs0]]] Hmin].
    apply same_first_order_group_key in Hk0.
    set (start := transform_min (combine (rows df) dts) (first_order_key r) d) in *.
    destruct (mapM_ok_In _ _ _ HM _ Hr0) as [d0 Hd0].
    pose proof (mapM_ok_combine _ _ _ HM _ _ Hd0) as Hf0. cbn beta in Hf0.
    rewrite Hs0 in Hf0. injection Hf0 as <-.
    assert (Hsame : transform_min (combine (rows df) dts) (first_order_key r0) start = start).
    { pose proof (transform_min_le _ _ _ _ HM Hd0) as Hle.
      destruct (transform_min_group_start _ _ _ _ HM Hd0) as [[r1 [Hr1 [Hk1 Hs1]]] _].
      apply same_first_order_group_key in Hk1.
      assert (Hk : same_first_order_group r1 r)
        by (apply same_first_order_group_key; congruence).
      pose proof (Hmin r1 _ Hr1 Hk Hs1). lia. }
    eexists. split; [|split].
    + unfold first_order_rows. apply in_map, in_map. exact Hd0.
    + cbn [fst]. exact Hk0.
    + cbn [first_order set_new_acquisition_mode set_first_order fst snd].
      rewrite Hsame. apply lt_weeks_days. lia.
  - intros Hw r' Hr'. apply In_first_order_rows in Hr'. destruct Hr' as [r [d [Hd ->]]].
    cbn [first_order set_new_acquisition_mode set_first_order].
    apply not_true_is_false. intros Ht. apply lt_weeks_days in Ht.
    pose proof (transform_min_le _ _ _ _ HM Hd). lia.
Qed.

Lemma label_first_order_some_first_witness :
  exists df',
    label_first_order Samples.first_order_table (Some 2) = Ok df' /\
    forall r, In r (rows Samples.first_order_table) ->
      exists r0', In r0' (rows df') /\
                  first_order_key r0' = first_order_key r /\ first_order r0' = true.
Proof.
  destruct (label_first_order Samples.first_order_table (Some 2)) as [df'|e] eqn:E.
  - exists df'. split; [reflexivity|].
    apply (proj1 (label_first_order_some_first Samples.first_order_table df' 2 E)).
    reflexivity.
  - vm_compute in E. discriminate E.
Defined.

(** One creation_yearweek that is not of five or six digits, or whose two
    week digits exceed 53, makes [label_first_order] raise [ValueError] for
    the whole table. *)
Theorem label_first_order_bad_yearweek (df : Frame) (w : option Z) (r : Row) :
  In "creation_yearweek" (columns df) ->
  In r (rows df) ->
  creation_yearweek r < 10000 \/ 999999 < creation_yearweek r \/
  (100000 <= creation_yearweek r /\ 53 < creation_yearweek r mod 100) ->
  exists msg, label_first_order df w = Raise (ValueError msg).
Proof.
  intros Hc Hr Hbad.
  assert (Hp : parse_yearweek (creation_yearweek r) = None).
  { unfold parse_yearweek.
    destruct (Z.leb_spec 100000 (creation_yearweek r));
    destruct (Z.leb_spec (creation_yearweek r) 999999);
    destruct (Z.leb_spec (creation_yearweek r mod 100) 53);
    destruct (Z.leb_spec 10000 (creation_yearweek r));
    destruct (Z.leb_spec (creation_yearweek r) 99999);
    cbn [andb]; try reflexivity; lia. }
  assert (Hf : to_datetime_yearweek (creation_yearweek r)
               = Raise (ValueError "time data doesn't match format %Y%W%w")).
  { unfold to_datetime_yearweek. rewrite Hp. reflexivity. }
  destruct (mapM_raises (fun r => to_datetime_yearweek (creation_yearweek r))
              (fun e => exists msg, e = ValueError msg) (rows df) r _
              (fun x e => to_datetime_yearweek_raises _ e) Hr Hf) as [e [HM [msg ->]]].
  exists msg. unfold label_first_order.
  apply getitem_ok in Hc. rewrite Hc. cbn [bind]. rewrite HM. reflexivity.
Qed.

Lemma label_first_order_bad_yearweek_witness :
  exists msg,
    label_first_order
      (mkDataFrame (columns Samples.first_order_table)
         [Samples.order "2020A" "C1" 202001 10; Samples.order "2020A" "C1" 202054 12])
      (Some 2) = Raise (ValueError msg).
Proof.
  apply (label_first_order_bad_yearweek _ (Some 2) (Samples.order "2020A" "C1" 202054 12)).
  - simpl. tauto.
  - simpl. tauto.
  - right. right. vm_compute. split; [discriminate | reflexivity].
Defined.

End LabelFacts.

(** ** More on comparable groups *)

Module GroupFacts.
Import C_shaping Outcome CompFacts ShapeFacts.

Lemma with_label_present (l : string) (ls : list string) :
  In l ls -> with_label l ls = ls.
Proof.
  intros H. unfold with_label. apply (str_in_In l ls) in H.
  unfold str_in in H. rewrite H. reflexivity.
Qed.

Lemma with_label_absent (l : string) (ls : list string) :
  ~ In l ls -> with_label l ls = ls ++ [l].
Proof.
  intros H. unfold with_label.
  destruct (existsb (String.eqb l) ls) eqn:E; [|reflexivity].
  exfalso. apply H. apply (str_in_In l ls). exact E.
Qed.

Lemma without_label_absent (l : string) (ls : list string) :
  ~ In l ls -> without_label l ls = ls.
Proof.
  intros H. unfold without_label. apply filter_all. intros x Hx.
  apply negb_true_iff, String.eqb_neq. intros ->. contradiction.
Qed.

Lemma without_label_last (l : string) (ls : list string) :
  ~ In l ls -> without_label l (ls ++ [l]) = ls.
Proof.
  intros H. unfold without_label. rewrite filter_app. cbn [filter].
  rewrite String.eqb_refl. cbn [negb]. rewrite app_nil_r.
  apply (without_label_absent l ls H).
Qed.

Lemma filter_map_swap {A B : Type} (p : B -> bool) (g : A -> B) (l : list A) :
  filter p (map g l) = map g (filter (fun a => p (g a)) l).
Proof.
  induction l as [|a l IH]; simpl; [reflexivity|].
  destruct (p (g a)); simpl; congruence.
Qed.

(** The count of releases per key looks at the key and the release of the
    rows only. *)
Lemma groupby_release_nunique_map (key : Row -> string) (g : Row -> Row) (rs : list Row) :
  (forall r, key (g r) = key r) -> (forall r, release (g r) = release r) ->
  groupby_release_nunique key (map g rs) = groupby_release_nunique key rs.
Proof.
  intros Hk Hr. unfold groupby_release_nunique.
  rewrite map_map. rewrite (map_ext (fun r => key (g r)) key Hk).
  apply map_ext. intros k. f_equal. f_equal.
  rewrite filter_map_swap, map_map.
  rewrite (map_ext (fun r => release (g r)) release Hr).
  f_equal. apply filter_ext. intros r. rewrite Hk. reflexivity.
Qed.

Lemma index_where_two_spec (key : Row -> string) (rs : list Row) (k : string) :
  In k (index_where_two (groupby_release_nunique key rs)) <->
  In k (map key rs) /\
  nunique (map release (filter (fun r => String.eqb (key r) k) rs)) = 2%nat.
Proof.
  unfold index_where_two, groupby_release_nunique. rewrite in_map_iff. split.
  - intros [[k' n] [Hk H]]. cbn [fst] in Hk. subst k'.
    apply filter_In in H. destruct H as [H Hn]. cbn [snd] in Hn.
    apply in_map_iff in H. destruct H as [k0 [E Hin]]. injection E as -> <-.
    split; [apply In_unique; assumption | apply Nat.eqb_eq; assumption].
  - intros [Hin Hn]. eexists (k, _). split; [reflexivity|].
    apply filter_In. split.
    + apply in_map_iff. exists k. split; [reflexivity | apply In_unique; assumption].
    + cbn [snd]. apply Nat.eqb_eq. exact Hn.
Qed.

(** The columns [create_comp] needs are there when it succeeds. *)
Lemma create_comp_needs (df df' : Frame) :
  create_comp df = Ok df' ->
  forall c, In c ["brand"; "customer"; "dedalo_area"; "new_acquisition_mode"; "release"] ->
            In c (columns df).
Proof.
  unfold create_comp. intros H.
  bind_inv H. apply result_unit_ok in Hstep. rewrite getitems_ok in Hstep.
  bind_inv H. apply result_unit_ok in Hstep0. rewrite getitem_ok in Hstep0.
  cbn [columns] in Hstep0. apply In_with_label in Hstep0.
  destruct Hstep0 as [Hd|Hrel]; [discriminate Hd|].
  intros c Hc. simpl in Hc.
  destruct Hc as [<-|[<-|[<-|[<-|[<-|[]]]]]]; try assumption; apply Hstep; simpl; tauto.
Qed.

(** [create_comp] on its own result changes nothing: the flag does not
    depend on a [comp] column that is already there. *)
Theorem create_comp_idempotent (df df' : Frame) :
  create_comp df = Ok df' -> create_comp df' = Ok df'.
Proof.
  intros H. pose proof (create_comp_needs _ _ H) as Hneed.
  apply create_comp_inv in H. destruct H as [_ ->].
  set (ls := without_label "group_id"
               (with_label "comp" (with_label "group_id" (columns df)))).
  assert (Hg : ~ In "group_id" ls) by (unfold ls; labels).
  assert (Hc : In "comp" ls) by (unfold ls; labels).
  rewrite create_comp_value.
  - cbn [columns rows]. apply f_equal. apply f_equal2.
    + rewrite (with_label_absent _ _ Hg).
      rewrite with_label_present by (apply in_or_app; left; exact Hc).
      apply without_label_last. exact Hg.
    + rewrite groupby_release_nunique_map by reflexivity.
      rewrite map_map. apply map_ext. intros r. reflexivity.
  - intros c Hin. cbn [columns]. unfold ls.
    specialize (Hneed c Hin). simpl in Hin.
    destruct Hin as [<-|[<-|[<-|[<-|[<-|[]]]]]]; labels.
Qed.

Lemma create_comp_idempotent_witness :
  exists df',
    create_comp Samples.hyphen_table = Ok df' /\ create_comp df' = Ok df'.
Proof.
  destruct (create_comp Samples.hyphen_table) as [df'|e] eqn:E.
  - exists df'. split; [reflexivity|].
    exact (create_comp_idempotent Samples.hyphen_table df' E).
  - vm_compute in E. discriminate E.
Defined.

Lemma nunique_permutation (key : Row -> string) (rs1 rs2 : list Row) (k : string) :
  Permutation rs1 rs2 ->
  nunique (map release (filter (fun r => String.eqb (key r) k) rs1))
  = nunique (map release (filter (fun r => String.eqb (key r) k) rs2)).
Proof.
  intros HP. apply nunique_enumeration; [apply NoDup_unique|].
  intros x. rewrite In_unique, !in_map_iff.
  split; intros [r [Hx Hr]]; exists r; (split; [assumption|]);
    apply filter_In in Hr; apply filter_In; destruct Hr as [Hin Hk];
    (split; [|assumption]).
  - eapply Permutation_in; [symmetry|]; eassumption.
  - eapply Permutation_in; eassumption.
Qed.

Lemma groups_in_both_releases_permutation (key : Row -> string) (rs1 rs2 : list Row)
  (k : string) :
  Permutation rs1 rs2 ->
  str_in k (index_where_two (groupby_release_nunique key rs1))
  = str_in k (index_where_two (groupby_release_nunique key rs2)).
Proof.
  intros HP. apply eq_true_iff_eq. rewrite !str_in_In, !index_where_two_spec.
  rewrite (nunique_permutation key rs1 rs2 k HP).
  split; intros [Hin Hn]; (split; [|assumption]).
  - eapply Permutation_in; [apply Permutation_map|]; eassumption.
  - eapply Permutation_in; [apply Permutation_map; symmetry|]; eassumption.
Qed.

(** The flags of [create_comp] do not depend on the order of the rows:
    two tables with the same rows in different order give the same flagged
    rows, in the order of each table. *)
Theorem create_comp_order_free (df1 df2 o1 o2 : Frame) :
  Permutation (rows df1) (rows df2) ->
  create_comp df1 = Ok o1 -> create_comp df2 = Ok o2 ->
  Permutation (rows o1) (rows o2) /\
  forall r1 r2, In r1 (rows o1) -> In r2 (rows o2) ->
    comp_group_id r1 = comp_group_id r2 -> comp r1 = comp r2.
Proof.
  intros HP H1 H2. apply create_comp_inv in H1, H2.
  destruct H1 as [_ ->], H2 as [_ ->]. cbn [rows]. split.
  - rewrite (map_ext _ (fun r => set_comp (yes_no (str_in (comp_group_id r)
               (index_where_two (groupby_release_nunique comp_group_id (rows df2))))) r)).
    + apply Permutation_map. assumption.
    + intros r. rewrite (groups_in_both_releases_permutation _ _ _ _ HP). reflexivity.
  - intros r1 r2 Hr1 Hr2 Hk. apply in_map_iff in Hr1, Hr2.
    destruct Hr1 as [x1 [<- _]], Hr2 as [x2 [<- _]].
    cbn [comp set_comp]. change (comp_group_id x1 = comp_group_id x2) in Hk.
    rewrite Hk. rewrite (groups_in_both_releases_permutation _ _ _ _ HP). reflexivity.
Qed.

Lemma create_comp_order_free_witness :
  exists o1 o2,
    create_comp Samples.hyphen_table = Ok o1 /\
    create_comp (mkDataFrame Samples.labelled_columns
                             [Samples.hyphen_right; Samples.hyphen_left]) = Ok o2 /\
    Permutation (rows o1) (rows o2).
Proof.
  destruct (create_comp Samples.hyphen_table) as [o1|e] eqn:E1;
    [|vm_compute in E1; discriminate E1].
  destruct (create_comp (mkDataFrame Samples.labelled_columns
                                     [Samples.hyphen_right; Samples.hyphen_left]))
    as [o2|e] eqn:E2; [|vm_compute in E2; discriminate E2].
  exists o1, o2. split; [reflexivity|]. split; [reflexivity|].
  refine (proj1 (create_comp_order_free Samples.hyphen_table _ o1 o2 _ E1 E2)).
  cbn [rows Samples.hyphen_table]. apply perm_swap.
Defined.

Lemma two_distinct (l : list string) (x : string) :
  NoDup l -> List.length l = 2%nat -> In x l -> exists y, In y l /\ y <> x.
Proof.
  intros Hnd Hlen Hx. destruct l as [|a [|b [|c l]]]; try discriminate Hlen.
  inversion Hnd as [|? ? Hab _]. subst.
  assert (Hne : a <> b) by (intros ->; apply Hab; left; reflexivity).
  destruct Hx as [<-|[<-|[]]].
  - exists b. split; [right; left; reflexivity | congruence].
  - exists a. split; [left; reflexivity | assumption].
Qed.

(** A row that [create_comp] flags 'Y' has a counterpart: a row of another
    release with the same group key, flagged 'Y' as well. *)
Theorem create_comp_counterpart (df df' : Frame) (r : Row) :
  create_comp df = Ok df' ->
  In r (rows df') -> comp r = "Y" ->
  exists r2, In r2 (rows df') /\ release r2 <> release r /\
             comp_group_id r2 = comp_group_id r /\ comp r2 = "Y".
Proof.
  intros H Hr Hy. apply create_comp_inv in H. destruct H as [_ ->].
  cbn [rows] in *. apply in_map_iff in Hr. destruct Hr as [x [<- Hx]].
  cbn [comp set_comp] in Hy. apply yes_no_Y in Hy.
  pose proof Hy as Hin. apply str_in_In, index_where_two_spec in Hin.
  destruct Hin as [_ Hn].
  destruct (two_distinct (unique (map release
              (filter (fun r => String.eqb (comp_group_id r) (comp_group_id x)) (rows df))))
              (release x)) as [y [Hyin Hne]].
  - apply NoDup_unique.
  - exact Hn.
  - apply In_unique, in_map. apply filter_In. split; [assumption | apply String.eqb_refl].
  - apply In_unique, in_map_iff in Hyin. destruct Hyin as [x2 [<- Hx2]].
    apply filter_In in Hx2. destruct Hx2 as [Hx2 Hk]. apply String.eqb_eq in Hk.
    eexists. split; [apply in_map; exact Hx2|].
    cbn [release comp set_comp]. split; [assumption|]. split; [exact Hk|].
    rewrite Hk, Hy. reflexivity.
Qed.

Lemma create_comp_counterpart_witness :
  exists df' r2,
    create_comp Samples.hyphen_table = Ok df' /\
    In r2 (rows df') /\ release r2 <> "2023A" /\ comp r2 = "Y".
Proof.
  destruct (create_comp Samples.hyphen_table) as [df'|e] eqn:E;
    [|vm_compute in E; discriminate E].
  destruct (create_comp_counterpart Samples.hyphen_table df'
              (set_comp "Y" Samples.hyphen_left) E) as [r2 [H1 [H2 [_ H4]]]].
  - vm_compute in E. injection E as <-. left. reflexivity.
  - reflexivity.
  - exists df', r2. split; [reflexivity|]. auto.
Defined.

Section Detectors.

Variables detect_outliers_mad detect_outliers_iso detect_outliers_svm : list Z -> Z -> bool.

(** Neither [create_comp] nor [create_comp_no_outliers] labels the table:
    on a table that has the dimensions but no [new_acquisition_mode] (and no
    [comp]) both raise [KeyError] for that label. *)
Theorem create_comp_needs_labels (df : Frame) (method : string) :
  (forall c, In c ["brand"; "customer"; "dedalo_area"] -> In c (columns df)) ->
  ~ In "new_acquisition_mode" (columns df) ->
  create_comp df = Raise (KeyError "new_acquisition_mode") /\
  (~ In "comp" (columns df) ->
   create_comp_no_outliers detect_outliers_mad detect_outliers_iso detect_outliers_svm
     df method = Raise (KeyError "new_acquisition_mode")).
Proof.
  intros Hc Hn.
  assert (H : create_comp df = Raise (KeyError "new_acquisition_mode")).
  { unfold create_comp. cbn [getitems].
    rewrite (proj2 (getitem_ok df "brand")) by (apply Hc; simpl; tauto).
    rewrite (proj2 (getitem_ok df "customer")) by (apply Hc; simpl; tauto).
    rewrite (proj2 (getitem_ok df "dedalo_area")) by (apply Hc; simpl; tauto).
    cbn [bind]. unfold getitem.
    assert (E : has_column "new_acquisition_mode" df = false).
    { apply not_true_is_false. rewrite has_column_In. assumption. }
    rewrite E. reflexivity. }
  split; [exact H|]. intros Hcomp. unfold create_comp_no_outliers.
  assert (E : has_column "comp" df = false).
  { apply not_true_is_false. rewrite has_column_In. assumption. }
  rewrite E. cbn [negb]. rewrite H. reflexivity.
Qed.

End Detectors.

Lemma create_comp_needs_labels_witness :
  create_comp Samples.orders_table = Raise (KeyError "new_acquisition_mode") /\
  (~ In "comp" (columns Samples.orders_table) ->
   create_comp_no_outliers Samples.never_outlier Samples.never_outlier
     Samples.never_outlier Samples.orders_table "iqr"
   = Raise (KeyError "new_acquisition_mode")).
Proof.
  apply (create_comp_needs_labels Samples.never_outlier Samples.never_outlier
           Samples.never_outlier Samples.orders_table "iqr").
  - intros c Hc. simpl in Hc. simpl. intuition (subst; auto 20).
  - simpl. intuition discriminate.
Defined.

End GroupFacts.

(** ** More on outliers and the flags built on them *)

Module OutlierFacts.
Import C_shaping Outcome CompFacts ShapeFacts.

Section Detectors.

Variable year_week : Z.
Variables detect_outliers_mad detect_outliers_iso detect_outliers_svm : list Z -> Z -> bool.

(** A method other than the four known ones leaves [df_outliers] unbound:
    [detect_outlier] raises [UnboundLocalError] whatever the table, and so
    does [create_comp_no_outliers] on a table that has [comp] but no
    [outlier]. *)
Theorem detect_outlier_unknown_method (df : Frame) (method : string) :
  ~ In method ["iqr"; "mad"; "iso"; "svm"] ->
  detect_outlier detect_outliers_mad detect_outliers_iso detect_outliers_svm
    df method = Raise (UnboundLocalError "df_outliers") /\
  (In "comp" (columns df) -> ~ In "outlier" (columns df) ->
   create_comp_no_outliers detect_outliers_mad detect_outliers_iso detect_outliers_svm
     df method = Raise (UnboundLocalError "df_outliers")).
Proof.
  intros Hm. simpl in Hm.
  assert (H : detect_outlier detect_outliers_mad detect_outliers_iso detect_outliers_svm
    df method = Raise (UnboundLocalError "df_outliers")).
  { unfold detect_outlier.
    destruct (String.eqb_spec method "iqr") as [E|_]; [symmetry in E; tauto|].
    destruct (String.eqb_spec method "mad") as [E|_]; [symmetry in E; tauto|].
    destruct (String.eqb_spec method "iso") as [E|_]; [symmetry in E; tauto|].
    destruct (String.eqb_spec method "svm") as [E|_]; [symmetry in E; tauto|].
    reflexivity. }
  split; [exact H|]. intros Hc Ho. unfold create_comp_no_outliers.
  apply has_column_In in Hc. rewrite Hc. cbn [negb bind].
  assert (E : has_column "outlier" df = false).
  { apply not_true_is_false. rewrite has_column_In. assumption. }
  rewrite E. cbn [negb]. rewrite H. reflexivity.
Qed.

(** Under the interquartile rule a quantity below 2 is an outlier in every
    peer group, the lower bound being at least 2. *)
Theorem detect_outlier_iqr_below_two (df df' : Frame) (r' : Row) :
  detect_outlier detect_outliers_mad detect_outliers_iso detect_outliers_svm
    df "iqr" = Ok df' ->
  In r' (rows df') -> qty r' < 2 -> outlier r' = true.
Proof.
  intros H Hr' Hq. apply detect_outlier_inv in H.
  destruct H as [det [Hdet [[E ->]|[_ ->]]]].
  - rewrite E in Hr'. destruct Hr'.
  - apply detector_of_iqr in Hdet. subst det. cbn [rows] in Hr'.
    apply In_outlier_rows in Hr'.
    destruct Hr' as [r [_ ->]]. cbn [outlier qty set_outlier] in *.
    apply FloatFacts.detect_outliers_iqr_below_two. assumption.
Qed.

(** A row that is alone in its peer group is an outlier exactly when its
    quantity is below 2. *)
Theorem detect_outlier_iqr_single (df df' : Frame) (r : Row) :
  detect_outlier detect_outliers_mad detect_outliers_iso detect_outliers_svm
    df "iqr" = Ok df' ->
  In r (rows df) ->
  peer_group (rows df) (peer_key r) = [r] ->
  In (set_outlier (qty r <? 2) r) (rows df').
Proof.
  intros H Hr Hg. apply detect_outlier_inv in H.
  destruct H as [det [Hdet [[E _]|[_ ->]]]].
  - rewrite E in Hr. destruct Hr.
  - apply detector_of_iqr in Hdet. subst det. cbn [rows]. apply In_outlier_rows. exists r.
    split; [assumption|]. f_equal. rewrite Hg. cbn [map].
    symmetry. apply FloatFacts.detect_outliers_iqr_single.
Qed.

Lemma detect_outlier_empty (df : Frame) (method : string) :
  rows df = [] ->
  In method ["iqr"; "mad"; "iso"; "svm"] ->
  (forall c, In c ["brand"; "dedalo_area"; "new_acquisition_mode"] -> In c (columns df)) ->
  detect_outlier detect_outliers_mad detect_outliers_iso detect_outliers_svm df method
  = Ok df.
Proof.
  intros Hr Hm Hc. unfold detect_outlier.
  assert (Hd : exists det,
            (if String.eqb method "iqr" then Ok detect_outliers_iqr
             else if String.eqb method "mad" then Ok detect_outliers_mad
             else if String.eqb method "iso" then Ok detect_outliers_iso
             else if String.eqb method "svm" then Ok detect_outliers_svm
             else Raise (UnboundLocalError "df_outliers")) = Ok det).
  { simpl in Hm. destruct Hm as [<-|[<-|[<-|[<-|[]]]]]; eexists; reflexivity. }
  destruct Hd as [det ->]. cbn [bind].
  rewrite (proj2 (getitems_ok df _) Hc). cbn [bind]. rewrite Hr. reflexivity.
Qed.

(** On a table without rows [detect_outlier] adds no [outlier] column, and
    [create_comp_no_outliers] then fails on reading it: the call raises
    [KeyError] for 'outlier'. *)
Theorem create_comp_no_outliers_empty (df : Frame) (method : string) :
  rows df = [] ->
  In method ["iqr"; "mad"; "iso"; "svm"] ->
  (forall c, In c ["brand"; "customer"; "dedalo_area"; "new_acquisition_mode"; "release"] ->
             In c (columns df)) ->
  ~ In "outlier" (columns df) ->
  create_comp_no_outliers detect_outliers_mad detect_outliers_iso detect_outliers_svm
    df method = Raise (KeyError "outlier").
Proof.
  intros Hr Hm Hc Ho.
  assert (Hfinal : forall d : Frame,
             ~ In "outlier" (columns d) ->
             getitems (mkDataFrame (with_label "comp_no_out" (columns d)) (rows d))
                      ["outlier"; "comp"] = Raise (KeyError "outlier")).
  { intros d Hd. cbn [getitems]. unfold getitem.
    assert (E : has_column "outlier"
                  (mkDataFrame (with_label "comp_no_out" (columns d)) (rows d)) = false).
    { apply not_true_is_false. rewrite has_column_In. labels. }
    rewrite E. reflexivity. }
  unfold create_comp_no_outliers.
  destruct (has_column "comp" df) eqn:Ecomp; cbn [negb bind].
  - assert (E : has_column "outlier" df = false).
    { apply not_true_is_false. rewrite has_column_In. assumption. }
    rewrite E. cbn [negb]. rewrite (detect_outlier_empty df method Hr Hm).
    + cbn [bind]. rewrite (Hfinal df Ho). reflexivity.
    + intros c Hin. apply Hc. simpl in *. tauto.
  - rewrite (create_comp_value df Hc). cbn [bind]. rewrite Hr. cbn [map].
    match goal with |- context [has_column "outlier" ?d] =>
      assert (E : has_column "outlier" d = false)
    end.
    { apply not_true_is_false. rewrite has_column_In. labels. }
    rewrite E. cbn [negb]. rewrite detect_outlier_empty.
    + cbn [bind]. rewrite Hfinal; [reflexivity|]. labels.
    + reflexivity.
    + assumption.
    + intros c Hin. specialize (Hc c). simpl in Hin, Hc.
      destruct Hin as [<-|[<-|[<-|[]]]]; labels.
Qed.

Lemma In_comp_no_out_rows_iff (rs : list Row) (r' : Row) :
  In r' (comp_no_out_rows rs) ->
  (comp_no_out r' = "Y" <-> outlier r' = false /\ comp r' = "Y").
Proof.
  unfold comp_no_out_rows. intros H. apply in_map_iff in H. destruct H as [r [<- _]].
  destruct (outlier r) eqn:Eo; cbn [Bool.eqb andb].
  - cbn [comp_no_out outlier comp set_comp_no_out]. rewrite Eo.
    split; [discriminate | intros [H _]; discriminate H].
  - destruct (String.eqb_spec (comp r) "Y") as [E|E];
      cbn [comp_no_out outlier comp set_comp_no_out]; rewrite Eo.
    + tauto.
    + split; [discriminate | tauto].
Qed.

Lemma create_comp_no_outliers_iff (df df' : Frame) (method : string) :
  create_comp_no_outliers detect_outliers_mad detect_outliers_iso detect_outliers_svm
    df method = Ok df' ->
  forall r, In r (rows df') ->
    (comp_no_out r = "Y" <-> outlier r = false /\ comp r = "Y").
Proof.
  intros H r Hr.
  apply create_comp_no_outliers_inv in H. destruct H as [df1 [df2 [_ [_ ->]]]].
  cbn [rows] in Hr. apply In_comp_no_out_rows_iff in Hr. assumption.
Qed.

(** On every row that [create_comp_no_outliers] returns, [comp_no_out] is
    'Y' exactly when the row is no outlier and its [comp] is 'Y', and 'N'
    otherwise, whether the two columns were computed or came with the
    table. *)
Theorem create_comp_no_outliers_exact (df df' : Frame) (method : string) :
  create_comp_no_outliers detect_outliers_mad detect_outliers_iso detect_outliers_svm
    df method = Ok df' ->
  forall r, In r (rows df') ->
    (comp_no_out r = "Y" <-> outlier r = false /\ comp r = "Y") /\
    (comp_no_out r = "N" <-> ~ (outlier r = false /\ comp r = "Y")).
Proof.
  intros H r Hr. pose proof (create_comp_no_outliers_implies _ _ _ _ _ _ H r Hr) as [Hyn _].
  pose proof (create_comp_no_outliers_iff _ _ _ H r Hr) as Hiff. split; [assumption|].
  rewrite <- Hiff. destruct Hyn as [E|E]; rewrite E; split; intros; try discriminate;
    try reflexivity; tauto.
Qed.

(** The flags are nested: when the shaper computes them, a row of the
    table [create_comp_today_no_outliers] returns with [comp_today_no_out]
    'Y' has [comp_no_out] 'Y', [comp_today] 'Y' and [comp] 'Y'. *)
Theorem comp_today_no_out_nested (df df' : Frame) (method : string) :
  ~ In "comp" (columns df) ->
  ~ In "comp_today" (columns df) ->
  ~ In "comp_no_out" (columns df) ->
  create_comp_today_no_outliers year_week detect_outliers_mad detect_outliers_iso
    detect_outliers_svm df method = Ok df' ->
  forall r, In r (rows df') ->
    comp_today_no_out r = "Y" ->
    comp_no_out r = "Y" /\ comp_today r = "Y" /\ comp r = "Y".
Proof.
  intros Hc Ht Hn H r' Hr' Hy.
  apply create_comp_today_no_outliers_inv in H.
  destruct H as [df1 [df2 [df3 [H1 [H2 [H3 ->]]]]]].
  assert (E1 : has_column "comp_today" df = false).
  { apply not_true_is_false. rewrite has_column_In. assumption. }
  rewrite E1 in H1. cbn [negb] in H1.
  apply (create_comp_today_flags year_week detect_outliers_mad detect_outliers_iso
           detect_outliers_svm) in H1; [|assumption].
  destruct H1 as [F1 [C1 N1]].
  apply today_flags_after_outlier in H2; [|assumption].
  destruct H2 as [F2 L2].
  assert (E2 : has_column "comp_no_out" df2 = false).
  { apply not_true_is_false. rewrite has_column_In, L2, N1; [assumption|discriminate]. }
  rewrite E2 in H3. cbn [negb] in H3.
  pose proof (create_comp_no_outliers_iff _ _ _ H3) as Hex.
  apply create_comp_no_outliers_inv in H3.
  destruct H3 as [df2a [df2b [Ha [Hb ->]]]].
  assert (E3 : has_column "comp" df2 = true).
  { rewrite has_column_In, L2; [assumption|discriminate]. }
  rewrite E3 in Ha. cbn [negb] in Ha. injection Ha as <-.
  apply today_flags_after_outlier in Hb; [|assumption].
  destruct Hb as [F3 _].
  cbn [rows] in Hr', Hex. apply In_comp_today_no_out_rows in Hr'.
  destruct Hr' as [r [Hr Hcase]].
  pose proof (Hex r Hr) as Hiff.
  apply In_comp_no_out_rows in Hr. destruct Hr as [r0 [Hr0 Hr]].
  assert (T : today_flags r).
  { destruct Hr as [[-> _]| ->]; exact (F3 r0 Hr0). }
  destruct T as [_ [_ Ti]].
  destruct Hcase as [[-> [Ho Hty]]| ->];
    cbn [comp comp_today comp_no_out comp_today_no_out set_comp_today_no_out] in *;
    [|discriminate Hy].
  destruct (Ti Hty) as [Hcy _]. split; [apply Hiff; auto | auto].
Qed.

End Detectors.

Lemma detect_outlier_unknown_method_witness :
  detect_outlier Samples.never_outlier Samples.never_outlier Samples.never_outlier
    Samples.peer_table "zscore" = Raise (UnboundLocalError "df_outliers").
Proof.
  refine (proj1 (detect_outlier_unknown_method Samples.never_outlier Samples.never_outlier
                   Samples.never_outlier Samples.peer_table "zscore" _)).
  simpl. intuition discriminate.
Defined.

Lemma detect_outlier_iqr_below_two_witness :
  exists df',
    detect_outlier Samples.never_outlier Samples.never_outlier Samples.never_outlier
      MoreSamples.small_orders "iqr" = Ok df' /\
    outlier (nth 1 (rows df') Samples.hyphen_left) = true.
Proof.
  destruct (detect_outlier Samples.never_outlier Samples.never_outlier
              Samples.never_outlier MoreSamples.small_orders "iqr") as [df'|e] eqn:E;
    [|vm_compute in E; discriminate E].
  exists df'. split; [reflexivity|].
  apply (detect_outlier_iqr_below_two Samples.never_outlier Samples.never_outlier
           Samples.never_outlier MoreSamples.small_orders df' _ E).
  - vm_compute in E. injection E as <-. simpl. tauto.
  - vm_compute in E. injection E as <-. reflexivity.
Defined.

Lemma detect_outlier_iqr_single_witness :
  exists df',
    detect_outlier Samples.never_outlier Samples.never_outlier Samples.never_outlier
      MoreSamples.small_orders "iqr" = Ok df' /\
    In (set_outlier false
          (Samples.labelled_row "2023A" "OO" "C1" "IT" 202301 "EVENT" 3)) (rows df').
Proof.
  destruct (detect_outlier Samples.never_outlier Samples.never_outlier
              Samples.never_outlier MoreSamples.small_orders "iqr") as [df'|e] eqn:E;
    [|vm_compute in E; discriminate E].
  exists df'. split; [reflexivity|].
  apply (detect_outlier_iqr_single Samples.never_outlier Samples.never_outlier
           Samples.never_outlier MoreSamples.small_orders df'
           (Samples.labelled_row "2023A" "OO" "C1" "IT" 202301 "EVENT" 3) E).
  - simpl. tauto.
  - reflexivity.
Defined.

Lemma create_comp_no_outliers_empty_witness :
  create_comp_no_outliers Samples.never_outlier Samples.never_outlier
    Samples.never_outlier MoreSamples.no_orders "iqr" = Raise (KeyError "outlier").
Proof.
  apply (create_comp_no_outliers_empty Samples.never_outlier Samples.never_outlier
           Samples.never_outlier MoreSamples.no_orders "iqr").
  - reflexivity.
  - simpl. tauto.
  - intros c Hc. simpl in Hc. simpl. intuition (subst; auto 20).
  - simpl. intuition discriminate.
Defined.

Lemma create_comp_no_outliers_exact_witness :
  exists df',
    create_comp_no_outliers Samples.never_outlier Samples.never_outlier
      Samples.never_outlier Samples.peer_table "iqr" = Ok df' /\
    forall r, In r (rows df') ->
      (comp_no_out r = "Y" <-> outlier r = false /\ comp r = "Y") /\
      (comp_no_out r = "N" <-> ~ (outlier r = false /\ comp r = "Y")).
Proof.
  destruct (create_comp_no_outliers Samples.never_outlier Samples.never_outlier
              Samples.never_outlier Samples.peer_table "iqr") as [df'|e] eqn:E;
    [|vm_compute in E; discriminate E].
  exists df'. split; [reflexivity|].
  exact (create_comp_no_outliers_exact Samples.never_outlier Samples.never_outlier
           Samples.never_outlier Samples.peer_table df' "iqr" E).
Defined.

Lemma comp_today_no_out_nested_witness :
  exists df',
    create_comp_today_no_outliers 202430 Samples.never_outlier Samples.never_outlier
      Samples.never_outlier Samples.orders_table "iqr" = Ok df' /\
    forall r, In r (rows df') -> comp_today_no_out r = "Y" ->
      comp_no_out r = "Y" /\ comp_today r = "Y" /\ comp r = "Y".
Proof.
  destruct (create_comp_today_no_outliers 202430 Samples.never_outlier
              Samples.never_outlier Samples.never_outlier Samples.orders_table "iqr")
    as [df'|e] eqn:E; [|vm_compute in E; discriminate E].
  exists df'. split; [reflexivity|].
  apply (comp_today_no_out_nested 202430 Samples.never_outlier Samples.never_outlier
           Samples.never_outlier Samples.orders_table df' "iqr");
    try exact E; simpl; intuition discriminate.
Defined.

End OutlierFacts.

(** ** More on the common yearweek *)

Module AlignFacts.
Import C_shaping Outcome ShapeFacts LabelFacts.

Lemma py_int_raises (t : string) (e : Exception) :
  py_int t = Raise e -> exists msg, e = ValueError msg.
Proof.
  unfold py_int. cbv zeta.
  match goal with
  | |- match ?parsed with Some _ => _ | None => _ end = _ -> _ => destruct parsed
  end.
  - discriminate.
  - intros H. injection H as <-. eauto.
Qed.

(** [create_common_creation_yearweek] on a table without the column raises
    [ValueError] when the table has no rows, and when the first four
    characters of some release are no decimal number. *)
Theorem create_common_creation_yearweek_rejects (df : Frame) :
  ~ In "common_creation_yearweek" (columns df) ->
  In "release" (columns df) ->
  rows df = [] \/
  (exists r, In r (rows df) /\ forall y, py_int (year_release r) <> Ok y) ->
  exists msg, create_common_creation_yearweek df = Raise (ValueError msg).
Proof.
  intros Hno Hrel Hbad. unfold create_common_creation_yearweek.
  assert (E : has_column "common_creation_yearweek" df = false).
  { apply not_true_is_false. rewrite has_column_In. assumption. }
  rewrite E. cbn [negb]. apply getitem_ok in Hrel. rewrite Hrel. cbn [bind].
  destruct Hbad as [Hr|[r [Hr Hy]]].
  - rewrite Hr. cbn [map unique py_max_str bind]. eauto.
  - destruct (py_max_str (unique (map year_release (rows df)))) as [m|e] eqn:Em.
    + cbn [bind].
      destruct (mapM_raises
                  (fun r => m' <- py_int m ;; y <- py_int (year_release r) ;; Ok (m' - y))
                  (fun e => exists msg, e = ValueError msg) (rows df) r
                  (match py_int m with
                   | Ok _ => match py_int (year_release r) with
                             | Ok _ => ValueError ""
                             | Raise e => e
                             end
                   | Raise e => e
                   end)) as [e [HM [msg ->]]].
      * intros x e. destruct (py_int m) as [m'|e1] eqn:E1; cbn [bind].
        -- destruct (py_int (year_release x)) as [y|e2] eqn:E2; cbn [bind].
           ++ discriminate.
           ++ intros H. injection H as <-. eapply py_int_raises. eassumption.
        -- intros H. injection H as <-. eapply py_int_raises. eassumption.
      * assumption.
      * destruct (py_int m); cbn [bind]; [|reflexivity].
        destruct (py_int (year_release r)) as [y|e2] eqn:E2; [|reflexivity].
        exfalso. exact (Hy y eq_refl).
      * rewrite HM. cbn [bind]. eauto.
    + cbn [bind]. unfold py_max_str in Em.
      destruct (unique _); [injection Em as <-; eauto | discriminate Em].
Qed.

Lemma create_common_creation_yearweek_rejects_witness :
  exists msg,
    create_common_creation_yearweek
      (mkDataFrame (columns Samples.orders_table)
         [Samples.order "2024A" "C1" 202401 12; Samples.order "R1" "C1" 202301 10])
    = Raise (ValueError msg).
Proof.
  apply create_common_creation_yearweek_rejects.
  - simpl. intuition discriminate.
  - simpl. tauto.
  - right. exists (Samples.order "R1" "C1" 202301 10). split; [simpl; tauto|].
    intros y. vm_compute. discriminate.
Defined.

End AlignFacts.

(** ** More on cleaning *)

Module AggregateFacts.
Import B_cleaning CleaningFacts.

Lemma dropna_all_missing (l : list (option string)) :
  (forall v, In v l -> v = None) -> dropna l = [].
Proof.
  induction l as [|v l IH]; intros H; [reflexivity|].
  rewrite (H v (or_introl eq_refl)). simpl. apply IH. intros w Hw. apply H. right. exact Hw.
Qed.

(** When no row has a customer type, an empty table included, there is no
    most frequent value: [replacing_values] raises [IndexError], and so
    does [cleaning], with or without the area table. *)
Theorem replacing_values_all_missing (area : result (DataFrame Area.Row))
  (df : DataFrame Raw.Row) (adding_area : bool) :
  In "customer_type" (columns df) ->
  (forall r, In r (rows df) -> Raw.customer_type r = None) ->
  replacing_values df = Raise (IndexError "single positional indexer is out-of-bounds") /\
  cleaning area df adding_area
  = Raise (IndexError "single positional indexer is out-of-bounds").
Proof.
  intros Hc Hall.
  assert (H : replacing_values df
              = Raise (IndexError "single positional indexer is out-of-bounds")).
  { unfold replacing_values. apply getitem_ok in Hc. rewrite Hc. cbn [bind].
    rewrite map_map. cbn [Raw.customer_type Raw.set_customer_type].
    unfold mode. rewrite dropna_all_missing; [reflexivity|].
    intros v Hv. apply in_map_iff in Hv. destruct Hv as [r [<- Hr]].
    rewrite (Hall r Hr). reflexivity. }
  split; [exact H|]. unfold cleaning. rewrite H. reflexivity.
Qed.

Lemma replacing_values_all_missing_witness :
  cleaning (Ok Samples.both_areas) (mkDataFrame Samples.imported_columns []) true
  = Raise (IndexError "single positional indexer is out-of-bounds").
Proof.
  refine (proj2 (replacing_values_all_missing (Ok Samples.both_areas)
                   (mkDataFrame Samples.imported_columns []) true _ _)).
  - cbn. auto 30.
  - intros r [].
Defined.

Lemma replace_not_code (v : option string) (s : string) :
  replace DICT_CUSTOMER_TYPE v = Some s -> s <> "BPF" /\ s <> "PF".
Proof.
  destruct v as [t|]; [|discriminate]. unfold replace, DICT_CUSTOMER_TYPE, dict_get.
  destruct (String.eqb_spec t "BPF") as [->|E1].
  - intros H. injection H as <-. split; discriminate.
  - destruct (String.eqb_spec t "PF") as [->|E2].
    + intros H. injection H as <-. split; discriminate.
    + intros H. injection H as <-. auto.
Qed.

(** [replacing_values] keeps the labels and the number of rows, and on the
    table it returns every customer type is present and none is one of the
    replaced codes 'BPF' and 'PF'. *)
Theorem replacing_values_clean (df df' : DataFrame Raw.Row) :
  replacing_values df = Ok df' ->
  columns df' = columns df /\
  List.length (rows df') = List.length (rows df) /\
  forall r, In r (rows df') ->
    exists s, Raw.customer_type r = Some s /\ s <> "BPF" /\ s <> "PF".
Proof.
  intros H. apply replacing_values_inv in H. destruct H as [fill [Hfill ->]].
  cbn [columns rows]. split; [reflexivity|]. split; [apply length_map|].
  assert (Hf : fill <> "BPF" /\ fill <> "PF").
  { unfold iloc0 in Hfill. destruct (mode _) as [|x m] eqn:E; [discriminate Hfill|].
    injection Hfill as ->.
    assert (Hin : In fill (mode (map (fun r => replace DICT_CUSTOMER_TYPE
                                                  (Raw.customer_type r)) (rows df)))).
    { rewrite E. left. reflexivity. }
    apply mode_most_frequent in Hin. destruct Hin as [Hin _].
    apply in_map_iff in Hin. destruct Hin as [r [Hr _]].
    eapply replace_not_code. eassumption. }
  intros r Hr. apply in_map_iff in Hr. destruct Hr as [r0 [<- _]].
  cbn [Raw.customer_type Raw.set_customer_type].
  destruct (replace DICT_CUSTOMER_TYPE (Raw.customer_type r0)) as [s|] eqn:E; cbn [fillna].
  - exists s. split; [reflexivity|]. eapply replace_not_code. eassumption.
  - exists fill. auto.
Qed.

Lemma replacing_values_clean_witness :
  exists df',
    replacing_values Samples.raw_table = Ok df' /\
    forall r, In r (rows df') ->
      exists s, Raw.customer_type r = Some s /\ s <> "BPF" /\ s <> "PF".
Proof.
  destruct (replacing_values Samples.raw_table) as [df'|e] eqn:E;
    [|vm_compute in E; discriminate E].
  exists df'. split; [reflexivity|].
  exact (proj2 (proj2 (replacing_values_clean Samples.raw_table df' E))).
Defined.

(** *** Aggregation *)

Lemma same_key_group_key (a b : Row) : same_key a b = true <-> group_key a = group_key b.
Proof.
  unfold same_key, group_key.
  rewrite !andb_true_iff, !String.eqb_eq, !Z.eqb_eq. split.
  - intros [[[[[[[[-> ->] ->] ->] ->] ->] ->] ->] ->]. reflexivity.
  - intros H. injection H as H1 H2 H3 H4 H5 H6 H7 H8 H9. repeat split; assumption.
Qed.

Lemma group_key_with_qty (q : Z) (r : Row) : group_key (with_qty q r) = group_key r.
Proof. reflexivity. Qed.

Lemma In_group_heads (r : Row) (l : list Row) : In r (group_heads l) -> In r l.
Proof.
  induction l as [|x l IH]; simpl; [tauto|].
  intros [->|H]; [auto|]. apply filter_In in H. right. apply IH. tauto.
Qed.

Lemma group_heads_cover (r : Row) (l : list Row) :
  In r l -> exists k, In k (group_heads l) /\ same_key r k = true.
Proof.
  induction l as [|x l IH]; simpl; [tauto|]. intros [->|H].
  - exists r. split; [auto|]. apply same_key_group_key. reflexivity.
  - destruct (IH H) as [k [Hk Hs]].
    destruct (same_key k x) eqn:E.
    + exists x. split; [auto|]. apply same_key_group_key.
      apply same_key_group_key in Hs, E. congruence.
    + exists k. split; [|assumption]. right. apply filter_In. rewrite E. auto.
Qed.

Lemma group_keys_of_kept_rows (keep : Row -> bool) (rs : list Row) :
  NoDup (map group_key rs) -> NoDup (map group_key (filter keep rs)).
Proof.
  induction rs as [|r rs IH]; simpl; intros H; [constructor|].
  apply NoDup_cons_iff in H. destruct H as [Hr Hrs].
  destruct (keep r); simpl; [|exact (IH Hrs)].
  apply NoDup_cons; [|exact (IH Hrs)].
  rewrite in_map_iff. intros [y [Hy Hin]]. apply filter_In in Hin.
  apply Hr. rewrite in_map_iff. exists y. tauto.
Qed.

Lemma NoDup_group_heads (l : list Row) : NoDup (map group_key (group_heads l)).
Proof.
  induction l as [|x l IH]; simpl; constructor.
  - intros Hin. apply in_map_iff in Hin. destruct Hin as [y [Hy Hin]].
    apply filter_In in Hin. destruct Hin as [_ Hn].
    apply negb_true_iff in Hn. apply same_key_group_key in Hy. congruence.
  - apply group_keys_of_kept_rows. assumption.
Qed.

Lemma grouping_inv (df : DataFrame Raw.Row) (df' : Frame) :
  grouping df = Ok df' ->
  rows df' =
    map (fun k => with_qty (group_sum (filter (fun r => same_key r k) (keyed_rows (rows df)))) k)
        (sorted key_leb (group_heads (keyed_rows (rows df)))).
Proof.
  unfold grouping. intros H. bind_inv H. bind_inv H. injection H as <-. reflexivity.
Qed.

(** After [grouping] no two rows share the nine dimensions. *)
Theorem grouping_keys_unique (df : DataFrame Raw.Row) (df' : Frame) :
  grouping df = Ok df' -> NoDup (map group_key (rows df')).
Proof.
  intros H. rewrite (grouping_inv _ _ H), map_map.
  rewrite (map_ext _ group_key (fun k => group_key_with_qty _ k)).
  eapply Permutation_NoDup.
  - apply Permutation_map. symmetry. apply Permutation_sorted.
  - apply NoDup_group_heads.
Qed.

Lemma grouping_keys_unique_witness :
  exists df', grouping Samples.raw_table = Ok df' /\ NoDup (map group_key (rows df')).
Proof.
  destruct (grouping Samples.raw_table) as [df'|e] eqn:E;
    [|vm_compute in E; discriminate E].
  exists df'. split; [reflexivity|]. exact (grouping_keys_unique Samples.raw_table df' E).
Defined.

Lemma sum_qty_app (a b : list Row) : sum_qty (a ++ b) = sum_qty a + sum_qty b.
Proof.
  unfold sum_qty. induction a as [|x a IH]; simpl; [reflexivity|]. rewrite IH. lia.
Qed.

Lemma sum_qty_permutation (a b : list Row) : Permutation a b -> sum_qty a = sum_qty b.
Proof.
  unfold sum_qty. induction 1; simpl; lia.
Qed.

Lemma sum_qty_groups (F : Row -> list Row) (ks : list Row) :
  sum_qty (map (fun k => with_qty (sum_qty (F k)) k) ks) = sum_qty (flat_map F ks).
Proof.
  induction ks as [|k ks IH]; simpl; [reflexivity|].
  rewrite sum_qty_app, <- IH. reflexivity.
Qed.

(** Visiting the groups of distinct keys visits every row at most once. *)
Lemma heads_partition (l ks : list Row) :
  NoDup (map group_key ks) ->
  Permutation (flat_map (fun k => filter (fun r => same_key r k) l) ks)
              (filter (fun r => existsb (same_key r) ks) l).
Proof.
  induction ks as [|k ks IH]; simpl; intros H.
  - induction l; simpl; auto.
  - inversion H as [|? ? Hk Hks]. subst. rewrite (IH Hks). apply filter_split.
    intros r _ Hr. apply not_true_is_false. intros He.
    apply existsb_exists in He. destruct He as [k' [Hin He]].
    apply same_key_group_key in Hr, He. apply Hk. apply in_map_iff.
    exists k'. split; [congruence | assumption].
Qed.

Lemma sum_qty_keyed_rows (l : list Raw.Row) : sum_qty (keyed_rows l) = raw_total l.
Proof.
  unfold raw_total, sum_qty. induction l as [|r l IH]; simpl; [reflexivity|].
  unfold keyed, has_all_keys.
  destruct (Raw.release r), (Raw.brand r), (Raw.customer r), (Raw.customer_sold_to r),
           (Raw.division r), (Raw.dedalo_area r), (Raw.acquisition_mode_group r);
    simpl; rewrite IH; reflexivity.
Qed.

Lemma In_keyed_rows (k : Row) (l : list Raw.Row) :
  In k (keyed_rows l) -> exists r, In r l /\ qty k = Raw.qty r.
Proof.
  induction l as [|r l IH]; simpl; [tauto|].
  destruct (keyed r) as [k0|] eqn:E.
  - intros [<-|H].
    + exists r. split; [auto|]. unfold keyed in E.
      destruct (Raw.release r), (Raw.brand r), (Raw.customer r), (Raw.customer_sold_to r),
               (Raw.division r), (Raw.dedalo_area r), (Raw.acquisition_mode_group r);
        try discriminate E. injection E as <-. reflexivity.
    + destruct (IH H) as [r0 [Hr0 Hq]]. eauto.
  - intros H. destruct (IH H) as [r0 [Hr0 Hq]]. eauto.
Qed.

Lemma length_keyed_rows (l : list Raw.Row) :
  (List.length (keyed_rows l) <= List.length l)%nat.
Proof.
  induction l as [|r l IH]; simpl; [lia|]. destruct (keyed r); simpl; lia.
Qed.

(** A sum of 32-bit quantities over fewer than 2^31 rows fits [int64]. *)
Lemma sum_qty_bounded (l : list Row) :
  (forall r, In r l -> - 2 ^ 31 <= qty r < 2 ^ 31) ->
  - (Z.of_nat (List.length l) * 2 ^ 31) <= sum_qty l <= Z.of_nat (List.length l) * 2 ^ 31.
Proof.
  unfold sum_qty. induction l as [|r l IH]; intros H.
  - simpl. lia.
  - specialize (IH (fun x Hx => H x (or_intror Hx))).
    pose proof (H r (or_introl eq_refl)) as Hr.
    cbn [map fold_right List.length]. rewrite Nat2Z.inj_succ. lia.
Qed.

Lemma group_sum_fits (l : list Row) :
  Z.of_nat (List.length l) < 2 ^ 31 ->
  (forall r, In r l -> - 2 ^ 31 <= qty r < 2 ^ 31) ->
  group_sum l = sum_qty l.
Proof.
  intros Hlen Hq. unfold group_sum. fold (sum_qty l).
  pose proof (sum_qty_bounded l Hq) as Hs.
  apply wrap_int64_fits. unfold int64_min, int64_max.
  assert (Z.of_nat (List.length l) * 2 ^ 31 <= 2 ^ 31 * 2 ^ 31) by nia.
  change (2 ^ 31 * 2 ^ 31) with (2 ^ 62) in *. lia.
Qed.

(** [grouping] loses no piece of 32-bit quantities: the quantities of the
    aggregated table add up to the quantities of the imported rows that
    have all their keys; the rows that miss a key are left out. *)
Theorem grouping_keeps_total (df : DataFrame Raw.Row) (df' : Frame) :
  int32_quantities (rows df) ->
  grouping df = Ok df' -> sum_qty (rows df') = raw_total (rows df).
Proof.
  intros [Hlen Hq] H. rewrite (grouping_inv _ _ H), <- sum_qty_keyed_rows.
  set (l := keyed_rows (rows df)).
  rewrite (map_ext_in _ (fun k => with_qty (sum_qty (filter (fun r => same_key r k) l)) k)).
  2:{ intros k _. f_equal. apply group_sum_fits.
      - pose proof (filter_length_le (fun r => same_key r k) l) as H1.
        pose proof (length_keyed_rows (rows df)) as H2. fold l in H2. lia.
      - intros r Hr. apply filter_In in Hr. destruct Hr as [Hr _].
        apply In_keyed_rows in Hr. destruct Hr as [r0 [Hr0 ->]]. auto. }
  rewrite (sum_qty_groups (fun k => filter (fun r => same_key r k) l)).
  apply sum_qty_permutation. rewrite heads_partition.
  - rewrite filter_all; [reflexivity|]. intros r Hr.
    destruct (group_heads_cover r l Hr) as [k [Hk Hs]].
    apply existsb_exists. exists k. split; [apply In_sorted; assumption | assumption].
  - eapply Permutation_NoDup.
    + apply Permutation_map. symmetry. apply Permutation_sorted.
    + apply NoDup_group_heads.
Qed.

Lemma grouping_keeps_total_witness :
  exists df', grouping Samples.raw_table = Ok df' /\ sum_qty (rows df') = 12.
Proof.
  destruct (grouping Samples.raw_table) as [df'|e] eqn:E;
    [|vm_compute in E; discriminate E].
  exists df'. split; [reflexivity|].
  rewrite (grouping_keeps_total Samples.raw_table df'); [reflexivity | | exact E].
  split; [reflexivity|]. intros r Hr. simpl in Hr.
  repeat (destruct Hr as [<-|Hr]; [vm_compute; split; [discriminate | reflexivity]|]).
  destruct Hr.
Defined.

(** *** One area row per order *)

Lemma at_most_one_area_row (df_area : DataFrame Area.Row) (r : Row) :
  one_row_per_area df_area -> (List.length (area_rows df_area r) <= 1)%nat.
Proof.
  unfold one_row_per_area, area_rows. induction (rows df_area) as [|a l IH]; simpl.
  - lia.
  - intros H. inversion H as [|? ? Ha Hl]. subst.
    destruct (area_matches r a) eqn:E; [|auto].
    assert (Hnone : filter (area_matches r) l = []).
    { destruct (filter (area_matches r) l) as [|b l'] eqn:Ef; [reflexivity|].
      exfalso. apply Ha.
      assert (Hb : In b (filter (area_matches r) l)) by (rewrite Ef; left; reflexivity).
      apply filter_In in Hb. destruct Hb as [Hb Hm].
      unfold area_matches in E, Hm.
      destruct (Area.dedalo_area a) as [sa|] eqn:Ea; [|discriminate E].
      destruct (Area.dedalo_area b) as [sb|] eqn:Eb; [|discriminate Hm].
      apply String.eqb_eq in E, Hm. apply in_map_iff. exists b. split; [congruence|assumption]. }
    simpl. rewrite Hnone. simpl. lia.
Qed.

Lemma length_joined_rows_le (rs : list Row) (df_area : DataFrame Area.Row) :
  one_row_per_area df_area ->
  (List.length (joined_rows rs df_area) <= List.length rs)%nat.
Proof.
  intros H. unfold joined_rows. induction rs as [|r rs IH]; simpl; [lia|].
  rewrite length_app, length_map. pose proof (at_most_one_area_row df_area r H). lia.
Qed.

Lemma joined_rows_one_each (rs : list Row) (df_area : DataFrame Area.Row) :
  one_row_per_area df_area ->
  List.length (joined_rows rs df_area) = List.length rs ->
  Forall2 (fun r r' => exists a, area_rows df_area r = [a] /\
                                 r' = set_launch_type (Area.launch_type a) r)
          rs (joined_rows rs df_area).
Proof.
  intros H. induction rs as [|r rs IH]; intros Hlen.
  - constructor.
  - change (joined_rows (r :: rs) df_area)
      with (map (fun a => set_launch_type (Area.launch_type a) r) (area_rows df_area r)
              ++ joined_rows rs df_area) in *.
    rewrite length_app, length_map in Hlen. simpl in Hlen.
    pose proof (at_most_one_area_row df_area r H) as H1.
    pose proof (length_joined_rows_le rs df_area H) as H2.
    destruct (area_rows df_area r) as [|a [|b l]] eqn:E; simpl in Hlen, H1; try lia.
    simpl. constructor; [eauto|]. apply IH. lia.
Qed.

Lemma cleaning_with_area_inv (df_area : DataFrame Area.Row) (df : DataFrame Raw.Row)
  (df3 : Frame) :
  cleaning (Ok df_area) df true = Ok df3 ->
  exists df2,
    cleaning (Ok df_area) df false = Ok df2 /\
    rows df3 = joined_rows (rows df2) df_area /\
    List.length (rows df3) = List.length (rows df2).
Proof.
  unfold cleaning. intros H. bind_inv H. bind_inv H. cbn [bind] in H.
  rewrite Hstep. cbn [bind]. rewrite Hstep0. cbn [bind]. exists x0.
  split; [reflexivity|].
  destruct (merge x0 df_area) as [d|e] eqn:Em; cbn [bind] in H; [|discriminate H].
  destruct (Nat.eqb_spec (List.length (rows d)) (List.length (rows x0))) as [El|El];
    [|discriminate H].
  injection H as <-. split; [|assumption].
  unfold merge in Em. bind_inv Em. bind_inv Em. injection Em as <-. reflexivity.
Qed.

Lemma area_rows_single (df_area : DataFrame Area.Row) (r : Row) (a : Area.Row) :
  area_rows df_area r = [a] ->
  In a (rows df_area) /\ Area.dedalo_area a = Some (dedalo_area r).
Proof.
  intros E. assert (Hin : In a (area_rows df_area r)) by (rewrite E; left; reflexivity).
  unfold area_rows in Hin. apply filter_In in Hin. destruct Hin as [Hin Hm].
  split; [assumption|]. unfold area_matches in Hm.
  destruct (Area.dedalo_area a) as [s|]; [|discriminate Hm].
  apply String.eqb_eq in Hm. congruence.
Qed.

(** With an area table of at most one row per area, a successful
    [cleaning] with the area returns the aggregated rows, each exactly
    once, with the same dimensions and quantity and with the launch type
    of the area row of its dedalo_area. *)
Theorem cleaning_one_to_one (df_area : DataFrame Area.Row) (df : DataFrame Raw.Row)
  (df3 : Frame) :
  one_row_per_area df_area ->
  cleaning (Ok df_area) df true = Ok df3 ->
  exists df2 joined,
    cleaning (Ok df_area) df false = Ok df2 /\
    Permutation joined (rows df3) /\
    Forall2 (fun r r' =>
               group_key r' = group_key r /\ qty r' = qty r /\
               exists a, In a (rows df_area) /\
                         Area.dedalo_area a = Some (dedalo_area r) /\
                         launch_type r' = Area.launch_type a)
            (rows df2) joined.
Proof.
  intros Hone H. apply cleaning_with_area_inv in H.
  destruct H as [df2 [H2 [Hr Hlen]]]. exists df2, (rows df3).
  split; [assumption|]. split; [reflexivity|].
  rewrite Hr in *.
  eapply Forall2_impl; [|apply joined_rows_one_each; assumption].
  intros r r' [a [Ea ->]]. cbn [group_key qty launch_type set_launch_type].
  split; [reflexivity|]. split; [reflexivity|].
  exists a. destruct (area_rows_single _ _ _ Ea). auto.
Qed.

Lemma cleaning_one_to_one_witness :
  exists df2 df3 joined,
    cleaning (Ok Samples.both_areas) Samples.raw_table true = Ok df3 /\
    cleaning (Ok Samples.both_areas) Samples.raw_table false = Ok df2 /\
    Permutation joined (rows df3) /\
    Forall2 (fun r r' =>
               group_key r' = group_key r /\ qty r' = qty r /\
               exists a, In a (rows Samples.both_areas) /\
                         Area.dedalo_area a = Some (dedalo_area r) /\
                         launch_type r' = Area.launch_type a)
            (rows df2) joined.
Proof.
  destruct (cleaning (Ok Samples.both_areas) Samples.raw_table true) as [df3|e] eqn:E;
    [|vm_compute in E; discriminate E].
  destruct (cleaning_one_to_one Samples.both_areas Samples.raw_table df3)
    as [df2 [joined [H2 [HP HF]]]].
  - unfold one_row_per_area. simpl.
    constructor; [simpl; intuition discriminate|]. constructor; [intros []|constructor].
  - exact E.
  - exists df2, df3, joined. auto.
Defined.

End AggregateFacts.

(** ** The folder import *)

Module FolderFacts.
Import A_import A_import_all.

Lemma dict_get_In (d : list (string * string)) (k v : string) :
  B_cleaning.dict_get d k = Some v -> In (k, v) d.
Proof.
  induction d as [|[k' v'] d IH]; simpl; [discriminate|].
  destruct (String.eqb_spec k k') as [->|_].
  - intros H. injection H as ->. auto.
  - auto.
Qed.

(** No canonical name is itself a header of the source files. *)
Lemma canonical_not_renamed (k v : string) :
  B_cleaning.dict_get new_col_name k = Some v -> B_cleaning.dict_get new_col_name v = None.
Proof.
  intros H. apply dict_get_In in H. unfold new_col_name in H. simpl in H.
  repeat (destruct H as [H|H]; [injection H as <- <-; reflexivity|]). destruct H.
Qed.

Section Folder.

Variable Cells : Type.
Variables read_excel read_csv read_parquet : Path -> result (DataFrame Cells).
Variable path_exists : Path -> bool.
Variable glob_all : Path -> list Path.
Variable concat : list (DataFrame Cells) -> result (DataFrame Cells).

(** Renaming a table whose columns are renamed already changes nothing, so
    that a file written with the canonical names can be imported again. *)
Theorem rename_idempotent (df : DataFrame Cells) :
  rename Cells new_col_name (rename Cells new_col_name df) = rename Cells new_col_name df.
Proof.
  unfold rename. cbn [columns rows]. f_equal. rewrite map_map. apply map_ext.
  intros c. destruct (B_cleaning.dict_get new_col_name c) as [v|] eqn:E.
  - rewrite (canonical_not_renamed _ _ E). reflexivity.
  - rewrite E. reflexivity.
Qed.

(** The reader that [import_one_file] uses for a path. *)
Lemma import_one_file_supported (path : Path) :
  In (suffix path) valid_extensions ->
  import_one_file Cells read_excel read_csv read_parquet path =
  match (if String.eqb (suffix path) ".xlsx" then read_excel path
         else if String.eqb (suffix path) ".csv" then read_csv path
         else read_parquet path) with
  | Ok df => Ok (rename Cells new_col_name df)
  | Raise e => Raise e
  end.
Proof.
  intros H. unfold import_one_file. apply str_in_In in H. rewrite H.
  destruct (if String.eqb (suffix path) ".xlsx" then _ else _); reflexivity.
Qed.

Lemma mapM_raise_iff {A B : Type} (f : A -> result B) (l : list A) (e : Exception) :
  mapM f l = Raise e <->
  exists l1 a l2, l = l1 ++ a :: l2 /\ (forall x, In x l1 -> exists b, f x = Ok b) /\
                  f a = Raise e.
Proof.
  induction l as [|x l IH]; simpl.
  - split; [discriminate|]. intros [l1 [a [l2 [H _]]]]. destruct l1; discriminate H.
  - destruct (f x) as [b|e1] eqn:E; cbn [bind].
    + destruct (mapM f l) as [bs|e2] eqn:EM; cbn [bind].
      * split; [discriminate|]. intros [l1 [a [l2 [Hl [H1 Ha]]]]].
        destruct l1 as [|y l1]; simpl in Hl; injection Hl as -> ->; [congruence|].
        exfalso. enough (Hc : @Ok (list B) bs = Raise e) by discriminate Hc.
        apply IH. exists l1, a, l2. split; [reflexivity|]. split; [|assumption].
        intros z Hz. apply H1. right. assumption.
      * split.
        -- intros H. injection H as ->. destruct (proj1 IH eq_refl) as [l1 [a [l2 [-> [H1 Ha]]]]].
           exists (x :: l1), a, l2. split; [reflexivity|]. split; [|assumption].
           intros z [<-|Hz]; eauto.
        -- intros [l1 [a [l2 [Hl [H1 Ha]]]]].
           destruct l1 as [|y l1]; simpl in Hl; injection Hl as -> ->; [congruence|].
           apply IH. exists l1, a, l2. split; [reflexivity|]. split; [|assumption].
           intros z Hz. apply H1. right. assumption.
    + split.
      * intros H. injection H as ->. exists [], x, l. split; [reflexivity|].
        split; [intros ? []|assumption].
      * intros [l1 [a [l2 [Hl [H1 Ha]]]]].
        destruct l1 as [|y l1]; simpl in Hl; injection Hl as -> ->; [congruence|].
        destruct (H1 _ (or_introl eq_refl)) as [b Hb]. congruence.
Qed.

Lemma mapM_ok_Forall2 {A B : Type} (f : A -> result B) (l : list A) (bs : list B) :
  mapM f l = Ok bs -> Forall2 (fun a b => f a = Ok b) l bs.
Proof.
  revert bs. induction l as [|a l IH]; simpl; intros bs H.
  - injection H as <-. constructor.
  - bind_inv H. bind_inv H. injection H as <-. constructor; auto.
Qed.

Lemma Forall2_weaken_In {A B : Type} (P Q : A -> B -> Prop) (l : list A) (bs : list B) :
  Forall2 P l bs -> (forall a b, In a l -> P a b -> Q a b) -> Forall2 Q l bs.
Proof.
  induction 1 as [|a b l bs Hab _ IH]; intros H; constructor.
  - apply H; [left; reflexivity | assumption].
  - apply IH. intros a' b' Hin. apply H. right. assumption.
Qed.

Lemma wanted_supported (w : string) (file : Path) (files : list Path) :
  In file (filter (wanted w) files) -> In (suffix file) valid_extensions.
Proof.
  intros H. apply filter_In in H. destruct H as [_ H]. unfold wanted in H.
  apply andb_true_iff in H. apply str_in_In. tauto.
Qed.

Lemma import_wanted (w : string) (file : Path) (files : list Path) :
  In file (filter (wanted w) files) ->
  import_one_file Cells read_excel read_csv read_parquet file =
  match chosen_reader read_excel read_csv read_parquet file with
  | Ok df => Ok (rename Cells new_col_name df)
  | Raise e => Raise e
  end.
Proof.
  intros H. apply import_one_file_supported. eapply wanted_supported. eassumption.
Qed.

Lemma mapM_first_error {A B : Type} (f : A -> result B) (l1 l2 : list A) (a : A)
  (e : Exception) :
  (forall x, In x l1 -> exists b, f x = Ok b) -> f a = Raise e ->
  mapM f (l1 ++ a :: l2) = Raise e.
Proof.
  induction l1 as [|x l1 IH]; intros H1 Ha; simpl.
  - rewrite Ha. reflexivity.
  - destruct (H1 x (or_introl eq_refl)) as [b ->]. cbn [bind].
    rewrite IH; [reflexivity | | assumption]. intros z Hz. apply H1. right. assumption.
Qed.

(** [import_all] raises [ValueError] 'Folder not found' when the folder
    does not exist.  When it exists, the first wanted file that its reader
    cannot read makes the whole call raise the error of the reader, the
    wanted files before it having been imported: what was read so far is
    not returned. *)
Theorem import_all_first_error (folder : Path) (word_to_check : string)
  (aggregate : bool) :
  (path_exists folder = false ->
   import_all Cells read_excel read_csv read_parquet path_exists glob_all concat
     folder word_to_check aggregate
   = Raise (ValueError ("Folder not found: " ++ path_text folder)%string)) /\
  (forall (e : Exception) (before after : list Path) (file : Path),
     path_exists folder = true ->
     filter (wanted word_to_check) (glob_all folder) = before ++ file :: after ->
     (forall f, In f before ->
        exists table,
          import_one_file Cells read_excel read_csv read_parquet f = Ok table) ->
     chosen_reader read_excel read_csv read_parquet file = Raise e ->
     import_all Cells read_excel read_csv read_parquet path_exists glob_all concat
       folder word_to_check aggregate = Raise e).
Proof.
  unfold import_all. split.
  - intros ->. reflexivity.
  - intros e before after file -> Hl Hbefore Hfile. cbn [negb]. rewrite Hl.
    rewrite (mapM_first_error _ before after file e); [reflexivity | assumption|].
    rewrite (import_wanted word_to_check file (glob_all folder))
      by (rewrite Hl; apply in_or_app; right; left; reflexivity).
    rewrite Hfile. reflexivity.
Qed.

(** When [import_all] succeeds it has read every wanted file, in the order
    of the folder, and renamed its columns.  It returns the concatenated
    table only if [aggregate] is set and at least two files were read; with
    one file or none it returns the list of tables, [aggregate] or not. *)
Theorem import_all_returns (folder : Path) (word_to_check : string) (aggregate : bool)
  (res : Imported (DataFrame Cells)) :
  import_all Cells read_excel read_csv read_parquet path_exists glob_all concat
    folder word_to_check aggregate = Ok res ->
  exists tables,
    Forall2 (fun file table =>
               exists df, chosen_reader read_excel read_csv read_parquet file = Ok df /\
                          table = rename Cells new_col_name df)
            (filter (wanted word_to_check) (glob_all folder)) tables /\
    (aggregate = true -> (2 <= List.length tables)%nat ->
     exists table, concat tables = Ok table /\ res = Aggregated table) /\
    (aggregate = false \/ (List.length tables <= 1)%nat -> res = Listed tables).
Proof.
  unfold import_all. destruct (path_exists folder); cbn [negb]; [|discriminate].
  intros H. bind_inv H. exists x. split; [|split].
  - apply mapM_ok_Forall2 in Hstep. eapply Forall2_weaken_In; [exact Hstep|].
    intros f t Hf Hft. cbn beta in Hft.
    rewrite (import_wanted word_to_check f (glob_all folder) Hf) in Hft.
    destruct (chosen_reader _ _ _ f) as [df|]; [|discriminate Hft].
    injection Hft as <-. eauto.
  - intros -> Hlen. cbn [andb] in H.
    assert (E : Nat.ltb 1 (List.length x) = true) by (apply Nat.ltb_lt; lia).
    rewrite E in H. bind_inv H. injection H as <-. eauto.
  - intros [->|Hlen]; cbn [andb] in H.
    + injection H as <-. reflexivity.
    + assert (E : Nat.ltb 1 (List.length x) = false) by (apply Nat.ltb_ge; lia).
      rewrite E, andb_false_r in H. injection H as <-. reflexivity.
Qed.

End Folder.

Lemma rename_idempotent_witness :
  columns (rename unit new_col_name (rename unit new_col_name Samples.stray_file))
  = ["foo"; "release"].
Proof.
  rewrite (rename_idempotent unit Samples.stray_file). reflexivity.
Defined.

Lemma import_all_first_error_witness :
  import_all unit MoreSamples.fails_to_read Samples.reads_stray_file
    Samples.reads_stray_file (fun _ => true) MoreSamples.input_entries MoreSamples.stacked
    Samples.input_folder "Comp_Analysis" true
  = Raise (ValueError "Excel file format cannot be determined").
Proof.
  apply (proj2 (import_all_first_error unit MoreSamples.fails_to_read
                  Samples.reads_stray_file Samples.reads_stray_file (fun _ => true)
                  MoreSamples.input_entries MoreSamples.stacked Samples.input_folder
                  "Comp_Analysis" true)
           (ValueError "Excel file format cannot be determined")
           [joinpath Samples.input_folder "Comp_Analysis_FIL.csv"] []
           (joinpath Samples.input_folder "Comp_Analysis_2024.xlsx")).
  - reflexivity.
  - reflexivity.
  - intros f [<-|[]]. eexists. reflexivity.
  - reflexivity.
Defined.

Lemma import_all_returns_witness :
  exists tables,
    import_all unit Samples.reads_stray_file Samples.reads_stray_file
      Samples.reads_stray_file (fun _ => true) MoreSamples.one_entry MoreSamples.stacked
      Samples.input_folder "Comp_Analysis" true = Ok (Listed tables) /\
    List.length tables = 1%nat.
Proof.
  destruct (import_all unit Samples.reads_stray_file Samples.reads_stray_file
              Samples.reads_stray_file (fun _ => true) MoreSamples.one_entry
              MoreSamples.stacked Samples.input_folder "Comp_Analysis" true)
    as [res|e] eqn:E; [|vm_compute in E; discriminate E].
  destruct (import_all_returns unit _ _ _ _ _ _ _ _ _ res E) as [tables [HF [_ HL]]].
  exists tables.
  assert (Hlen : List.length tables = 1%nat).
  { apply Forall2_length in HF. rewrite <- HF. reflexivity. }
  split; [|exact Hlen]. f_equal. apply HL. right. lia.
Defined.

End FolderFacts.

(** ** Labelling twice *)

Module RelabelFacts.
Import C_shaping Outcome ShapeFacts FirstOrderFacts CommonFacts GroupFacts.

Lemma mapM_compose {A B C : Type} (f : B -> result C) (g : A -> B) (l : list A) :
  mapM f (map g l) = mapM (fun a => f (g a)) l.
Proof.
  induction l as [|a l IH]; simpl; [reflexivity|]. rewrite IH. reflexivity.
Qed.

Lemma map_snd_combine_ok {A B : Type} (f : A -> result B) (l : list A) (bs : list B) :
  mapM f l = Ok bs -> map snd (combine l bs) = bs.
Proof.
  revert bs. induction l as [|a l IH]; simpl; intros bs H.
  - injection H as <-. reflexivity.
  - bind_inv H. bind_inv H. injection H as <-. simpl. f_equal. auto.
Qed.

Lemma mapM_ext_in {A B : Type} (f g : A -> result B) (l : list A) :
  (forall a, In a l -> f a = g a) -> mapM f l = mapM g l.
Proof.
  induction l as [|a l IH]; simpl; intros H; [reflexivity|].
  rewrite (H a (or_introl eq_refl)), IH by auto. reflexivity.
Qed.

(** What [label_first_order] returns on a table that has the columns it
    reads and whose yearweeks all denote a date. *)
Lemma label_first_order_value (df : Frame) (w : option Z) (dts days : list Z) :
  (forall c, In c ["creation_yearweek"; "release"; "brand"; "customer"; "dedalo_area";
                   "acquisition_mode_group"] -> In c (columns df)) ->
  mapM (fun r => to_datetime_yearweek (creation_yearweek r)) (rows df) = Ok dts ->
  mapM (fun p => sub_datetime (snd p)
                   (transform_min (combine (rows df) dts) (first_order_key (fst p)) (snd p)))
       (combine (rows df) dts) = Ok days ->
  label_first_order df w =
  Ok (mkDataFrame (first_order_labels (columns df))
                  (first_order_rows w (combine (rows df) dts))).
Proof.
  intros Hc HM HS. unfold label_first_order.
  rewrite (proj2 (getitem_ok df "creation_yearweek")) by (apply Hc; simpl; tauto).
  cbn [bind]. rewrite HM. cbn [bind].
  match goal with |- context [getitems ?d ["release"; "brand"; "customer"; "dedalo_area"]] =>
    assert (G1 : getitems d ["release"; "brand"; "customer"; "dedalo_area"] = Ok tt)
  end.
  { apply getitems_ok. intros c Hin. cbn [columns]. apply In_with_label. right.
    apply Hc. simpl in *. tauto. }
  rewrite G1. cbn [bind rows]. rewrite HS. cbn [bind].
  match goal with |- context [getitem ?d "acquisition_mode_group"] =>
    assert (G2 : getitem d "acquisition_mode_group" = Ok tt)
  end.
  { apply getitem_ok. specialize (Hc "acquisition_mode_group"). simpl in Hc. labels. }
  rewrite G2. cbn [bind]. apply mapM_sub_datetime in HS. subst days.
  unfold first_order_labels, first_order_rows, assign. cbn [columns rows].
  rewrite combine_map_combine, !map_map. reflexivity.
Qed.

Lemma label_first_order_needs (df df' : Frame) (w : option Z) :
  label_first_order df w = Ok df' ->
  forall c, In c ["creation_yearweek"; "release"; "brand"; "customer"; "dedalo_area";
                  "acquisition_mode_group"] -> In c (columns df).
Proof.
  unfold label_first_order. intros H.
  bind_inv H. apply result_unit_ok, getitem_ok in Hstep.
  bind_inv H. bind_inv H. apply result_unit_ok in Hstep1. rewrite getitems_ok in Hstep1.
  bind_inv H. bind_inv H. apply result_unit_ok, getitem_ok in Hstep3.
  intros c Hc. simpl in Hc.
  destruct Hc as [<-|[<-|[<-|[<-|[<-|[<-|[]]]]]]]; try assumption.
  - specialize (Hstep1 "release"). simpl in Hstep1. labels.
  - specialize (Hstep1 "brand"). simpl in Hstep1. labels.
  - specialize (Hstep1 "customer"). simpl in Hstep1. labels.
  - specialize (Hstep1 "dedalo_area"). simpl in Hstep1. labels.
  - labels.
Qed.

Lemma first_order_labels_twice (ls : list string) :
  first_order_labels (first_order_labels ls) = first_order_labels ls.
Proof.
  set (L := first_order_labels ls).
  assert (H1 : ~ In "creation_yearweek_dt" L) by (unfold L, first_order_labels; labels).
  assert (H2 : ~ In "first_creation_yearweek_dt" L) by (unfold L, first_order_labels; labels).
  assert (H3 : ~ In "week_diff" L) by (unfold L, first_order_labels; labels).
  assert (H4 : In "first_order" L) by (unfold L, first_order_labels; labels).
  assert (H5 : In "new_acquisition_mode" L) by (unfold L, first_order_labels; labels).
  unfold first_order_labels at 1.
  rewrite (with_label_absent "creation_yearweek_dt" L H1).
  rewrite (with_label_absent "first_creation_yearweek_dt")
    by (rewrite in_app_iff; simpl; intuition discriminate).
  rewrite (with_label_absent "week_diff")
    by (rewrite !in_app_iff; simpl; intuition discriminate).
  rewrite (with_label_present "first_order")
    by (rewrite !in_app_iff; auto).
  rewrite <- !app_assoc. cbn [app].
  unfold without_label at 3. rewrite filter_app. fold (without_label "creation_yearweek_dt" L).
  rewrite (without_label_absent _ _ H1). cbn [filter String.eqb Ascii.eqb Bool.eqb negb].
  unfold without_label at 2. rewrite filter_app.
  fold (without_label "first_creation_yearweek_dt" L).
  rewrite (without_label_absent _ _ H2). cbn [filter String.eqb Ascii.eqb Bool.eqb negb].
  unfold without_label at 1. rewrite filter_app. fold (without_label "week_diff" L).
  rewrite (without_label_absent _ _ H3). cbn [filter String.eqb Ascii.eqb Bool.eqb negb].
  rewrite app_nil_r. apply with_label_present. assumption.
Qed.

Lemma transform_min_relabelled (g : Row * Z -> Row) (dated : list (Row * Z))
  (k : string * string * string * string) (d : Z) :
  (forall p, first_order_key (g p) = first_order_key (fst p)) ->
  transform_min (map (fun p => (g p, snd p)) dated) k d = transform_min dated k d.
Proof.
  intros Hk. unfold transform_min. f_equal.
  rewrite filter_map_swap, map_map. cbn [fst snd].
  f_equal. apply filter_ext. intros p. rewrite Hk. reflexivity.
Qed.

Lemma combine_map_snd {A B C : Type} (g : A * B -> C) (l : list (A * B)) :
  combine (map g l) (map snd l) = map (fun p => (g p, snd p)) l.
Proof. induction l as [|p l IH]; simpl; congruence. Qed.

(** Labelling a labelled table again, with the same number of weeks,
    returns it unchanged: the labels depend on the dimensions and the
    creation week only. *)
Theorem label_first_order_idempotent (df df' : Frame) (w : option Z) :
  label_first_order df w = Ok df' -> label_first_order df' w = Ok df'.
Proof.
  intros H. pose proof (label_first_order_needs _ _ _ H) as Hneed.
  destruct (label_first_order_spans _ _ _ H) as [dts0 [days [HM0 HS]]].
  apply label_first_order_inv in H. destruct H as [dts [HM ->]].
  rewrite HM in HM0. injection HM0 as <-.
  set (dated := combine (rows df) dts) in *.
  set (g := fun p : Row * Z =>
              set_new_acquisition_mode
                (select_acquisition_mode
                   (set_first_order
                      (lt_weeks ((snd p - transform_min dated (first_order_key (fst p)) (snd p))
                                 # 7) w) (fst p)))
                (set_first_order
                   (lt_weeks ((snd p - transform_min dated (first_order_key (fst p)) (snd p))
                              # 7) w) (fst p))).
  assert (Hrows : first_order_rows w dated = map g dated).
  { unfold first_order_rows. rewrite map_map. reflexivity. }
  rewrite Hrows.
  assert (HM' : mapM (fun r => to_datetime_yearweek (creation_yearweek r)) (map g dated)
                = Ok dts).
  { rewrite mapM_compose.
    rewrite (mapM_ext_in _ (fun p => Ok (snd p))).
    - rewrite (mapM_map _ snd) by reflexivity. f_equal.
      eapply map_snd_combine_ok. exact HM.
    - intros [r d] Hin. exact (mapM_ok_combine _ _ _ HM _ _ Hin). }
  assert (Hc : combine (map g dated) dts = map (fun p => (g p, snd p)) dated).
  { assert (Hd : dts = map snd dated)
      by (symmetry; eapply map_snd_combine_ok; exact HM).
    rewrite Hd at 1. apply combine_map_snd. }
  rewrite (label_first_order_value
             (mkDataFrame (first_order_labels (columns df)) (map g dated)) w dts days).
  - cbn [columns rows]. apply f_equal. apply f_equal2.
    + apply first_order_labels_twice.
    + rewrite Hc. unfold first_order_rows. rewrite !map_map. apply map_ext.
      intros p. cbn [fst snd].
      rewrite (transform_min_relabelled g dated) by reflexivity.
      reflexivity.
  - intros c Hc0. cbn [columns]. specialize (Hneed c Hc0). simpl in Hc0.
    unfold first_order_labels.
    destruct Hc0 as [<-|[<-|[<-|[<-|[<-|[<-|[]]]]]]]; labels.
  - exact HM'.
  - cbn [rows]. rewrite Hc, mapM_compose. rewrite <- HS. apply mapM_ext_in.
    intros p _. cbn [fst snd].
    rewrite (transform_min_relabelled g dated) by reflexivity.
    reflexivity.
Qed.

Lemma label_first_order_idempotent_witness :
  exists df',
    label_first_order Samples.first_order_table (Some 2) = Ok df' /\
    label_first_order df' (Some 2) = Ok df'.
Proof.
  destruct (label_first_order Samples.first_order_table (Some 2)) as [df'|e] eqn:E;
    [|vm_compute in E; discriminate E].
  exists df'. split; [reflexivity|].
  exact (label_first_order_idempotent Samples.first_order_table df' (Some 2) E).
Defined.

End RelabelFacts.

(** ** The default call of create_comp_today *)

Module TodayFacts.
Import C_shaping Outcome CompFacts ShapeFacts LabelFacts.

Section Clock.

Variable year_week : Z.

Lemma first_order_rows_without_weeks (dated : list (Row * Z)) (r' : Row) :
  In r' (first_order_rows None dated) -> unlabelled_first r'.
Proof.
  intros Hr'. apply In_first_order_rows in Hr'. destruct Hr' as [r [d [_ ->]]].
  unfold unlabelled_first.
  cbn [lt_weeks first_order new_acquisition_mode set_new_acquisition_mode set_first_order].
  split; [reflexivity|]. unfold select_acquisition_mode.
  cbn [first_order set_first_order acquisition_mode_group andb negb].
  destruct (String.eqb (acquisition_mode_group r) "RED CARPET"); [discriminate|].
  destruct (String.eqb (acquisition_mode_group r) "REP"); discriminate.
Qed.

Lemma create_till_today_keeps_labels (df df' : Frame) :
  create_till_today year_week df = Ok df' ->
  forall r', In r' (rows df') ->
    exists r, In r (rows df) /\ first_order r' = first_order r /\
              new_acquisition_mode r' = new_acquisition_mode r.
Proof.
  intros H r' Hr'. apply create_till_today_inv in H. destruct H as [df1 [H ->]].
  cbn [assign rows] in Hr'. apply in_map_iff in Hr'. destruct Hr' as [r1 [<- Hr1]].
  apply create_common_creation_yearweek_inv in H.
  destruct H as [[_ ->]|[_ [my [diffs [_ [_ ->]]]]]].
  - exists r1. auto.
  - cbn [rows] in Hr1. apply In_common_rows in Hr1.
    destruct Hr1 as [r [c [p [Hr ->]]]]. exists r. auto.
Qed.

(** [create_comp_today] called without a number of weeks on a table that
    is not yet labelled labels it with no first order at all: in the table
    it returns no row has [first_order] true and none has the mode 'REP
    FIRST ORDER'. *)
Theorem create_comp_today_default_labels (df df' : Frame) :
  ~ In "new_acquisition_mode" (columns df) ->
  create_comp_today year_week df None = Ok df' ->
  forall r, In r (rows df') ->
    first_order r = false /\ new_acquisition_mode r <> "REP FIRST ORDER".
Proof.
  intros Hno H. apply create_comp_today_inv in H.
  destruct H as [df1 [df2 [df3 [H1 [H2 [H3 [_ ->]]]]]]].
  assert (E : has_column "new_acquisition_mode" df = false).
  { apply not_true_is_false. rewrite has_column_In. assumption. }
  rewrite E in H1. cbn [negb orb] in H1.
  apply label_first_order_inv in H1. destruct H1 as [dts [_ ->]].
  assert (F2 : forall r, In r (rows df2) -> unlabelled_first r).
  { destruct (negb (has_column "comp" _)).
    - apply create_comp_inv in H2. destruct H2 as [_ ->]. cbn [rows].
      intros r Hr. apply in_map_iff in Hr. destruct Hr as [r0 [<- Hr0]].
      exact (first_order_rows_without_weeks _ _ Hr0).
    - injection H2 as <-. cbn [rows]. intros r Hr.
      exact (first_order_rows_without_weeks _ _ Hr). }
  assert (F3 : forall r, In r (rows df3) -> unlabelled_first r).
  { destruct (negb (has_column "till_today" df2)).
    - intros r Hr. destruct (create_till_today_keeps_labels _ _ H3 r Hr) as [r0 [Hr0 [Ea Eb]]].
      unfold unlabelled_first. rewrite Ea, Eb. exact (F2 r0 Hr0).
    - injection H3 as <-. assumption. }
  cbn [rows]. intros r Hr. apply In_comp_today_rows in Hr.
  destruct Hr as [r0 [Hr0 [[-> _]| ->]]]; exact (F3 r0 Hr0).
Qed.

End Clock.

Lemma create_comp_today_default_labels_witness :
  exists df',
    create_comp_today 202430 Samples.orders_table None = Ok df' /\
    forall r, In r (rows df') ->
      first_order r = false /\ new_acquisition_mode r <> "REP FIRST ORDER".
Proof.
  destruct (create_comp_today 202430 Samples.orders_table None) as [df'|e] eqn:E;
    [|vm_compute in E; discriminate E].
  exists df'. split; [reflexivity|].
  apply (create_comp_today_default_labels 202430 Samples.orders_table df').
  - simpl. intuition discriminate.
  - exact E.
Defined.

End TodayFacts.
